(** * DriveFileSystem: the file-system coordinator of the Drive client

    A shallow embedding of [chromeos/drive/drive_file_system.cc].

    The class is written in continuation-passing style: every public
    operation issues an asynchronous call to a collaborator
    ([DriveResourceMetadata], [DriveCache], [DriveScheduler], the blocking
    pool, ...) and binds one of its own methods as the reply callback.  The
    embedding keeps that shape.  A bound callback ([base::Bind]) is a
    constructor that stores the bound arguments; a method is a function from
    the object's state to the new state and the list of things it did, in
    program order; an event loop delivers the replies.  The collaborators
    are an oracle ([Env]) that answers each call, so that a statement proved
    for every [Env] holds whatever the collaborators reply.

    What the embedding takes for granted:
    - the object outlives its callbacks (a callback bound to a weak pointer
      of a destroyed object is not run, and nothing is said of it here);
    - replies are delivered in the order in which the calls were started;
    - a method that reads through a null [scoped_ptr] stops the run
      ([NullDereference]): the source rules this out by [DCHECK] only. *)

From stdpp Require Import base decidable option list strings gmap sets.
From Stdlib Require Import ZArith Ascii String Lia.

Local Open Scope string_scope.
Local Open Scope list_scope.

(** ** Data model *)

(** [base::FilePath]; the empty path is [FilePath()]. *)
Abbreviation FilePath := string (only parsing).

(** Modelled from the spec: [enum DriveFileError] is declared in
    drive_file_error.h, which is not under src/.  The constructors are the
    error kinds of the specification (section 7), under the names the source
    uses for them; the source never names the kind the specification calls
    Cancelled. *)
Inductive DriveFileError : Set :=
| DRIVE_FILE_OK
| DRIVE_FILE_ERROR_FAILED
| DRIVE_FILE_ERROR_IN_USE
| DRIVE_FILE_ERROR_EXISTS
| DRIVE_FILE_ERROR_NOT_FOUND
| DRIVE_FILE_ERROR_ACCESS_DENIED
| DRIVE_FILE_ERROR_NO_SPACE
| DRIVE_FILE_ERROR_NOT_A_DIRECTORY
| DRIVE_FILE_ERROR_INVALID_OPERATION
| DRIVE_FILE_ERROR_CANCELLED.

#[global] Instance DriveFileError_eq_dec : EqDecision DriveFileError.
Proof. solve_decision. Defined.

(** Modelled from the spec: [google_apis::GDataErrorCode] is declared in
    gdata_errorcode.h, which is not under src/.  The source tests a status
    against [GDATA_CANCELLED] only; every other status is a numbered code. *)
Inductive GDataErrorCode : Set :=
| GDATA_CANCELLED
| GDATA_STATUS (code : Z).

#[global] Instance GDataErrorCode_eq_dec : EqDecision GDataErrorCode.
Proof. solve_decision. Defined.

(** [enum DriveFileType], the kind reported to a [GetFileCallback]. *)
Inductive DriveFileType : Set := REGULAR_FILE | HOSTED_DOCUMENT.

#[global] Instance DriveFileType_eq_dec : EqDecision DriveFileType.
Proof. solve_decision. Defined.

(** [DriveClientContext]: why the caller wants the content. *)
Inductive ContextType : Set := USER_INITIATED | BACKGROUND.

Record DriveClientContext : Set := { context_type : ContextType }.

(** [GURL] (of the URL library): a canonical URL; [is_empty] holds of the URL
    with no spec.  [GURL_of_string], in [Env], is its constructor from a
    string. *)
Record GURL : Set := { spec : string }.

Definition is_empty (url : GURL) : bool := bool_decide (spec url = EmptyString).

(** [base::PlatformFileInfo], what [file_util::GetFileInfo] reads from disk. *)
Module PlatformFileInfo.
Record t : Set := {
  size : Z;
  is_directory : bool;
  is_symbolic_link : bool;
  last_modified : Z;
  last_accessed : Z;
  creation_time : Z
}.
(** [base::PlatformFileInfo()], what the reply sees when the task failed. *)
Definition default_constructed : t :=
  {| size := 0; is_directory := false; is_symbolic_link := false;
     last_modified := 0; last_accessed := 0; creation_time := 0 |}.
End PlatformFileInfo.

(** The messages of drive.proto (drive.pb.h is generated, and not under
    src/), with the fields that the class reads.  [PlatformFileInfoProto] has
    the fields of [base::PlatformFileInfo].  An optional message field is an
    [option]; its accessor returns the default instance when the field is not
    set, as generated protobuf code does. *)
Module PlatformFileInfoProto.
Record t : Set := {
  size : Z;
  is_directory : bool;
  is_symbolic_link : bool;
  last_modified : Z;
  last_accessed : Z;
  creation_time : Z
}.
Definition default_instance : t :=
  {| size := 0; is_directory := false; is_symbolic_link := false;
     last_modified := 0; last_accessed := 0; creation_time := 0 |}.
End PlatformFileInfoProto.

Record DriveFileSpecificInfo : Set := {
  content_mime_type : string;
  file_md5 : string;
  is_hosted_document : bool;
  alternate_url : string
}.

Definition DriveFileSpecificInfo_default_instance : DriveFileSpecificInfo :=
  {| content_mime_type := EmptyString; file_md5 := EmptyString;
     is_hosted_document := false; alternate_url := EmptyString |}.

Record DriveDirectorySpecificInfo : Set := { changestamp : Z }.

Record DriveEntryProto : Set := {
  resource_id : string;
  file_info : PlatformFileInfoProto.t;
  optional_file_specific_info : option DriveFileSpecificInfo;
  optional_directory_specific_info : option DriveDirectorySpecificInfo
}.

Definition has_file_specific_info (e : DriveEntryProto) : bool :=
  match optional_file_specific_info e with Some _ => true | None => false end.

Definition file_specific_info (e : DriveEntryProto) : DriveFileSpecificInfo :=
  default DriveFileSpecificInfo_default_instance (optional_file_specific_info e).

Definition directory_specific_info (e : DriveEntryProto)
  : DriveDirectorySpecificInfo :=
  default {| changestamp := 0 |} (optional_directory_specific_info e).

(** [*entry_proto->mutable_file_info() = info]. *)
Definition set_file_info (e : DriveEntryProto) (info : PlatformFileInfoProto.t)
  : DriveEntryProto :=
  {| resource_id := resource_id e;
     file_info := info;
     optional_file_specific_info := optional_file_specific_info e;
     optional_directory_specific_info := optional_directory_specific_info e |}.

(** [DriveCacheEntry], the cache's record for one (resource id, md5);
    drive.pb.h again. *)
Module DriveCacheEntry.
Record t : Set := {
  is_present : bool;
  is_pinned : bool;
  is_dirty : bool
}.
End DriveCacheEntry.

(** [google_apis::ResourceEntry], the server's description of an entry
    (gdata_wapi_parser.h, not under src/), with the fields that the class
    reads. *)
Module ResourceEntry.
Record t : Set := {
  resource_id : string;
  download_url : GURL;
  file_md5 : string
}.
End ResourceEntry.

(** [DirectoryFetchInfo]; the default-constructed one is empty. *)
Record DirectoryFetchInfo : Set := {
  dfi_resource_id : string;
  dfi_changestamp : Z
}.

Definition DirectoryFetchInfo_empty : DirectoryFetchInfo :=
  {| dfi_resource_id := EmptyString; dfi_changestamp := 0 |}.

Inductive CacheSubDirectoryType : Set :=
| CACHE_TYPE_TMP_DOWNLOADS
| CACHE_TYPE_TMP_DOCUMENTS.

Inductive FileOperationType : Set := FILE_OPERATION_MOVE | FILE_OPERATION_COPY.

Definition kMimeTypeJson : string := "application/json".
Definition kEmptyFilePath : string := "/dev/null".
Definition kFastPollingIntervalInSec : Z := 60.
Definition kSlowPollingIntervalInSec : Z := 300.

(** ** Callbacks

    One inductive type for each callback signature of the source.  A
    callback is either supplied by the caller of a public operation
    ([Caller_...], identified by a number) or made by [base::Bind] from a
    method and its bound arguments ([Bind_<method>]). *)

(** [void(DriveFileError, const base::FilePath&)] *)
Inductive OpenFileCallback : Set :=
| Caller_OpenFileCallback (id : nat)
| Bind_OnOpenFileFinished (file_path : FilePath) (callback : OpenFileCallback).

Module GetFileCompleteForOpenParams.
Record t : Set := {
  callback : OpenFileCallback;
  resource_id : string;
  md5 : string
}.
End GetFileCompleteForOpenParams.

(** [void(DriveFileError, const base::FilePath&, const std::string& mime_type,
    DriveFileType)] *)
Inductive GetFileCallback : Set :=
| Caller_GetFileCallback (id : nat)
| Bind_OnGetFileCompleteForOpenFile (params : GetFileCompleteForOpenParams.t).

(** [google_apis::GetContentCallback]: null, or the caller's. *)
Definition GetContentCallback : Set := option nat.

Module GetResolvedFileParams.
Record t : Set := {
  drive_file_path : FilePath;
  context : DriveClientContext;
  entry_proto : DriveEntryProto;
  get_file_callback : GetFileCallback;
  get_content_callback : GetContentCallback
}.
(** [params->entry_proto = entry_proto.Pass()] *)
Definition set_entry_proto (params : t) (e : DriveEntryProto) : t :=
  {| drive_file_path := drive_file_path params;
     context := context params;
     entry_proto := e;
     get_file_callback := get_file_callback params;
     get_content_callback := get_content_callback params |}.
End GetResolvedFileParams.

(** [void(DriveFileError, const base::FilePath&, scoped_ptr<DriveEntryProto>)] *)
Inductive GetEntryInfoWithFilePathCallback : Set :=
| Caller_GetEntryInfoWithFilePathCallback (id : nat)
| Bind_GetEntryInfoByResourceIdAfterGetEntry
    (callback : GetEntryInfoWithFilePathCallback)
| Bind_GetFileByResourceIdAfterGetEntry
    (context : DriveClientContext) (get_file_callback : GetFileCallback)
    (get_content_callback : GetContentCallback)
| Bind_GetResolvedFileByPathAfterRefreshEntry
    (params : GetResolvedFileParams.t) (download_url : GURL).

(** [GetEntryInfoCallback] is
    [void(DriveFileError, scoped_ptr<DriveEntryProto>)] and
    [FileOperationCallback] is [void(DriveFileError)]. *)
Inductive GetEntryInfoCallback : Set :=
| Caller_GetEntryInfoCallback (id : nat)
| Bind_RunGetEntryInfoWithFilePathCallback
    (callback : GetEntryInfoWithFilePathCallback) (path : FilePath)
| Bind_OnGetEntryInfoForCreateFile
    (file_path : FilePath) (is_exclusive : bool)
    (callback : FileOperationCallback)
| Bind_OnGetEntryInfoCompleteForGetFileByPath
    (file_path : FilePath) (callback : GetFileCallback)
| Bind_GetEntryInfoByPathAfterGetEntry1
    (file_path : FilePath) (callback : GetEntryInfoCallback)
| Bind_GetEntryInfoByPathAfterGetEntry2 (callback : GetEntryInfoCallback)
| Bind_OnGetEntryInfoCompleteForOpenFile
    (file_path : FilePath) (callback : OpenFileCallback)
| Bind_CloseFileAfterGetEntryInfo
    (file_path : FilePath) (callback : FileOperationCallback)
with FileOperationCallback : Set :=
| Caller_FileOperationCallback (id : nat)
| Bind_EmptyFileOperationCallback
| Bind_CloseFileFinalize
    (file_path : FilePath) (callback : FileOperationCallback)
| Bind_GetEntryInfoByPathAfterLoad
    (file_path : FilePath) (callback : GetEntryInfoCallback)
| Bind_OnMarkDirtyInCacheCompleteForOpenFile
    (params : GetFileCompleteForOpenParams.t)
| Bind_GetResolvedFileByPathAfterStore
    (params : GetResolvedFileParams.t) (downloaded_file_path : FilePath).

(** [GetFileFromCacheCallback], [void(DriveFileError, const base::FilePath&)]:
    the signature of [OpenFileCallback], and [OpenFile] hands its callback to
    [DriveCache::GetFile] as one. *)
Inductive GetFileFromCacheCallback : Set :=
| Bind_GetResolvedFileByPathAfterGetFileFromCache
    (params : GetResolvedFileParams.t)
| Bind_GetResolvedFileByPathAfterGetFile (params : GetResolvedFileParams.t)
| Bind_CheckLocalModificationAndRunAfterGetCacheFile
    (entry_proto : DriveEntryProto) (callback : GetEntryInfoCallback)
| Of_OpenFileCallback (callback : OpenFileCallback).

(** [GetCacheEntryCallback], [void(bool success, const DriveCacheEntry&)] *)
Inductive GetCacheEntryCallback : Set :=
| Bind_GetResolvedFileByPathAfterGetCacheEntryForCancel
    (resource_id : string) (md5 : string)
| Bind_CheckLocalModificationAndRunAfterGetCacheEntry
    (entry_proto : DriveEntryProto) (callback : GetEntryInfoCallback).

(** [google_apis::GetResourceEntryCallback] *)
Inductive GetResourceEntryCallback : Set :=
| Bind_GetResolvedFileByPathAfterGetResourceEntry
    (params : GetResolvedFileParams.t).

(** [google_apis::DownloadActionCallback] *)
Inductive DownloadActionCallback : Set :=
| Bind_GetResolvedFileByPathAfterDownloadFile
    (params : GetResolvedFileParams.t).

(** [InitializeCacheCallback], [void(bool)] *)
Inductive InitializeCacheCallback : Set :=
| Bind_GetResolvedFileByPathAfterFreeDiskSpace
    (params : GetResolvedFileParams.t) (download_url : GURL).

(** [base::Closure]: a callback with all its arguments bound. *)
Inductive Closure : Set :=
| Bind_OpenFileCallback
    (callback : OpenFileCallback) (error : DriveFileError) (path : FilePath)
| Bind_FileOperationCallback
    (callback : FileOperationCallback) (error : DriveFileError).

(** ** Calls to the collaborators

    Every asynchronous operation the class starts, with its arguments and the
    callback that receives the reply. *)
Inductive Call : Set :=
(* DriveResourceMetadata, the MetadataStore *)
| ResourceMetadata_GetEntryInfoByPath
    (file_path : FilePath) (callback : GetEntryInfoCallback)
| ResourceMetadata_GetEntryInfoByResourceId
    (resource_id : string) (callback : GetEntryInfoWithFilePathCallback)
| ResourceMetadata_RefreshEntry
    (entry_proto : DriveEntryProto) (callback : GetEntryInfoWithFilePathCallback)
(* DriveCache, the ContentCache *)
| Cache_GetFile
    (resource_id md5 : string) (callback : GetFileFromCacheCallback)
| Cache_GetCacheEntry
    (resource_id md5 : string) (callback : GetCacheEntryCallback)
| Cache_MarkDirty (resource_id md5 : string) (callback : FileOperationCallback)
| Cache_CommitDirty (resource_id md5 : string) (callback : FileOperationCallback)
| Cache_Unpin (resource_id md5 : string) (callback : FileOperationCallback)
| Cache_Store
    (resource_id md5 : string) (source_path : FilePath)
    (file_operation_type : FileOperationType) (callback : FileOperationCallback)
| Cache_FreeDiskSpaceIfNeededFor
    (num_bytes : Z) (callback : InitializeCacheCallback)
(* DriveScheduler and the drive operations, the RemoteStore *)
| Scheduler_GetResourceEntry
    (resource_id : string) (context : DriveClientContext)
    (callback : GetResourceEntryCallback)
| Scheduler_DownloadFile
    (virtual_path local_cache_path : FilePath) (download_url : GURL)
    (context : DriveClientContext) (download_action_callback : DownloadActionCallback)
    (get_content_callback : GetContentCallback)
| DriveOperations_TransferRegularFile
    (local_file_path remote_dest_file_path : FilePath)
    (callback : FileOperationCallback)
(* ChangeListLoader, the ChangeSynchronizer *)
| ChangeListLoader_LoadIfNeeded
    (directory_fetch_info : DirectoryFetchInfo) (callback : FileOperationCallback)
(* tasks posted to the blocking pool, with the bound arguments of the reply *)
| BlockingPool_CreateDocumentJsonFileOnBlockingPool
    (document_dir : FilePath) (edit_url : GURL) (resource_id : string)
    (reply_params : GetResolvedFileParams.t)
| BlockingPool_CreateTemporaryFileInDir
    (dir : FilePath) (reply_params : GetResolvedFileParams.t)
    (reply_download_url : GURL)
| BlockingPool_GetFileInfo
    (file_path : FilePath) (reply_entry_proto : DriveEntryProto)
    (reply_callback : GetEntryInfoCallback)
| BlockingPool_Delete (path : FilePath) (recursive : bool)
(* base::MessageLoopProxy::current()->PostTask *)
| MessageLoop_PostTask (task : Closure).

(** The RemoteStore is reached through the scheduler and the drive
    operations. *)
Definition is_remote_store_call (c : Call) : bool :=
  match c with
  | Scheduler_GetResourceEntry _ _ _
  | Scheduler_DownloadFile _ _ _ _ _ _
  | DriveOperations_TransferRegularFile _ _ _ => true
  | _ => false
  end.

(** The operations of the ContentCache that change the dirty or the pinned
    state of a cache record. *)
Definition is_cache_dirty_or_pin_call (c : Call) : bool :=
  match c with
  | Cache_MarkDirty _ _ _ | Cache_CommitDirty _ _ _ | Cache_Unpin _ _ _ => true
  | _ => false
  end.

Definition is_cache_call (c : Call) : bool :=
  match c with
  | Cache_GetFile _ _ _ | Cache_GetCacheEntry _ _ _ | Cache_MarkDirty _ _ _
  | Cache_CommitDirty _ _ _ | Cache_Unpin _ _ _ | Cache_Store _ _ _ _ _
  | Cache_FreeDiskSpaceIfNeededFor _ _ => true
  | _ => false
  end.

(** ** What a method does

    In program order: start an asynchronous call, run a callback, notify the
    observers.  [NullDereference] stands for a method reading through a null
    [scoped_ptr], which the source excludes by [DCHECK] only. *)
Inductive Action : Set :=
| Invoke (c : Call)
| Run_OpenFileCallback
    (callback : OpenFileCallback) (error : DriveFileError)
    (cache_file_path : FilePath)
| Run_GetFileCallback
    (callback : GetFileCallback) (error : DriveFileError)
    (local_file : FilePath) (mime_type : string) (file_type : DriveFileType)
| Run_GetFileFromCacheCallback
    (callback : GetFileFromCacheCallback) (error : DriveFileError)
    (cache_file_path : FilePath)
| Run_GetCacheEntryCallback
    (callback : GetCacheEntryCallback) (success : bool)
    (cache_entry : DriveCacheEntry.t)
| Run_FileOperationCallback
    (callback : FileOperationCallback) (error : DriveFileError)
| Run_GetEntryInfoCallback
    (callback : GetEntryInfoCallback) (error : DriveFileError)
    (entry_proto : option DriveEntryProto)
| Run_GetEntryInfoWithFilePathCallback
    (callback : GetEntryInfoWithFilePathCallback) (error : DriveFileError)
    (drive_file_path : FilePath) (entry_proto : option DriveEntryProto)
| Run_GetResourceEntryCallback
    (callback : GetResourceEntryCallback) (status : GDataErrorCode)
    (entry : option ResourceEntry.t)
| Run_DownloadActionCallback
    (callback : DownloadActionCallback) (status : GDataErrorCode)
    (downloaded_file_path : FilePath)
| Run_InitializeCacheCallback
    (callback : InitializeCacheCallback) (has_enough_space : bool)
| Reply_CreateDocumentJsonFile
    (params : GetResolvedFileParams.t) (file_path : FilePath)
    (error : DriveFileError)
| Reply_CreateTemporaryFile
    (params : GetResolvedFileParams.t) (download_url : GURL)
    (temp_file : FilePath) (success : bool)
| Reply_GetFileInfo
    (entry_proto : DriveEntryProto) (callback : GetEntryInfoCallback)
    (file_info : PlatformFileInfo.t) (get_file_info_result : bool)
| Run_Closure (task : Closure)
| Observers_OnDirectoryChanged (directory_path : FilePath)
| NullDereference.

(** ** The object *)

(** [base::Timer] (of the base library), as the class uses it: repeating,
    ticking every [delay] seconds from [Start] on, until [Stop]. *)
Module Timer.
Record t : Set := { IsRunning : bool; delay : Z }.
Definition stopped : t := {| IsRunning := false; delay := 0 |}.
Definition Start (d : Z) (_ : t) : t := {| IsRunning := true; delay := d |}.
Definition Stop (timer : t) : t := {| IsRunning := false; delay := delay timer |}.
(** The time between two ticks of the timer as it is now, in seconds. *)
Definition tick_interval (timer : t) : option Z :=
  if IsRunning timer then Some (delay timer) else None.
End Timer.

(** The members of [DriveFileSystem] that its methods read and write. *)
Record DriveFileSystem : Type := {
  open_files_ : gset string;
  update_timer_ : Timer.t;
  hide_hosted_docs_ : bool;
  polling_interval_sec_ : Z;
  push_notification_enabled_ : bool
}.

(** The constructor's member initialisers. *)
Definition DriveFileSystem_new : DriveFileSystem :=
  {| open_files_ := ∅;
     update_timer_ := Timer.stopped;
     hide_hosted_docs_ := false;
     polling_interval_sec_ := kFastPollingIntervalInSec;
     push_notification_enabled_ := false |}.

Definition set_open_files_ (s : gset string) (fs : DriveFileSystem)
  : DriveFileSystem :=
  {| open_files_ := s;
     update_timer_ := update_timer_ fs;
     hide_hosted_docs_ := hide_hosted_docs_ fs;
     polling_interval_sec_ := polling_interval_sec_ fs;
     push_notification_enabled_ := push_notification_enabled_ fs |}.

Definition set_update_timer_ (timer : Timer.t) (fs : DriveFileSystem)
  : DriveFileSystem :=
  {| open_files_ := open_files_ fs;
     update_timer_ := timer;
     hide_hosted_docs_ := hide_hosted_docs_ fs;
     polling_interval_sec_ := polling_interval_sec_ fs;
     push_notification_enabled_ := push_notification_enabled_ fs |}.

Definition set_push_notification (enabled : bool) (interval : Z)
    (fs : DriveFileSystem) : DriveFileSystem :=
  {| open_files_ := open_files_ fs;
     update_timer_ := update_timer_ fs;
     hide_hosted_docs_ := hide_hosted_docs_ fs;
     polling_interval_sec_ := interval;
     push_notification_enabled_ := enabled |}.

(** ** What can be observed of a run *)

(** A caller's callback was run with these arguments. *)
Inductive CallerResult : Set :=
| OpenFileResult (id : nat) (error : DriveFileError) (cache_file_path : FilePath)
| GetFileResult
    (id : nat) (error : DriveFileError) (local_file : FilePath)
    (mime_type : string) (file_type : DriveFileType)
| FileOperationResult (id : nat) (error : DriveFileError)
| GetEntryInfoResult
    (id : nat) (error : DriveFileError) (entry_proto : option DriveEntryProto)
| GetEntryInfoWithFilePathResult
    (id : nat) (error : DriveFileError) (drive_file_path : FilePath)
    (entry_proto : option DriveEntryProto).

(** What a task did to the local disk, through [file_util]. *)
Inductive FileUtilOp : Set :=
| FileUtil_CreateTemporaryFileInDir (dir : FilePath) (created : option FilePath)
| FileUtil_WriteFile (path : FilePath) (data : string) (size written : Z)
| FileUtil_GetFileInfo (path : FilePath) (info : option PlatformFileInfo.t)
| FileUtil_Delete (path : FilePath) (recursive : bool).

(** [EvCaller] records the object as the caller's callback finds it. *)
Inductive Event : Type :=
| EvCall (c : Call)
| EvCaller (r : CallerResult) (fs : DriveFileSystem)
| EvObserver_OnDirectoryChanged (directory_path : FilePath)
| EvFileUtil (op : FileUtilOp)
| EvNullDereference.

(** ** The collaborators

    [GDataToDriveFileError], [ConvertResourceEntryToDriveEntryProto] and
    [ConvertPlatformFileInfoToProto] are helpers of this repository whose
    files are not under src/; [GURL] and [base::FilePath] belong to other
    libraries.  They are parameters, with the replies of the collaborators.
    The first argument of a reply is the number of replies delivered before
    it, so that a collaborator may answer the same call differently at
    different times. *)
Record Env : Type := {
  GDataToDriveFileError : GDataErrorCode -> DriveFileError;
  ConvertResourceEntryToDriveEntryProto : ResourceEntry.t -> DriveEntryProto;
  ConvertPlatformFileInfoToProto : PlatformFileInfo.t -> PlatformFileInfoProto.t;
  GURL_of_string : string -> GURL;
  DirName : FilePath -> FilePath;
  resource_metadata_GetEntryInfoByPath :
    nat -> FilePath -> DriveFileError * option DriveEntryProto;
  resource_metadata_GetEntryInfoByResourceId :
    nat -> string -> DriveFileError * FilePath * option DriveEntryProto;
  resource_metadata_RefreshEntry :
    nat -> DriveEntryProto -> DriveFileError * FilePath * option DriveEntryProto;
  cache_GetCacheDirectoryPath : CacheSubDirectoryType -> FilePath;
  cache_GetFile : nat -> string -> string -> DriveFileError * FilePath;
  cache_GetCacheEntry : nat -> string -> string -> bool * DriveCacheEntry.t;
  cache_MarkDirty : nat -> string -> string -> DriveFileError;
  cache_CommitDirty : nat -> string -> string -> DriveFileError;
  cache_Unpin : nat -> string -> string -> DriveFileError;
  cache_Store :
    nat -> string -> string -> FilePath -> FileOperationType -> DriveFileError;
  cache_FreeDiskSpaceIfNeededFor : nat -> Z -> bool;
  scheduler_GetResourceEntry :
    nat -> string -> DriveClientContext -> GDataErrorCode * option ResourceEntry.t;
  scheduler_DownloadFile :
    nat -> FilePath -> FilePath -> GURL -> DriveClientContext ->
    GDataErrorCode * FilePath;
  drive_operations_TransferRegularFile :
    nat -> FilePath -> FilePath -> DriveFileError;
  change_list_loader_LoadIfNeeded : nat -> DirectoryFetchInfo -> DriveFileError;
  file_util_CreateTemporaryFileInDir : nat -> FilePath -> option FilePath;
  file_util_WriteFile : nat -> FilePath -> string -> Z -> Z;
  file_util_GetFileInfo : nat -> FilePath -> option PlatformFileInfo.t
}.

(** ** Methods *)

(** A method body: from the object to the object it leaves and what it did. *)
Definition Handler : Type := DriveFileSystem -> DriveFileSystem * list Action.

Definition skip : Handler := fun fs => (fs, []).
Definition emit (a : Action) : Handler := fun fs => (fs, [a]).
Definition invoke (c : Call) : Handler := emit (Invoke c).
Definition modify (f : DriveFileSystem -> DriveFileSystem) : Handler :=
  fun fs => (f fs, []).
Definition seq (h1 h2 : Handler) : Handler :=
  fun fs =>
    let '(fs1, done1) := h1 fs in
    let '(fs2, done2) := h2 fs1 in
    (fs2, done1 ++ done2).

Declare Scope handler_scope.
Delimit Scope handler_scope with handler.
Bind Scope handler_scope with Handler.
Notation "h1 ;; h2" := (seq h1 h2)
  (at level 100, h2 at level 200, right associativity) : handler_scope.
Local Open Scope handler_scope.

(** [static_cast<int>] of a [size_t]: the value modulo 2^32, read as a signed
    32-bit integer. *)
Definition static_cast_int (n : Z) : Z := ((n + 2 ^ 31) mod 2 ^ 32 - 2 ^ 31)%Z.

Definition double_quote : string := String (ascii_of_nat 34) EmptyString.

(** What [%s] copies of [s.c_str()]: the characters of [s] before its first
    NUL, all of [s] when it holds none. *)
Fixpoint c_str (s : string) : string :=
  match s with
  | EmptyString => EmptyString
  | String c s =>
      if Ascii.eqb c Ascii.zero then EmptyString else String c (c_str s)
  end.

(** [base::StringPrintf("{\"url\": \"%s\", \"resource_id\": \"%s\"}",
    url.c_str(), resource_id.c_str())], formatted as [printf] does. *)
Definition document_json (url resource_id : string) : string :=
  "{" +:+ double_quote +:+ "url" +:+ double_quote +:+ ": "
      +:+ double_quote +:+ c_str url +:+ double_quote +:+ ", "
      +:+ double_quote +:+ "resource_id" +:+ double_quote +:+ ": "
      +:+ double_quote +:+ c_str resource_id +:+ double_quote +:+ "}".

Section Methods.

Variable env : Env.

(** Runs on the blocking pool, at time [now]: the error, the path left in
    [*temp_file_path], and what was done to the disk. *)
Definition CreateDocumentJsonFileOnBlockingPool
    (now : nat) (document_dir : FilePath) (edit_url : GURL)
    (resource_id : string) : DriveFileError * FilePath * list FileUtilOp :=
  match file_util_CreateTemporaryFileInDir env now document_dir with
  | Some temp_file_path =>
      let document_content := document_json (spec edit_url) resource_id in
      let document_size :=
        static_cast_int (Z.of_nat (String.length document_content)) in
      let written :=
        file_util_WriteFile env now temp_file_path document_content
          document_size in
      let ops :=
        [FileUtil_CreateTemporaryFileInDir document_dir (Some temp_file_path);
         FileUtil_WriteFile temp_file_path document_content document_size
           written] in
      if decide (written = document_size)
      then (DRIVE_FILE_OK, temp_file_path, ops)
      else (DRIVE_FILE_ERROR_FAILED, EmptyString, ops)
  | None =>
      (DRIVE_FILE_ERROR_FAILED, EmptyString,
       [FileUtil_CreateTemporaryFileInDir document_dir None])
  end.

Definition RunGetEntryInfoWithFilePathCallback
    (callback : GetEntryInfoWithFilePathCallback) (path : FilePath)
    (error : DriveFileError) (entry_proto : option DriveEntryProto) : Handler :=
  emit (Run_GetEntryInfoWithFilePathCallback callback error path entry_proto).

(** *** [GetResolvedFileParams] *)

Definition OnError (params : GetResolvedFileParams.t) (error : DriveFileError)
  : Handler :=
  emit (Run_GetFileCallback (GetResolvedFileParams.get_file_callback params)
          error EmptyString EmptyString REGULAR_FILE).

Definition OnCacheFound (params : GetResolvedFileParams.t)
    (local_file_path : FilePath) : Handler :=
  let entry_proto := GetResolvedFileParams.entry_proto params in
  if is_hosted_document (file_specific_info entry_proto)
  then emit (Run_GetFileCallback
               (GetResolvedFileParams.get_file_callback params)
               DRIVE_FILE_OK local_file_path kMimeTypeJson HOSTED_DOCUMENT)
  else emit (Run_GetFileCallback
               (GetResolvedFileParams.get_file_callback params)
               DRIVE_FILE_OK local_file_path
               (content_mime_type (file_specific_info entry_proto))
               REGULAR_FILE).

Definition OnStoreCompleted (params : GetResolvedFileParams.t)
    (local_file_path : FilePath) : Handler :=
  emit (Run_GetFileCallback
          (GetResolvedFileParams.get_file_callback params)
          DRIVE_FILE_OK local_file_path
          (content_mime_type
             (file_specific_info (GetResolvedFileParams.entry_proto params)))
          REGULAR_FILE).

(** *** Polling *)

Definition StartPolling : Handler :=
  fun fs =>
    modify (set_update_timer_
              (Timer.Start (polling_interval_sec_ fs) (update_timer_ fs))) fs.

Definition StopPolling : Handler :=
  fun fs =>
    if Timer.IsRunning (update_timer_ fs)
    then modify (set_update_timer_ (Timer.Stop (update_timer_ fs))) fs
    else skip fs.

Definition SetPushNotificationEnabled (enabled : bool) : Handler :=
  modify (set_push_notification enabled
            (if enabled then kSlowPollingIntervalInSec
             else kFastPollingIntervalInSec)).

Definition OnDirectoryChanged (directory_path : FilePath) : Handler :=
  emit (Observers_OnDirectoryChanged directory_path).

Definition LoadIfNeeded (directory_fetch_info : DirectoryFetchInfo)
    (callback : FileOperationCallback) : Handler :=
  invoke (ChangeListLoader_LoadIfNeeded directory_fetch_info callback).

(** *** [CreateFile] *)

Definition CreateFile (file_path : FilePath) (is_exclusive : bool)
    (callback : FileOperationCallback) : Handler :=
  invoke (ResourceMetadata_GetEntryInfoByPath file_path
            (Bind_OnGetEntryInfoForCreateFile file_path is_exclusive callback)).

Definition OnGetEntryInfoForCreateFile (file_path : FilePath)
    (is_exclusive : bool) (callback : FileOperationCallback)
    (result : DriveFileError) (entry_proto : option DriveEntryProto) : Handler :=
  if decide (result <> DRIVE_FILE_ERROR_NOT_FOUND /\ result <> DRIVE_FILE_OK)
  then emit (Run_FileOperationCallback callback result)
  else if decide (result = DRIVE_FILE_OK)
  then
    if is_exclusive
    then emit (Run_FileOperationCallback callback DRIVE_FILE_ERROR_EXISTS)
    else
      match entry_proto with
      | Some entry_proto =>
          if PlatformFileInfoProto.is_directory (file_info entry_proto)
             || is_hosted_document (file_specific_info entry_proto)
          then emit (Run_FileOperationCallback callback
                       DRIVE_FILE_ERROR_EXISTS)
          else emit (Run_FileOperationCallback callback DRIVE_FILE_OK)
      | None => emit NullDereference
      end
  else invoke (DriveOperations_TransferRegularFile kEmptyFilePath file_path
                 callback).

(** *** The file-materialization pipeline *)

Definition GetResolvedFileByPath (params : GetResolvedFileParams.t) : Handler :=
  let entry_proto := GetResolvedFileParams.entry_proto params in
  if negb (has_file_specific_info entry_proto)
  then OnError params DRIVE_FILE_ERROR_NOT_FOUND
  else if is_hosted_document (file_specific_info entry_proto)
  then invoke (BlockingPool_CreateDocumentJsonFileOnBlockingPool
                 (cache_GetCacheDirectoryPath env CACHE_TYPE_TMP_DOCUMENTS)
                 (GURL_of_string env
                    (alternate_url (file_specific_info entry_proto)))
                 (resource_id entry_proto)
                 params)
  else invoke (Cache_GetFile
                 (resource_id entry_proto)
                 (file_md5 (file_specific_info entry_proto))
                 (Bind_GetResolvedFileByPathAfterGetFileFromCache params)).

Definition GetFileByPath (file_path : FilePath) (callback : GetFileCallback)
  : Handler :=
  invoke (ResourceMetadata_GetEntryInfoByPath file_path
            (Bind_OnGetEntryInfoCompleteForGetFileByPath file_path callback)).

Definition OnGetEntryInfoCompleteForGetFileByPath (file_path : FilePath)
    (callback : GetFileCallback) (error : DriveFileError)
    (entry_proto : option DriveEntryProto) : Handler :=
  if decide (error <> DRIVE_FILE_OK)
  then emit (Run_GetFileCallback callback error EmptyString EmptyString
               REGULAR_FILE)
  else
    match entry_proto with
    | Some entry_proto =>
        GetResolvedFileByPath
          {| GetResolvedFileParams.drive_file_path := file_path;
             GetResolvedFileParams.context :=
               {| context_type := USER_INITIATED |};
             GetResolvedFileParams.entry_proto := entry_proto;
             GetResolvedFileParams.get_file_callback := callback;
             GetResolvedFileParams.get_content_callback := None |}
    | None => emit NullDereference
    end.

Definition GetFileByResourceId (resource_id : string)
    (context : DriveClientContext) (get_file_callback : GetFileCallback)
    (get_content_callback : GetContentCallback) : Handler :=
  invoke (ResourceMetadata_GetEntryInfoByResourceId resource_id
            (Bind_GetFileByResourceIdAfterGetEntry context get_file_callback
               get_content_callback)).

Definition GetFileByResourceIdAfterGetEntry (context : DriveClientContext)
    (get_file_callback : GetFileCallback)
    (get_content_callback : GetContentCallback) (error : DriveFileError)
    (file_path : FilePath) (entry_proto : option DriveEntryProto) : Handler :=
  if decide (error <> DRIVE_FILE_OK)
  then emit (Run_GetFileCallback get_file_callback DRIVE_FILE_ERROR_NOT_FOUND
               EmptyString EmptyString REGULAR_FILE)
  else
    match entry_proto with
    | Some entry_proto =>
        GetResolvedFileByPath
          {| GetResolvedFileParams.drive_file_path := file_path;
             GetResolvedFileParams.context := context;
             GetResolvedFileParams.entry_proto := entry_proto;
             GetResolvedFileParams.get_file_callback := get_file_callback;
             GetResolvedFileParams.get_content_callback :=
               get_content_callback |}
    | None => emit NullDereference
    end.

Definition GetResolvedFileByPathAfterCreateDocumentJsonFile
    (params : GetResolvedFileParams.t) (file_path : FilePath)
    (error : DriveFileError) : Handler :=
  if decide (error <> DRIVE_FILE_OK)
  then OnError params error
  else OnCacheFound params file_path.

Definition GetResolvedFileByPathAfterGetFileFromCache
    (params : GetResolvedFileParams.t) (error : DriveFileError)
    (cache_file_path : FilePath) : Handler :=
  if decide (error = DRIVE_FILE_OK)
  then OnCacheFound params cache_file_path
  else invoke (Scheduler_GetResourceEntry
                 (resource_id (GetResolvedFileParams.entry_proto params))
                 (GetResolvedFileParams.context params)
                 (Bind_GetResolvedFileByPathAfterGetResourceEntry params)).

Definition GetResolvedFileByPathAfterGetResourceEntry
    (params : GetResolvedFileParams.t) (status : GDataErrorCode)
    (entry : option ResourceEntry.t) : Handler :=
  let error := GDataToDriveFileError env status in
  if decide (error <> DRIVE_FILE_OK)
  then OnError params error
  else
    match entry with
    | Some entry =>
        let download_url := ResourceEntry.download_url entry in
        if is_empty download_url
        then OnError params DRIVE_FILE_ERROR_ACCESS_DENIED
        else invoke (ResourceMetadata_RefreshEntry
                       (ConvertResourceEntryToDriveEntryProto env entry)
                       (Bind_GetResolvedFileByPathAfterRefreshEntry params
                          download_url))
    | None => emit NullDereference
    end.

Definition GetResolvedFileByPathAfterRefreshEntry
    (params : GetResolvedFileParams.t) (download_url : GURL)
    (error : DriveFileError) (drive_file_path : FilePath)
    (entry_proto : option DriveEntryProto) : Handler :=
  if decide (error <> DRIVE_FILE_OK)
  then OnError params error
  else
    match entry_proto with
    | Some entry_proto =>
        let file_size := PlatformFileInfoProto.size (file_info entry_proto) in
        let params := GetResolvedFileParams.set_entry_proto params entry_proto in
        invoke (Cache_FreeDiskSpaceIfNeededFor file_size
                  (Bind_GetResolvedFileByPathAfterFreeDiskSpace params
                     download_url))
    | None => emit NullDereference
    end.

Definition GetResolvedFileByPathAfterFreeDiskSpace
    (params : GetResolvedFileParams.t) (download_url : GURL)
    (has_enough_space : bool) : Handler :=
  if negb has_enough_space
  then OnError params DRIVE_FILE_ERROR_NO_SPACE
  else invoke (BlockingPool_CreateTemporaryFileInDir
                 (cache_GetCacheDirectoryPath env CACHE_TYPE_TMP_DOWNLOADS)
                 params download_url).

Definition GetResolveFileByPathAfterCreateTemporaryFile
    (params : GetResolvedFileParams.t) (download_url : GURL)
    (temp_file : FilePath) (success : bool) : Handler :=
  if negb success
  then OnError params DRIVE_FILE_ERROR_FAILED
  else invoke (Scheduler_DownloadFile
                 (GetResolvedFileParams.drive_file_path params)
                 temp_file
                 download_url
                 (GetResolvedFileParams.context params)
                 (Bind_GetResolvedFileByPathAfterDownloadFile params)
                 (GetResolvedFileParams.get_content_callback params)).

Definition GetResolvedFileByPathAfterDownloadFile
    (params : GetResolvedFileParams.t) (status : GDataErrorCode)
    (downloaded_file_path : FilePath) : Handler :=
  let entry := GetResolvedFileParams.entry_proto params in
  (if decide (status = GDATA_CANCELLED)
   then invoke (Cache_GetCacheEntry
                  (resource_id entry)
                  (file_md5 (file_specific_info entry))
                  (Bind_GetResolvedFileByPathAfterGetCacheEntryForCancel
                     (resource_id entry)
                     (file_md5 (file_specific_info entry))))
   else skip) ;;
  let error := GDataToDriveFileError env status in
  if decide (error <> DRIVE_FILE_OK)
  then OnError params error
  else invoke (Cache_Store
                 (resource_id entry)
                 (file_md5 (file_specific_info entry))
                 downloaded_file_path
                 FILE_OPERATION_MOVE
                 (Bind_GetResolvedFileByPathAfterStore params
                    downloaded_file_path)).

Definition GetResolvedFileByPathAfterGetCacheEntryForCancel
    (resource_id md5 : string) (success : bool)
    (cache_entry : DriveCacheEntry.t) : Handler :=
  if success && DriveCacheEntry.is_pinned cache_entry
  then invoke (Cache_Unpin resource_id md5 Bind_EmptyFileOperationCallback)
  else skip.

Definition GetResolvedFileByPathAfterStore
    (params : GetResolvedFileParams.t) (downloaded_file_path : FilePath)
    (error : DriveFileError) : Handler :=
  if decide (error <> DRIVE_FILE_OK)
  then
    invoke (BlockingPool_Delete downloaded_file_path false) ;;
    OnError params error
  else
    let entry := GetResolvedFileParams.entry_proto params in
    OnDirectoryChanged
      (DirName env (GetResolvedFileParams.drive_file_path params)) ;;
    invoke (Cache_GetFile
              (resource_id entry)
              (file_md5 (file_specific_info entry))
              (Bind_GetResolvedFileByPathAfterGetFile params)).

Definition GetResolvedFileByPathAfterGetFile
    (params : GetResolvedFileParams.t) (error : DriveFileError)
    (cache_file : FilePath) : Handler :=
  if decide (error <> DRIVE_FILE_OK)
  then OnError params error
  else OnStoreCompleted params cache_file.

(** *** [GetEntryInfoByPath], [GetEntryInfoByResourceId] *)

Definition CheckLocalModificationAndRun (entry_proto : DriveEntryProto)
    (callback : GetEntryInfoCallback) : Handler :=
  if negb (has_file_specific_info entry_proto)
     || is_hosted_document (file_specific_info entry_proto)
  then emit (Run_GetEntryInfoCallback callback DRIVE_FILE_OK (Some entry_proto))
  else
    let resource_id := resource_id entry_proto in
    let md5 := file_md5 (file_specific_info entry_proto) in
    invoke (Cache_GetCacheEntry resource_id md5
              (Bind_CheckLocalModificationAndRunAfterGetCacheEntry entry_proto
                 callback)).

Definition CheckLocalModificationAndRunAfterGetCacheEntry
    (entry_proto : DriveEntryProto) (callback : GetEntryInfoCallback)
    (success : bool) (cache_entry : DriveCacheEntry.t) : Handler :=
  if negb success || negb (DriveCacheEntry.is_dirty cache_entry)
  then emit (Run_GetEntryInfoCallback callback DRIVE_FILE_OK (Some entry_proto))
  else
    let resource_id := resource_id entry_proto in
    let md5 := file_md5 (file_specific_info entry_proto) in
    invoke (Cache_GetFile resource_id md5
              (Bind_CheckLocalModificationAndRunAfterGetCacheFile entry_proto
                 callback)).

Definition CheckLocalModificationAndRunAfterGetCacheFile
    (entry_proto : DriveEntryProto) (callback : GetEntryInfoCallback)
    (error : DriveFileError) (local_cache_path : FilePath) : Handler :=
  if decide (error <> DRIVE_FILE_OK)
  then emit (Run_GetEntryInfoCallback callback DRIVE_FILE_OK (Some entry_proto))
  else invoke (BlockingPool_GetFileInfo local_cache_path entry_proto callback).

Definition CheckLocalModificationAndRunAfterGetFileInfo
    (entry_proto : DriveEntryProto) (callback : GetEntryInfoCallback)
    (file_info : PlatformFileInfo.t) (get_file_info_result : bool) : Handler :=
  if negb get_file_info_result
  then emit (Run_GetEntryInfoCallback callback DRIVE_FILE_ERROR_NOT_FOUND None)
  else
    let entry_file_info := ConvertPlatformFileInfoToProto env file_info in
    emit (Run_GetEntryInfoCallback callback DRIVE_FILE_OK
            (Some (set_file_info entry_proto entry_file_info))).

Definition GetEntryInfoByResourceId (resource_id : string)
    (callback : GetEntryInfoWithFilePathCallback) : Handler :=
  invoke (ResourceMetadata_GetEntryInfoByResourceId resource_id
            (Bind_GetEntryInfoByResourceIdAfterGetEntry callback)).

Definition GetEntryInfoByResourceIdAfterGetEntry
    (callback : GetEntryInfoWithFilePathCallback) (error : DriveFileError)
    (file_path : FilePath) (entry_proto : option DriveEntryProto) : Handler :=
  if decide (error <> DRIVE_FILE_OK)
  then emit (Run_GetEntryInfoWithFilePathCallback callback error EmptyString
               None)
  else
    match entry_proto with
    | Some entry_proto =>
        CheckLocalModificationAndRun entry_proto
          (Bind_RunGetEntryInfoWithFilePathCallback callback file_path)
    | None => emit NullDereference
    end.

Definition GetEntryInfoByPath (file_path : FilePath)
    (callback : GetEntryInfoCallback) : Handler :=
  invoke (ResourceMetadata_GetEntryInfoByPath file_path
            (Bind_GetEntryInfoByPathAfterGetEntry1 file_path callback)).

Definition GetEntryInfoByPathAfterGetEntry1 (file_path : FilePath)
    (callback : GetEntryInfoCallback) (error : DriveFileError)
    (entry_proto : option DriveEntryProto) : Handler :=
  if decide (error = DRIVE_FILE_OK)
  then
    match entry_proto with
    | Some entry_proto => CheckLocalModificationAndRun entry_proto callback
    | None => emit NullDereference
    end
  else LoadIfNeeded DirectoryFetchInfo_empty
         (Bind_GetEntryInfoByPathAfterLoad file_path callback).

Definition GetEntryInfoByPathAfterLoad (file_path : FilePath)
    (callback : GetEntryInfoCallback) (error : DriveFileError) : Handler :=
  if decide (error <> DRIVE_FILE_OK)
  then emit (Run_GetEntryInfoCallback callback error None)
  else invoke (ResourceMetadata_GetEntryInfoByPath file_path
                 (Bind_GetEntryInfoByPathAfterGetEntry2 callback)).

Definition GetEntryInfoByPathAfterGetEntry2 (callback : GetEntryInfoCallback)
    (error : DriveFileError) (entry_proto : option DriveEntryProto) : Handler :=
  if decide (error <> DRIVE_FILE_OK)
  then emit (Run_GetEntryInfoCallback callback error None)
  else
    match entry_proto with
    | Some entry_proto => CheckLocalModificationAndRun entry_proto callback
    | None => emit NullDereference
    end.

(** *** [OpenFile], [CloseFile] *)

Definition OpenFile (file_path : FilePath) (callback : OpenFileCallback)
  : Handler :=
  fun fs =>
    if decide (file_path ∈ open_files_ fs)
    then invoke (MessageLoop_PostTask
                   (Bind_OpenFileCallback callback DRIVE_FILE_ERROR_IN_USE
                      EmptyString)) fs
    else
      (modify (set_open_files_ ({[file_path]} ∪ open_files_ fs)) ;;
       invoke (ResourceMetadata_GetEntryInfoByPath file_path
                 (Bind_OnGetEntryInfoCompleteForOpenFile file_path
                    (Bind_OnOpenFileFinished file_path callback)))) fs.

Definition OnGetEntryInfoCompleteForOpenFile (file_path : FilePath)
    (callback : OpenFileCallback) (error : DriveFileError)
    (entry_proto : option DriveEntryProto) : Handler :=
  let error :=
    match entry_proto with
    | Some entry_proto =>
        if negb (has_file_specific_info entry_proto)
        then DRIVE_FILE_ERROR_NOT_FOUND else error
    | None => error
    end in
  if decide (error = DRIVE_FILE_OK)
  then
    match entry_proto with
    | Some entry_proto =>
        if bool_decide (file_md5 (file_specific_info entry_proto) = EmptyString)
           || is_hosted_document (file_specific_info entry_proto)
        then emit (Run_OpenFileCallback callback
                     DRIVE_FILE_ERROR_INVALID_OPERATION EmptyString)
        else
          GetResolvedFileByPath
            {| GetResolvedFileParams.drive_file_path := file_path;
               GetResolvedFileParams.context :=
                 {| context_type := USER_INITIATED |};
               GetResolvedFileParams.entry_proto := entry_proto;
               GetResolvedFileParams.get_file_callback :=
                 Bind_OnGetFileCompleteForOpenFile
                   {| GetFileCompleteForOpenParams.callback := callback;
                      GetFileCompleteForOpenParams.resource_id :=
                        resource_id entry_proto;
                      GetFileCompleteForOpenParams.md5 :=
                        file_md5 (file_specific_info entry_proto) |};
               GetResolvedFileParams.get_content_callback := None |}
    | None => emit NullDereference
    end
  else emit (Run_OpenFileCallback callback error EmptyString).

Definition OnGetFileCompleteForOpenFile
    (params : GetFileCompleteForOpenParams.t) (error : DriveFileError)
    (file_path : FilePath) (mime_type : string) (file_type : DriveFileType)
  : Handler :=
  if decide (error <> DRIVE_FILE_OK)
  then emit (Run_OpenFileCallback (GetFileCompleteForOpenParams.callback params)
               error EmptyString)
  else invoke (Cache_MarkDirty
                 (GetFileCompleteForOpenParams.resource_id params)
                 (GetFileCompleteForOpenParams.md5 params)
                 (Bind_OnMarkDirtyInCacheCompleteForOpenFile params)).

Definition OnMarkDirtyInCacheCompleteForOpenFile
    (params : GetFileCompleteForOpenParams.t) (error : DriveFileError)
  : Handler :=
  if decide (error <> DRIVE_FILE_OK)
  then emit (Run_OpenFileCallback (GetFileCompleteForOpenParams.callback params)
               error EmptyString)
  else invoke (Cache_GetFile
                 (GetFileCompleteForOpenParams.resource_id params)
                 (GetFileCompleteForOpenParams.md5 params)
                 (Of_OpenFileCallback
                    (GetFileCompleteForOpenParams.callback params))).

Definition OnOpenFileFinished (file_path : FilePath)
    (callback : OpenFileCallback) (result : DriveFileError)
    (cache_file_path : FilePath) : Handler :=
  (if decide (result <> DRIVE_FILE_OK)
   then fun fs => modify (set_open_files_ (open_files_ fs ∖ {[file_path]})) fs
   else skip) ;;
  emit (Run_OpenFileCallback callback result cache_file_path).

Definition CloseFile (file_path : FilePath) (callback : FileOperationCallback)
  : Handler :=
  fun fs =>
    if decide (file_path ∉ open_files_ fs)
    then invoke (MessageLoop_PostTask
                   (Bind_FileOperationCallback callback
                      DRIVE_FILE_ERROR_NOT_FOUND)) fs
    else invoke (ResourceMetadata_GetEntryInfoByPath file_path
                   (Bind_CloseFileAfterGetEntryInfo file_path
                      (Bind_CloseFileFinalize file_path callback))) fs.

Definition CloseFileAfterGetEntryInfo (file_path : FilePath)
    (callback : FileOperationCallback) (error : DriveFileError)
    (entry_proto : option DriveEntryProto) : Handler :=
  let error :=
    match entry_proto with
    | Some entry_proto =>
        if negb (has_file_specific_info entry_proto)
        then DRIVE_FILE_ERROR_NOT_FOUND else error
    | None => error
    end in
  if decide (error <> DRIVE_FILE_OK)
  then emit (Run_FileOperationCallback callback error)
  else
    match entry_proto with
    | Some entry_proto =>
        invoke (Cache_CommitDirty
                  (resource_id entry_proto)
                  (file_md5 (file_specific_info entry_proto))
                  callback)
    | None => emit NullDereference
    end.

Definition CloseFileFinalize (file_path : FilePath)
    (callback : FileOperationCallback) (result : DriveFileError) : Handler :=
  (fun fs => modify (set_open_files_ (open_files_ fs ∖ {[file_path]})) fs) ;;
  emit (Run_FileOperationCallback callback result).

(** ** The event loop *)

(** Running a callback made by [base::Bind] runs the bound method on the
    bound arguments followed by the arguments of the run.  A caller's
    callback and the empty callback do nothing to the object. *)
Definition dispatch (a : Action) : Handler :=
  match a with
  | Run_OpenFileCallback (Bind_OnOpenFileFinished file_path callback)
      error cache_file_path =>
      OnOpenFileFinished file_path callback error cache_file_path
  | Run_GetFileCallback (Bind_OnGetFileCompleteForOpenFile params)
      error local_file mime_type file_type =>
      OnGetFileCompleteForOpenFile params error local_file mime_type file_type
  | Run_GetFileFromCacheCallback callback error cache_file_path =>
      match callback with
      | Bind_GetResolvedFileByPathAfterGetFileFromCache params =>
          GetResolvedFileByPathAfterGetFileFromCache params error
            cache_file_path
      | Bind_GetResolvedFileByPathAfterGetFile params =>
          GetResolvedFileByPathAfterGetFile params error cache_file_path
      | Bind_CheckLocalModificationAndRunAfterGetCacheFile entry_proto
          callback =>
          CheckLocalModificationAndRunAfterGetCacheFile entry_proto callback
            error cache_file_path
      | Of_OpenFileCallback callback =>
          emit (Run_OpenFileCallback callback error cache_file_path)
      end
  | Run_GetCacheEntryCallback callback success cache_entry =>
      match callback with
      | Bind_GetResolvedFileByPathAfterGetCacheEntryForCancel resource_id md5 =>
          GetResolvedFileByPathAfterGetCacheEntryForCancel resource_id md5
            success cache_entry
      | Bind_CheckLocalModificationAndRunAfterGetCacheEntry entry_proto
          callback =>
          CheckLocalModificationAndRunAfterGetCacheEntry entry_proto callback
            success cache_entry
      end
  | Run_FileOperationCallback callback error =>
      match callback with
      | Caller_FileOperationCallback _ => skip
      | Bind_EmptyFileOperationCallback => skip
      | Bind_CloseFileFinalize file_path callback =>
          CloseFileFinalize file_path callback error
      | Bind_GetEntryInfoByPathAfterLoad file_path callback =>
          GetEntryInfoByPathAfterLoad file_path callback error
      | Bind_OnMarkDirtyInCacheCompleteForOpenFile params =>
          OnMarkDirtyInCacheCompleteForOpenFile params error
      | Bind_GetResolvedFileByPathAfterStore params downloaded_file_path =>
          GetResolvedFileByPathAfterStore params downloaded_file_path error
      end
  | Run_GetEntryInfoCallback callback error entry_proto =>
      match callback with
      | Caller_GetEntryInfoCallback _ => skip
      | Bind_RunGetEntryInfoWithFilePathCallback callback path =>
          RunGetEntryInfoWithFilePathCallback callback path error entry_proto
      | Bind_OnGetEntryInfoForCreateFile file_path is_exclusive callback =>
          OnGetEntryInfoForCreateFile file_path is_exclusive callback error
            entry_proto
      | Bind_OnGetEntryInfoCompleteForGetFileByPath file_path callback =>
          OnGetEntryInfoCompleteForGetFileByPath file_path callback error
            entry_proto
      | Bind_GetEntryInfoByPathAfterGetEntry1 file_path callback =>
          GetEntryInfoByPathAfterGetEntry1 file_path callback error entry_proto
      | Bind_GetEntryInfoByPathAfterGetEntry2 callback =>
          GetEntryInfoByPathAfterGetEntry2 callback error entry_proto
      | Bind_OnGetEntryInfoCompleteForOpenFile file_path callback =>
          OnGetEntryInfoCompleteForOpenFile file_path callback error
            entry_proto
      | Bind_CloseFileAfterGetEntryInfo file_path callback =>
          CloseFileAfterGetEntryInfo file_path callback error entry_proto
      end
  | Run_GetEntryInfoWithFilePathCallback callback error drive_file_path
      entry_proto =>
      match callback with
      | Caller_GetEntryInfoWithFilePathCallback _ => skip
      | Bind_GetEntryInfoByResourceIdAfterGetEntry callback =>
          GetEntryInfoByResourceIdAfterGetEntry callback error drive_file_path
            entry_proto
      | Bind_GetFileByResourceIdAfterGetEntry context get_file_callback
          get_content_callback =>
          GetFileByResourceIdAfterGetEntry context get_file_callback
            get_content_callback error drive_file_path entry_proto
      | Bind_GetResolvedFileByPathAfterRefreshEntry params download_url =>
          GetResolvedFileByPathAfterRefreshEntry params download_url error
            drive_file_path entry_proto
      end
  | Run_GetResourceEntryCallback
      (Bind_GetResolvedFileByPathAfterGetResourceEntry params) status entry =>
      GetResolvedFileByPathAfterGetResourceEntry params status entry
  | Run_DownloadActionCallback
      (Bind_GetResolvedFileByPathAfterDownloadFile params) status
      downloaded_file_path =>
      GetResolvedFileByPathAfterDownloadFile params status downloaded_file_path
  | Run_InitializeCacheCallback
      (Bind_GetResolvedFileByPathAfterFreeDiskSpace params download_url)
      has_enough_space =>
      GetResolvedFileByPathAfterFreeDiskSpace params download_url
        has_enough_space
  | Reply_CreateDocumentJsonFile params file_path error =>
      GetResolvedFileByPathAfterCreateDocumentJsonFile params file_path error
  | Reply_CreateTemporaryFile params download_url temp_file success =>
      GetResolveFileByPathAfterCreateTemporaryFile params download_url
        temp_file success
  | Reply_GetFileInfo entry_proto callback file_info get_file_info_result =>
      CheckLocalModificationAndRunAfterGetFileInfo entry_proto callback
        file_info get_file_info_result
  | Run_Closure (Bind_OpenFileCallback callback error path) =>
      emit (Run_OpenFileCallback callback error path)
  | Run_Closure (Bind_FileOperationCallback callback error) =>
      emit (Run_FileOperationCallback callback error)
  | _ => skip
  end.

(** The actions that run a caller's callback, and what the caller is told. *)
Definition caller_result (a : Action) : option CallerResult :=
  match a with
  | Run_OpenFileCallback (Caller_OpenFileCallback id) error path =>
      Some (OpenFileResult id error path)
  | Run_GetFileCallback (Caller_GetFileCallback id) error path mime_type
      file_type =>
      Some (GetFileResult id error path mime_type file_type)
  | Run_FileOperationCallback (Caller_FileOperationCallback id) error =>
      Some (FileOperationResult id error)
  | Run_GetEntryInfoCallback (Caller_GetEntryInfoCallback id) error
      entry_proto =>
      Some (GetEntryInfoResult id error entry_proto)
  | Run_GetEntryInfoWithFilePathCallback
      (Caller_GetEntryInfoWithFilePathCallback id) error path entry_proto =>
      Some (GetEntryInfoWithFilePathResult id error path entry_proto)
  | _ => None
  end.

(** The reply to a call, when it is the [now]-th to be answered: what happens
    on the disk, and the callback that is run. *)
Definition complete (now : nat) (c : Call) : list Event * list Action :=
  match c with
  | ResourceMetadata_GetEntryInfoByPath file_path callback =>
      let '(error, entry_proto) :=
        resource_metadata_GetEntryInfoByPath env now file_path in
      ([], [Run_GetEntryInfoCallback callback error entry_proto])
  | ResourceMetadata_GetEntryInfoByResourceId resource_id callback =>
      let '(error, file_path, entry_proto) :=
        resource_metadata_GetEntryInfoByResourceId env now resource_id in
      ([], [Run_GetEntryInfoWithFilePathCallback callback error file_path
              entry_proto])
  | ResourceMetadata_RefreshEntry entry callback =>
      let '(error, file_path, entry_proto) :=
        resource_metadata_RefreshEntry env now entry in
      ([], [Run_GetEntryInfoWithFilePathCallback callback error file_path
              entry_proto])
  | Cache_GetFile resource_id md5 callback =>
      let '(error, cache_file_path) := cache_GetFile env now resource_id md5 in
      ([], [Run_GetFileFromCacheCallback callback error cache_file_path])
  | Cache_GetCacheEntry resource_id md5 callback =>
      let '(success, cache_entry) :=
        cache_GetCacheEntry env now resource_id md5 in
      ([], [Run_GetCacheEntryCallback callback success cache_entry])
  | Cache_MarkDirty resource_id md5 callback =>
      ([], [Run_FileOperationCallback callback
              (cache_MarkDirty env now resource_id md5)])
  | Cache_CommitDirty resource_id md5 callback =>
      ([], [Run_FileOperationCallback callback
              (cache_CommitDirty env now resource_id md5)])
  | Cache_Unpin resource_id md5 callback =>
      ([], [Run_FileOperationCallback callback
              (cache_Unpin env now resource_id md5)])
  | Cache_Store resource_id md5 source_path file_operation_type callback =>
      ([], [Run_FileOperationCallback callback
              (cache_Store env now resource_id md5 source_path
                 file_operation_type)])
  | Cache_FreeDiskSpaceIfNeededFor num_bytes callback =>
      ([], [Run_InitializeCacheCallback callback
              (cache_FreeDiskSpaceIfNeededFor env now num_bytes)])
  | Scheduler_GetResourceEntry resource_id context callback =>
      let '(status, entry) :=
        scheduler_GetResourceEntry env now resource_id context in
      ([], [Run_GetResourceEntryCallback callback status entry])
  | Scheduler_DownloadFile virtual_path local_cache_path download_url context
      callback _ =>
      let '(status, downloaded_file_path) :=
        scheduler_DownloadFile env now virtual_path local_cache_path
          download_url context in
      ([], [Run_DownloadActionCallback callback status downloaded_file_path])
  | DriveOperations_TransferRegularFile local_file_path remote_dest_file_path
      callback =>
      ([], [Run_FileOperationCallback callback
              (drive_operations_TransferRegularFile env now local_file_path
                 remote_dest_file_path)])
  | ChangeListLoader_LoadIfNeeded directory_fetch_info callback =>
      ([], [Run_FileOperationCallback callback
              (change_list_loader_LoadIfNeeded env now directory_fetch_info)])
  | BlockingPool_CreateDocumentJsonFileOnBlockingPool document_dir edit_url
      resource_id params =>
      let '(error, temp_file_path, ops) :=
        CreateDocumentJsonFileOnBlockingPool now document_dir edit_url
          resource_id in
      (EvFileUtil <$> ops,
       [Reply_CreateDocumentJsonFile params temp_file_path error])
  | BlockingPool_CreateTemporaryFileInDir dir params download_url =>
      match file_util_CreateTemporaryFileInDir env now dir with
      | Some temp_file =>
          ([EvFileUtil (FileUtil_CreateTemporaryFileInDir dir (Some temp_file))],
           [Reply_CreateTemporaryFile params download_url temp_file true])
      | None =>
          ([EvFileUtil (FileUtil_CreateTemporaryFileInDir dir None)],
           [Reply_CreateTemporaryFile params download_url EmptyString false])
      end
  | BlockingPool_GetFileInfo file_path entry_proto callback =>
      match file_util_GetFileInfo env now file_path with
      | Some file_info =>
          ([EvFileUtil (FileUtil_GetFileInfo file_path (Some file_info))],
           [Reply_GetFileInfo entry_proto callback file_info true])
      | None =>
          ([EvFileUtil (FileUtil_GetFileInfo file_path None)],
           [Reply_GetFileInfo entry_proto callback
              PlatformFileInfo.default_constructed false])
      end
  | BlockingPool_Delete path recursive =>
      ([EvFileUtil (FileUtil_Delete path recursive)], [])
  | MessageLoop_PostTask task => ([], [Run_Closure task])
  end.

(** The object, what the method that is running has still to do, the calls
    that wait for their reply (oldest first), the number of replies
    delivered, and what has been observed so far (oldest first). *)
Record Config : Type := {
  object : DriveFileSystem;
  agenda : list Action;
  pending : list Call;
  now : nat;
  trace : list Event
}.

(** One step.  While a method is running its actions are taken in order: a
    call is started, a callback is run at once (every callback run of the
    modelled methods is the last statement of its path).  When the method has
    returned, the oldest pending call is answered. *)
Definition step (cfg : Config) : Config :=
  match agenda cfg with
  | a :: rest =>
      match a with
      | Invoke c =>
          {| object := object cfg; agenda := rest;
             pending := pending cfg ++ [c]; now := now cfg;
             trace := trace cfg ++ [EvCall c] |}
      | Observers_OnDirectoryChanged directory_path =>
          {| object := object cfg; agenda := rest;
             pending := pending cfg; now := now cfg;
             trace := trace cfg ++ [EvObserver_OnDirectoryChanged directory_path] |}
      | NullDereference =>
          {| object := object cfg; agenda := [];
             pending := []; now := now cfg;
             trace := trace cfg ++ [EvNullDereference] |}
      | _ =>
          match caller_result a with
          | Some r =>
              {| object := object cfg; agenda := rest;
                 pending := pending cfg; now := now cfg;
                 trace := trace cfg ++ [EvCaller r (object cfg)] |}
          | None =>
              let '(fs, todo) := dispatch a (object cfg) in
              {| object := fs; agenda := todo ++ rest;
                 pending := pending cfg; now := now cfg;
                 trace := trace cfg |}
          end
      end
  | [] =>
      match pending cfg with
      | c :: rest =>
          let '(events, todo) := complete (now cfg) c in
          {| object := object cfg; agenda := todo;
             pending := rest; now := S (now cfg);
             trace := trace cfg ++ events |}
      | [] => cfg
      end
  end.

Fixpoint run (fuel : nat) (cfg : Config) : Config :=
  match fuel with
  | O => cfg
  | S fuel => run fuel (step cfg)
  end.

(** Nothing left to do and nothing to wait for. *)
Definition quiescent (cfg : Config) : Prop :=
  agenda cfg = [] /\ pending cfg = [].

(** A public method is called on the object [fs], when [start] replies have
    been delivered. *)
Definition call (start : nat) (fs : DriveFileSystem) (method : Handler)
  : Config :=
  let '(fs', todo) := method fs in
  {| object := fs'; agenda := todo; pending := []; now := start; trace := [] |}.

End Methods.

(** The calls started and the results told to callers, in order. *)
Definition calls_of (t : list Event) : list Call :=
  omap (fun ev => match ev with EvCall c => Some c | _ => None end) t.

Definition caller_results_of (t : list Event) : list CallerResult :=
  omap (fun ev => match ev with EvCaller r _ => Some r | _ => None end) t.

Definition caller_events (t : list Event) : list (CallerResult * DriveFileSystem) :=
  omap (fun ev => match ev with EvCaller r fs => Some (r, fs) | _ => None end) t.

Definition file_util_ops_of (t : list Event) : list FileUtilOp :=
  omap (fun ev => match ev with EvFileUtil op => Some op | _ => None end) t.

(** ** Runs *)

(** [cfg'] is met on the way from [cfg]. *)
Definition reaches (env : Env) (cfg cfg' : Config) : Prop :=
  exists fuel, run env fuel cfg = cfg'.

(** The run from [cfg] ends in [cfg']: it gets there and nothing is left to
    do.  More fuel changes nothing then ([run_stable]). *)
Definition runs_to (env : Env) (cfg cfg' : Config) : Prop :=
  reaches env cfg cfg' /\ quiescent cfg'.

(** The run from [cfg] ends, in a configuration of which [P] holds. *)
Definition ends (env : Env) (cfg : Config) (P : Config -> Prop) : Prop :=
  exists cfg', runs_to env cfg cfg' /\ P cfg'.

(** On the way from [cfg] the [GetEntryInfoCallback] [callback] is run on
    [error] and [entry_proto], when no call is pending and the object is as it
    was in [cfg]. *)
Definition calls_back (env : Env) (cfg : Config)
    (callback : GetEntryInfoCallback) (error : DriveFileError)
    (entry_proto : option DriveEntryProto) : Prop :=
  exists now trace,
    reaches env cfg
      {| object := object cfg;
         agenda := [Run_GetEntryInfoCallback callback error entry_proto];
         pending := []; now := now; trace := trace |}.

(** [s] occurs in [t]. *)
Definition embeds (t s : string) : Prop :=
  exists before after, t = before +:+ s +:+ after.

(** [s] holds a NUL character, so that it is not its own [c_str]. *)
Fixpoint has_NUL (s : string) : bool :=
  match s with
  | EmptyString => false
  | String c s => Ascii.eqb c Ascii.zero || has_NUL s
  end.

(** ** Sample data, for the examples *)

Definition sample_file_info (mime md5 url : string) (hosted : bool)
  : DriveFileSpecificInfo :=
  {| content_mime_type := mime; file_md5 := md5; is_hosted_document := hosted;
     alternate_url := url |}.

Definition sample_entry (id : string) (directory : bool)
    (info : option DriveFileSpecificInfo) : DriveEntryProto :=
  {| resource_id := id;
     file_info :=
       {| PlatformFileInfoProto.size := 12;
          PlatformFileInfoProto.is_directory := directory;
          PlatformFileInfoProto.is_symbolic_link := false;
          PlatformFileInfoProto.last_modified := 1000;
          PlatformFileInfoProto.last_accessed := 1000;
          PlatformFileInfoProto.creation_time := 1000 |};
     optional_file_specific_info := info;
     optional_directory_specific_info :=
       if directory then Some {| changestamp := 5 |} else None |}.

Definition sample_regular_file : DriveEntryProto :=
  sample_entry "file:1" false
    (Some (sample_file_info "text/plain" "md5-a" "https://drive/a" false)).

Definition sample_directory : DriveEntryProto :=
  sample_entry "folder:2" true None.

Definition sample_hosted_document : DriveEntryProto :=
  sample_entry "document:3" false
    (Some (sample_file_info "application/vnd.google-apps.document" EmptyString
             "https://docs/edit?id=3" true)).

Definition sample_cache_entry (pinned dirty : bool) : DriveCacheEntry.t :=
  {| DriveCacheEntry.is_present := true;
     DriveCacheEntry.is_pinned := pinned; DriveCacheEntry.is_dirty := dirty |}.

Definition sample_platform_file_info : PlatformFileInfo.t :=
  {| PlatformFileInfo.size := 99;
     PlatformFileInfo.is_directory := false;
     PlatformFileInfo.is_symbolic_link := false;
     PlatformFileInfo.last_modified := 2000;
     PlatformFileInfo.last_accessed := 2001;
     PlatformFileInfo.creation_time := 1000 |}.

Definition sample_resource_entry (id : string) : ResourceEntry.t :=
  {| ResourceEntry.resource_id := id;
     ResourceEntry.download_url := {| spec := "https://drive/download/a" |};
     ResourceEntry.file_md5 := "md5-a" |}.

(** A status is a success exactly when it is HTTP 200 or 201, and a cancelled
    request is reported as the kind Cancelled. *)
Definition sample_GDataToDriveFileError (status : GDataErrorCode)
  : DriveFileError :=
  match status with
  | GDATA_CANCELLED => DRIVE_FILE_ERROR_CANCELLED
  | GDATA_STATUS 200 | GDATA_STATUS 201 => DRIVE_FILE_OK
  | GDATA_STATUS 404 => DRIVE_FILE_ERROR_NOT_FOUND
  | GDATA_STATUS _ => DRIVE_FILE_ERROR_FAILED
  end.

Definition sample_ConvertPlatformFileInfoToProto (info : PlatformFileInfo.t)
  : PlatformFileInfoProto.t :=
  {| PlatformFileInfoProto.size := PlatformFileInfo.size info;
     PlatformFileInfoProto.is_directory := PlatformFileInfo.is_directory info;
     PlatformFileInfoProto.is_symbolic_link :=
       PlatformFileInfo.is_symbolic_link info;
     PlatformFileInfoProto.last_modified := PlatformFileInfo.last_modified info;
     PlatformFileInfoProto.last_accessed := PlatformFileInfo.last_accessed info;
     PlatformFileInfoProto.creation_time := PlatformFileInfo.creation_time info |}.

(** Collaborators that answer every call the same way at all times: the
    metadata [lookup], the cached [cache_file] and [cache_entry], the results
    of [commit], [store] and [download], the temporary file and the file
    info. *)
Definition sample_env
    (lookup : DriveFileError * option DriveEntryProto)
    (cache_file : DriveFileError * FilePath)
    (cache_entry : bool * DriveCacheEntry.t)
    (commit store : DriveFileError)
    (download : GDataErrorCode)
    (temp_file : option FilePath)
    (info : option PlatformFileInfo.t) : Env :=
  {| GDataToDriveFileError := sample_GDataToDriveFileError;
     ConvertResourceEntryToDriveEntryProto := fun _ => sample_regular_file;
     ConvertPlatformFileInfoToProto := sample_ConvertPlatformFileInfoToProto;
     GURL_of_string := fun s => {| spec := s |};
     DirName := fun _ => "drive";
     resource_metadata_GetEntryInfoByPath := fun _ _ => lookup;
     resource_metadata_GetEntryInfoByResourceId :=
       fun _ _ => (fst lookup, "drive/a.txt", snd lookup);
     resource_metadata_RefreshEntry :=
       fun _ e => (DRIVE_FILE_OK, "drive/a.txt", Some e);
     cache_GetCacheDirectoryPath :=
       fun t =>
         match t with
         | CACHE_TYPE_TMP_DOWNLOADS => "cache/tmp/downloads"
         | CACHE_TYPE_TMP_DOCUMENTS => "cache/tmp/documents"
         end;
     cache_GetFile := fun _ _ _ => cache_file;
     cache_GetCacheEntry := fun _ _ _ => cache_entry;
     cache_MarkDirty := fun _ _ _ => DRIVE_FILE_OK;
     cache_CommitDirty := fun _ _ _ => commit;
     cache_Unpin := fun _ _ _ => DRIVE_FILE_OK;
     cache_Store := fun _ _ _ _ _ => store;
     cache_FreeDiskSpaceIfNeededFor := fun _ _ => true;
     scheduler_GetResourceEntry :=
       fun _ id _ => (GDATA_STATUS 200, Some (sample_resource_entry id));
     scheduler_DownloadFile := fun _ _ local _ _ => (download, local);
     drive_operations_TransferRegularFile := fun _ _ _ => DRIVE_FILE_OK;
     change_list_loader_LoadIfNeeded := fun _ _ => DRIVE_FILE_OK;
     file_util_CreateTemporaryFileInDir := fun _ _ => temp_file;
     file_util_WriteFile := fun _ _ _ size => size;
     file_util_GetFileInfo := fun _ _ => info |}.

Definition sample_params (entry : DriveEntryProto) (id : nat)
  : GetResolvedFileParams.t :=
  {| GetResolvedFileParams.drive_file_path := "drive/a.txt";
     GetResolvedFileParams.context := {| context_type := USER_INITIATED |};
     GetResolvedFileParams.entry_proto := entry;
     GetResolvedFileParams.get_file_callback := Caller_GetFileCallback id;
     GetResolvedFileParams.get_content_callback := None |}.

(** The collaborators when the metadata resolves every path to [entry] and
    the cache holds nothing. *)
Definition env_with_lookup (entry : DriveEntryProto) : Env :=
  sample_env (DRIVE_FILE_OK, Some entry)
    (DRIVE_FILE_ERROR_NOT_FOUND, EmptyString)
    (false, sample_cache_entry false false)
    DRIVE_FILE_OK DRIVE_FILE_OK (GDATA_STATUS 200)
    (Some "cache/tmp/file0") None.

(** The collaborators when the metadata resolves every path to [entry] and
    the cache holds its content. *)
Definition env_with_cached (entry : DriveEntryProto) : Env :=
  sample_env (DRIVE_FILE_OK, Some entry)
    (DRIVE_FILE_OK, "cache/files/a")
    (true, sample_cache_entry false false)
    DRIVE_FILE_OK DRIVE_FILE_OK (GDATA_STATUS 200)
    (Some "cache/tmp/file0") None.

(** The collaborators when the metadata resolves every path to the sample
    file, whose cache record is dirty; [cache_file] is what
    [DriveCache::GetFile] replies, and the file info of every file on disk is
    the sample one. *)
Definition env_with_dirty_record (cache_file : DriveFileError * FilePath) : Env :=
  sample_env (DRIVE_FILE_OK, Some sample_regular_file)
    cache_file
    (true, sample_cache_entry false true)
    DRIVE_FILE_OK DRIVE_FILE_OK (GDATA_STATUS 200)
    (Some "cache/tmp/file0") (Some sample_platform_file_info).

(** The collaborators when the content of the sample file is not in the
    cache until it has been downloaded and stored: [DriveCache::GetFile] misses
    at the first reply it gives and hits afterwards.  [download] and [store]
    are the outcomes of the download and of [DriveCache::Store], and the cache
    record is [pinned] or not. *)
Definition env_with_download (download : GDataErrorCode) (store : DriveFileError)
    (pinned : bool) : Env :=
  let env :=
    sample_env (DRIVE_FILE_OK, Some sample_regular_file)
      (DRIVE_FILE_ERROR_NOT_FOUND, EmptyString)
      (true, sample_cache_entry pinned false)
      DRIVE_FILE_OK store download (Some "cache/tmp/file0") None in
  {| GDataToDriveFileError := GDataToDriveFileError env;
     ConvertResourceEntryToDriveEntryProto :=
       ConvertResourceEntryToDriveEntryProto env;
     ConvertPlatformFileInfoToProto := ConvertPlatformFileInfoToProto env;
     GURL_of_string := GURL_of_string env;
     DirName := DirName env;
     resource_metadata_GetEntryInfoByPath :=
       resource_metadata_GetEntryInfoByPath env;
     resource_metadata_GetEntryInfoByResourceId :=
       resource_metadata_GetEntryInfoByResourceId env;
     resource_metadata_RefreshEntry := resource_metadata_RefreshEntry env;
     cache_GetCacheDirectoryPath := cache_GetCacheDirectoryPath env;
     cache_GetFile :=
       fun now _ _ =>
         if (now <=? 1)%nat then (DRIVE_FILE_ERROR_NOT_FOUND, EmptyString)
         else (DRIVE_FILE_OK, "cache/files/a");
     cache_GetCacheEntry := cache_GetCacheEntry env;
     cache_MarkDirty := cache_MarkDirty env;
     cache_CommitDirty := cache_CommitDirty env;
     cache_Unpin := cache_Unpin env;
     cache_Store := cache_Store env;
     cache_FreeDiskSpaceIfNeededFor := cache_FreeDiskSpaceIfNeededFor env;
     scheduler_GetResourceEntry := scheduler_GetResourceEntry env;
     scheduler_DownloadFile := scheduler_DownloadFile env;
     drive_operations_TransferRegularFile :=
       drive_operations_TransferRegularFile env;
     change_list_loader_LoadIfNeeded := change_list_loader_LoadIfNeeded env;
     file_util_CreateTemporaryFileInDir := file_util_CreateTemporaryFileInDir env;
     file_util_WriteFile := file_util_WriteFile env;
     file_util_GetFileInfo := file_util_GetFileInfo env |}.

(** Which collaborator a call goes to, to read a trace at a glance. *)
Definition call_name (c : Call) : string :=
  match c with
  | ResourceMetadata_GetEntryInfoByPath _ _ => "GetEntryInfoByPath"
  | ResourceMetadata_GetEntryInfoByResourceId _ _ => "GetEntryInfoByResourceId"
  | ResourceMetadata_RefreshEntry _ _ => "RefreshEntry"
  | Cache_GetFile _ _ _ => "GetFile"
  | Cache_GetCacheEntry _ _ _ => "GetCacheEntry"
  | Cache_MarkDirty _ _ _ => "MarkDirty"
  | Cache_CommitDirty _ _ _ => "CommitDirty"
  | Cache_Unpin _ _ _ => "Unpin"
  | Cache_Store _ _ _ _ _ => "Store"
  | Cache_FreeDiskSpaceIfNeededFor _ _ => "FreeDiskSpaceIfNeededFor"
  | Scheduler_GetResourceEntry _ _ _ => "GetResourceEntry"
  | Scheduler_DownloadFile _ _ _ _ _ _ => "DownloadFile"
  | DriveOperations_TransferRegularFile _ _ _ => "TransferRegularFile"
  | ChangeListLoader_LoadIfNeeded _ _ => "LoadIfNeeded"
  | BlockingPool_CreateDocumentJsonFileOnBlockingPool _ _ _ _ =>
      "CreateDocumentJsonFileOnBlockingPool"
  | BlockingPool_CreateTemporaryFileInDir _ _ _ => "CreateTemporaryFileInDir"
  | BlockingPool_GetFileInfo _ _ _ => "GetFileInfo"
  | BlockingPool_Delete _ _ => "Delete"
  | MessageLoop_PostTask _ => "PostTask"
  end.

(** ** More sample data *)

(** The collaborators when the metadata resolves no path: every lookup fails
    with [error]. *)
Definition env_without_entry (error : DriveFileError) : Env :=
  sample_env (error, None)
    (DRIVE_FILE_ERROR_NOT_FOUND, EmptyString)
    (false, sample_cache_entry false false)
    DRIVE_FILE_OK DRIVE_FILE_OK (GDATA_STATUS 200)
    (Some "cache/tmp/file0") None.

(** The calls with which the pipeline fetches content from the server and
    keeps it: the temporary file of the download, the download, the move into
    the cache. *)
Definition starts_download (c : Call) : bool :=
  match c with
  | BlockingPool_CreateTemporaryFileInDir _ _ _
  | Scheduler_DownloadFile _ _ _ _ _ _
  | Cache_Store _ _ _ _ _ => true
  | _ => false
  end.

(** The collaborators when the metadata resolves every path to [entry], the
    cache holds nothing, and the server's entry has no download URL. *)
Definition env_shared_without_download (entry : DriveEntryProto) : Env :=
  let env := env_with_lookup entry in
  {| GDataToDriveFileError := GDataToDriveFileError env;
     ConvertResourceEntryToDriveEntryProto :=
       ConvertResourceEntryToDriveEntryProto env;
     ConvertPlatformFileInfoToProto := ConvertPlatformFileInfoToProto env;
     GURL_of_string := GURL_of_string env;
     DirName := DirName env;
     resource_metadata_GetEntryInfoByPath :=
       resource_metadata_GetEntryInfoByPath env;
     resource_metadata_GetEntryInfoByResourceId :=
       resource_metadata_GetEntryInfoByResourceId env;
     resource_metadata_RefreshEntry := resource_metadata_RefreshEntry env;
     cache_GetCacheDirectoryPath := cache_GetCacheDirectoryPath env;
     cache_GetFile := cache_GetFile env;
     cache_GetCacheEntry := cache_GetCacheEntry env;
     cache_MarkDirty := cache_MarkDirty env;
     cache_CommitDirty := cache_CommitDirty env;
     cache_Unpin := cache_Unpin env;
     cache_Store := cache_Store env;
     cache_FreeDiskSpaceIfNeededFor := cache_FreeDiskSpaceIfNeededFor env;
     scheduler_GetResourceEntry :=
       fun _ id _ =>
         (GDATA_STATUS 200,
          Some {| ResourceEntry.resource_id := id;
                  ResourceEntry.download_url := {| spec := EmptyString |};
                  ResourceEntry.file_md5 := "md5-a" |});
     scheduler_DownloadFile := scheduler_DownloadFile env;
     drive_operations_TransferRegularFile :=
       drive_operations_TransferRegularFile env;
     change_list_loader_LoadIfNeeded := change_list_loader_LoadIfNeeded env;
     file_util_CreateTemporaryFileInDir := file_util_CreateTemporaryFileInDir env;
     file_util_WriteFile := file_util_WriteFile env;
     file_util_GetFileInfo := file_util_GetFileInfo env |}.

(** The collaborators when the metadata resolves every path to the sample
    file, its content is not in the cache, and the cache has no room for
    it. *)
Definition env_without_disk_space : Env :=
  let env := env_with_lookup sample_regular_file in
  {| GDataToDriveFileError := GDataToDriveFileError env;
     ConvertResourceEntryToDriveEntryProto :=
       ConvertResourceEntryToDriveEntryProto env;
     ConvertPlatformFileInfoToProto := ConvertPlatformFileInfoToProto env;
     GURL_of_string := GURL_of_string env;
     DirName := DirName env;
     resource_metadata_GetEntryInfoByPath :=
       resource_metadata_GetEntryInfoByPath env;
     resource_metadata_GetEntryInfoByResourceId :=
       resource_metadata_GetEntryInfoByResourceId env;
     resource_metadata_RefreshEntry := resource_metadata_RefreshEntry env;
     cache_GetCacheDirectoryPath := cache_GetCacheDirectoryPath env;
     cache_GetFile := cache_GetFile env;
     cache_GetCacheEntry := cache_GetCacheEntry env;
     cache_MarkDirty := cache_MarkDirty env;
     cache_CommitDirty := cache_CommitDirty env;
     cache_Unpin := cache_Unpin env;
     cache_Store := cache_Store env;
     cache_FreeDiskSpaceIfNeededFor := fun _ _ => false;
     scheduler_GetResourceEntry := scheduler_GetResourceEntry env;
     scheduler_DownloadFile := scheduler_DownloadFile env;
     drive_operations_TransferRegularFile :=
       drive_operations_TransferRegularFile env;
     change_list_loader_LoadIfNeeded := change_list_loader_LoadIfNeeded env;
     file_util_CreateTemporaryFileInDir := file_util_CreateTemporaryFileInDir env;
     file_util_WriteFile := file_util_WriteFile env;
     file_util_GetFileInfo := file_util_GetFileInfo env |}.

(** The collaborators when the metadata resolves every path to the sample
    hosted document and the disk takes only [written] bytes of every
    write. *)
Definition env_with_short_write (written : Z) : Env :=
  let env := env_with_lookup sample_hosted_document in
  {| GDataToDriveFileError := GDataToDriveFileError env;
     ConvertResourceEntryToDriveEntryProto :=
       ConvertResourceEntryToDriveEntryProto env;
     ConvertPlatformFileInfoToProto := ConvertPlatformFileInfoToProto env;
     GURL_of_string := GURL_of_string env;
     DirName := DirName env;
     resource_metadata_GetEntryInfoByPath :=
       resource_metadata_GetEntryInfoByPath env;
     resource_metadata_GetEntryInfoByResourceId :=
       resource_metadata_GetEntryInfoByResourceId env;
     resource_metadata_RefreshEntry := resource_metadata_RefreshEntry env;
     cache_GetCacheDirectoryPath := cache_GetCacheDirectoryPath env;
     cache_GetFile := cache_GetFile env;
     cache_GetCacheEntry := cache_GetCacheEntry env;
     cache_MarkDirty := cache_MarkDirty env;
     cache_CommitDirty := cache_CommitDirty env;
     cache_Unpin := cache_Unpin env;
     cache_Store := cache_Store env;
     cache_FreeDiskSpaceIfNeededFor := cache_FreeDiskSpaceIfNeededFor env;
     scheduler_GetResourceEntry := scheduler_GetResourceEntry env;
     scheduler_DownloadFile := scheduler_DownloadFile env;
     drive_operations_TransferRegularFile :=
       drive_operations_TransferRegularFile env;
     change_list_loader_LoadIfNeeded := change_list_loader_LoadIfNeeded env;
     file_util_CreateTemporaryFileInDir := file_util_CreateTemporaryFileInDir env;
     file_util_WriteFile := fun _ _ _ _ => written;
     file_util_GetFileInfo := file_util_GetFileInfo env |}.

(** What the change-list loader was asked to load. *)
Definition loads_of (calls : list Call) : list DirectoryFetchInfo :=
  omap (fun c =>
          match c with
          | ChangeListLoader_LoadIfNeeded directory_fetch_info _ =>
              Some directory_fetch_info
          | _ => None
          end) calls.

(** What a call of the pipeline that goes to the server carries of the
    request: the path of the file as [virtual_path] when it is known, the
    client context, and the callback for the content. *)
Definition carries_the_request (virtual_path : option FilePath)
    (context : DriveClientContext) (get_content_callback : GetContentCallback)
    (c : Call) : Prop :=
  match c with
  | Scheduler_GetResourceEntry _ context' _ => context' = context
  | Scheduler_DownloadFile virtual_path' _ _ context' _ get_content_callback' =>
      context' = context
      /\ get_content_callback' = get_content_callback
      /\ (forall file_path,
            virtual_path = Some file_path -> virtual_path' = file_path)
  | Cache_Store _ _ _ file_operation_type _ =>
      file_operation_type = FILE_OPERATION_MOVE
  | BlockingPool_Delete _ recursive => recursive = false
  | _ => True
  end.

(** * The second part of the class

    The methods of [DriveFileSystem] that the first part leaves out: the
    change-list loader and the checks for updates, the observers, the
    readiness of the drive service, directories, search, the quota, uploaded
    files, the file system's metadata, the preference that hides hosted
    documents, and the operations that are handed to [drive_operations_].

    It is embedded as the first part is.  Three things are new.  The
    change-list loader is a member that is null until [Initialize] or
    [Reload] has made one, and a method that reads through it while it is
    null stops the run.  The observers are notified one by one, in the order
    of the list.  The vector of search results is allocated on the heap by
    [OnSearch] and reached through a raw pointer by the callbacks of the
    entries, so the heap is part of the state.

    What is taken for granted is what the first part takes for granted, and
    that every call is answered, also by a loader that has been replaced. *)
Module Catalog.

(** ** Data *)

(** [SearchResultInfo(path, entry_proto)]. *)
Record SearchResultInfo : Set := {
  path : FilePath;
  entry_proto : DriveEntryProto
}.

(** [ChangeList], as [OnSearch] reads it. *)
Record ChangeList : Set := {
  entries : list DriveEntryProto;
  next_url : GURL
}.

(** [google_apis::AboutResource], as [OnGetAboutResource] reads it. *)
Record AboutResource : Set := {
  quota_bytes_total : Z;
  quota_bytes_used : Z
}.

(** [DriveFileSystemMetadata]: every field is written by [GetMetadata] or by
    [OnGetLargestChangestamp].  A [base::Time] is its internal value, and the
    null time [base::Time()] is 0. *)
Record DriveFileSystemMetadata : Set := {
  largest_changestamp : Z;
  loaded : bool;
  refreshing : bool;
  push_notification_enabled : bool;
  polling_interval_sec : Z;
  last_update_check_time : Z;
  last_update_check_error : DriveFileError
}.

Definition set_largest_changestamp (changestamp : Z)
    (metadata : DriveFileSystemMetadata) : DriveFileSystemMetadata :=
  {| largest_changestamp := changestamp;
     loaded := loaded metadata;
     refreshing := refreshing metadata;
     push_notification_enabled := push_notification_enabled metadata;
     polling_interval_sec := polling_interval_sec metadata;
     last_update_check_time := last_update_check_time metadata;
     last_update_check_error := last_update_check_error metadata |}.

(** What a [DriveFileSystemObserver] can be told. *)
Inductive Notification : Set :=
| OnDirectoryChanged_ (directory_path : FilePath)
| OnFeedFromServerLoaded_
| OnInitialLoadFinished_
| OnFileSystemMounted_
| OnFileSystemBeingUnmounted_.

(** A [DriveFileSystemObserver], by its address. *)
Abbreviation Observer := nat (only parsing).

(** ** Callbacks *)

(** The callbacks of the callers. *)
Inductive ReadDirectoryWithSettingCallback : Set :=
| Caller_ReadDirectoryWithSettingCallback (id : nat).

Inductive GetAvailableSpaceCallback : Set :=
| Caller_GetAvailableSpaceCallback (id : nat).

Inductive SearchCallback : Set :=
| Caller_SearchCallback (id : nat).

Inductive SearchMetadataCallback : Set :=
| Caller_SearchMetadataCallback (id : nat).

Inductive GetFilesystemMetadataCallback : Set :=
| Caller_GetFilesystemMetadataCallback (id : nat).

(** [FileOperationCallback], [void(DriveFileError)] *)
Inductive FileOperationCallback : Set :=
| Caller_FileOperationCallback (id : nat)
| Bind_EmptyFileOperationCallback
| Bind_ReadDirectoryByPathAfterLoad
    (directory_path : FilePath) (callback : ReadDirectoryWithSettingCallback)
| Bind_OnUpdateChecked.

(** [GetEntryInfoCallback], [void(DriveFileError, scoped_ptr<DriveEntryProto>)] *)
Inductive GetEntryInfoCallback : Set :=
| Bind_ReadDirectoryByPathAfterGetEntry
    (directory_path : FilePath) (callback : ReadDirectoryWithSettingCallback)
| Bind_RefreshDirectoryAfterGetEntryInfo
    (directory_path : FilePath) (callback : FileOperationCallback).

(** [ReadDirectoryCallback],
    [void(DriveFileError, scoped_ptr<DriveEntryProtoVector>)] *)
Inductive ReadDirectoryCallback : Set :=
| Bind_ReadDirectoryByPathAfterRead
    (callback : ReadDirectoryWithSettingCallback).

(** [base::Closure].  [Bind_SearchCallback] holds the vector of results,
    bound with [base::Passed]: [result_vec] is its address. *)
Inductive Closure : Set :=
| Bind_SearchCallback
    (search_callback : SearchCallback) (error : DriveFileError)
    (next_feed : GURL) (result_vec : nat)
| Bind_ReloadAfterReset
| Bind_LoadIfNeeded
    (directory_fetch_info : DirectoryFetchInfo)
    (callback : FileOperationCallback)
| Bind_CheckForUpdates.

(** [GetEntryInfoWithFilePathCallback]; [results] is a raw pointer to the
    vector of results. *)
Inductive GetEntryInfoWithFilePathCallback : Set :=
| Bind_AddToSearchResults
    (results : nat) (should_run_callback : bool) (callback : Closure).

Module AddUploadedFileParams.
Record t : Set := {
  file_content_path : FilePath;
  callback : FileOperationCallback;
  resource_id : string;
  md5 : string
}.
End AddUploadedFileParams.

(** The callback of [DriveResourceMetadata::AddEntry],
    [void(DriveFileError, const base::FilePath&)] *)
Inductive FileMoveCallback : Set :=
| Bind_AddUploadedFileToCache (params : AddUploadedFileParams.t).

(** [google_apis::GetAboutResourceCallback] *)
Inductive GetAboutResourceCallback : Set :=
| Bind_OnGetAboutResource (callback : GetAvailableSpaceCallback).

(** The callback of [ChangeListLoader::SearchFromServer],
    [void(ScopedVector<ChangeList>, DriveFileError)] *)
Inductive LoadFeedListCallback : Set :=
| Bind_OnSearch (search_callback : SearchCallback).

(** The callback of [DriveResourceMetadata::GetLargestChangestamp],
    [void(int64)] *)
Inductive GetChangestampCallback : Set :=
| Bind_OnGetLargestChangestamp
    (metadata : DriveFileSystemMetadata)
    (callback : GetFilesystemMetadataCallback).

(** ** Calls to the collaborators *)

(** The asynchronous operations whose reply comes back to this class. *)
Inductive Call : Set :=
| ResourceMetadata_GetEntryInfoByPath
    (file_path : FilePath) (callback : GetEntryInfoCallback)
| ResourceMetadata_ReadDirectoryByPath
    (file_path : FilePath) (callback : ReadDirectoryCallback)
| ResourceMetadata_RefreshEntry
    (entry_proto : DriveEntryProto) (callback : GetEntryInfoWithFilePathCallback)
| ResourceMetadata_AddEntry
    (entry_proto : DriveEntryProto) (callback : FileMoveCallback)
| ResourceMetadata_GetLargestChangestamp (callback : GetChangestampCallback)
| ResourceMetadata_Reset (callback : Closure)
| ChangeListLoader_LoadIfNeeded
    (directory_fetch_info : DirectoryFetchInfo) (callback : FileOperationCallback)
| ChangeListLoader_LoadFromServerIfNeeded
    (directory_fetch_info : DirectoryFetchInfo) (callback : FileOperationCallback)
| ChangeListLoader_LoadDirectoryFromServer
    (directory_resource_id : string) (callback : FileOperationCallback)
| ChangeListLoader_SearchFromServer
    (search_query : string) (next_feed : GURL) (callback : LoadFeedListCallback)
| Scheduler_GetAboutResource (callback : GetAboutResourceCallback)
| Cache_Store
    (resource_id md5 : string) (source_path : FilePath)
    (file_operation_type : FileOperationType) (callback : FileOperationCallback)
| MessageLoop_PostTask (task : Closure).

(** What is handed over to a collaborator for good: the collaborator runs the
    caller's callback itself, or there is nothing to reply. *)
Inductive Delegation : Set :=
| DriveOperations_Init
| DriveOperations_TransferFileFromRemoteToLocal
    (remote_src_file_path local_dest_file_path : FilePath)
    (callback : FileOperationCallback)
| DriveOperations_TransferFileFromLocalToRemote
    (local_src_file_path remote_dest_file_path : FilePath)
    (callback : FileOperationCallback)
| DriveOperations_Copy
    (src_file_path dest_file_path : FilePath) (callback : FileOperationCallback)
| DriveOperations_Move
    (src_file_path dest_file_path : FilePath) (callback : FileOperationCallback)
| DriveOperations_Remove
    (file_path : FilePath) (is_recursive : bool)
    (callback : FileOperationCallback)
| DriveOperations_CreateDirectory
    (directory_path : FilePath) (is_exclusive is_recursive : bool)
    (callback : FileOperationCallback)
| DriveOperations_UpdateFileByResourceId
    (resource_id : string) (context : DriveClientContext)
    (callback : FileOperationCallback)
| DriveService_CancelForFilePath (drive_file_path : FilePath)
| DriveService_CancelAll
| Scheduler_Initialize
| PrefChangeRegistrar_Add_kDisableDriveHostedFiles
| Drive_SearchMetadata
    (query : string) (options at_most_num_matches : Z)
    (callback : SearchMetadataCallback).

(** Why a run stops: a method reads through a null [scoped_ptr] or indexes
    an empty vector; a callback bound with [base::Passed] is run a second
    time; a vector is written through a pointer after it was passed on. *)
Inductive Fault : Set :=
| NullDereference
| PassedTwice
| UseAfterPass.

(** ** What a method does *)
Inductive Action : Set :=
| Invoke (c : Call)
| Delegate (d : Delegation)
| Notify (observer : Observer) (notification : Notification)
| Run_ReadDirectoryWithSettingCallback
    (callback : ReadDirectoryWithSettingCallback) (error : DriveFileError)
    (hide_hosted_documents : bool) (entries : option (list DriveEntryProto))
| Run_GetAvailableSpaceCallback
    (callback : GetAvailableSpaceCallback) (error : DriveFileError)
    (bytes_total bytes_used : Z)
| Run_SearchCallback
    (callback : SearchCallback) (error : DriveFileError) (next_feed : GURL)
    (results : option (list SearchResultInfo))
| Run_GetFilesystemMetadataCallback
    (callback : GetFilesystemMetadataCallback)
    (metadata : DriveFileSystemMetadata)
| Run_FileOperationCallback
    (callback : FileOperationCallback) (error : DriveFileError)
| Run_GetEntryInfoCallback
    (callback : GetEntryInfoCallback) (error : DriveFileError)
    (entry_proto : option DriveEntryProto)
| Run_ReadDirectoryCallback
    (callback : ReadDirectoryCallback) (error : DriveFileError)
    (entries : option (list DriveEntryProto))
| Run_GetEntryInfoWithFilePathCallback
    (callback : GetEntryInfoWithFilePathCallback) (error : DriveFileError)
    (drive_file_path : FilePath) (entry_proto : option DriveEntryProto)
| Run_FileMoveCallback
    (callback : FileMoveCallback) (error : DriveFileError)
    (file_path : FilePath)
| Run_GetAboutResourceCallback
    (callback : GetAboutResourceCallback) (status : GDataErrorCode)
    (about_resource : option AboutResource)
| Run_LoadFeedListCallback
    (callback : LoadFeedListCallback) (change_lists : list ChangeList)
    (error : DriveFileError)
| Run_GetChangestampCallback
    (callback : GetChangestampCallback) (changestamp : Z)
| Run_Closure (task : Closure)
| Stop (fault : Fault).

(** ** The object and the heap *)

(** [ChangeListLoader], as the class sees it: a new loader does not observe
    through this object until [AddObserver(this)]. *)
Record ChangeListLoader : Set := { observed_by_this : bool }.

(** The members of the first part, the members that the methods below also
    read and write, the [OperationReadinessObserver] objects that are alive
    (each by its [callback_], in the order in which the drive service holds
    them), and the heap of the vectors of search results: an address is an
    index, and a vector that was passed on is gone. *)
Record State : Type := {
  members : DriveFileSystem;
  observers_ : list Observer;
  change_list_loader_ : option ChangeListLoader;
  last_update_check_time_ : Z;
  last_update_check_error_ : DriveFileError;
  readiness_observers : list Closure;
  heap : list (option (list SearchResultInfo))
}.

(** The constructor's member initialisers. *)
Definition State_new : State :=
  {| members := DriveFileSystem_new;
     observers_ := [];
     change_list_loader_ := None;
     last_update_check_time_ := 0;
     last_update_check_error_ := DRIVE_FILE_OK;
     readiness_observers := [];
     heap := [] |}.

Definition set_members (fs : DriveFileSystem) (st : State) : State :=
  {| members := fs;
     observers_ := observers_ st;
     change_list_loader_ := change_list_loader_ st;
     last_update_check_time_ := last_update_check_time_ st;
     last_update_check_error_ := last_update_check_error_ st;
     readiness_observers := readiness_observers st;
     heap := heap st |}.

Definition set_observers_ (observers : list Observer) (st : State) : State :=
  {| members := members st;
     observers_ := observers;
     change_list_loader_ := change_list_loader_ st;
     last_update_check_time_ := last_update_check_time_ st;
     last_update_check_error_ := last_update_check_error_ st;
     readiness_observers := readiness_observers st;
     heap := heap st |}.

Definition set_change_list_loader_ (loader : option ChangeListLoader)
    (st : State) : State :=
  {| members := members st;
     observers_ := observers_ st;
     change_list_loader_ := loader;
     last_update_check_time_ := last_update_check_time_ st;
     last_update_check_error_ := last_update_check_error_ st;
     readiness_observers := readiness_observers st;
     heap := heap st |}.

Definition set_last_update_check (time : Z) (error : DriveFileError)
    (st : State) : State :=
  {| members := members st;
     observers_ := observers_ st;
     change_list_loader_ := change_list_loader_ st;
     last_update_check_time_ := time;
     last_update_check_error_ := error;
     readiness_observers := readiness_observers st;
     heap := heap st |}.

Definition set_readiness_observers (observers : list Closure) (st : State)
  : State :=
  {| members := members st;
     observers_ := observers_ st;
     change_list_loader_ := change_list_loader_ st;
     last_update_check_time_ := last_update_check_time_ st;
     last_update_check_error_ := last_update_check_error_ st;
     readiness_observers := observers;
     heap := heap st |}.

Definition set_heap (h : list (option (list SearchResultInfo))) (st : State)
  : State :=
  {| members := members st;
     observers_ := observers_ st;
     change_list_loader_ := change_list_loader_ st;
     last_update_check_time_ := last_update_check_time_ st;
     last_update_check_error_ := last_update_check_error_ st;
     readiness_observers := readiness_observers st;
     heap := h |}.

Definition set_hide_hosted_docs_ (hide : bool) (fs : DriveFileSystem)
  : DriveFileSystem :=
  {| open_files_ := open_files_ fs;
     update_timer_ := update_timer_ fs;
     hide_hosted_docs_ := hide;
     polling_interval_sec_ := polling_interval_sec_ fs;
     push_notification_enabled_ := push_notification_enabled_ fs |}.

(** ** What can be observed of a run *)

Inductive CallerResult : Set :=
| ReadDirectoryResult
    (id : nat) (error : DriveFileError) (hide_hosted_documents : bool)
    (entries : option (list DriveEntryProto))
| GetAvailableSpaceResult
    (id : nat) (error : DriveFileError) (bytes_total bytes_used : Z)
| SearchResult
    (id : nat) (error : DriveFileError) (next_feed : GURL)
    (results : option (list SearchResultInfo))
| GetFilesystemMetadataResult (id : nat) (metadata : DriveFileSystemMetadata)
| FileOperationResult (id : nat) (error : DriveFileError).

Inductive Event : Set :=
| EvCall (c : Call)
| EvDelegate (d : Delegation)
| EvNotify (observer : Observer) (notification : Notification)
| EvCaller (r : CallerResult)
| EvStop (fault : Fault).

(** ** The collaborators

    The collaborators of the first part, and what the methods below ask
    besides.  [IsSpecialResourceId] and [GetDriveGrandRootPath] are helpers of
    drive_file_system_util.h and [SEARCH_METADATA_EXCLUDE_HOSTED_DOCUMENTS] is
    a constant of search_metadata.h; these files are not under src/.  A
    collaborator whose state is read at once ([base::Time::Now], the
    preference, [DriveService::CanStartOperation], [ChangeListLoader::loaded]
    and [refreshing]) answers by the number of replies delivered so far. *)
Record Collaborators : Type := {
  first_part : Env;
  IsSpecialResourceId : string -> bool;
  GetDriveGrandRootPath : FilePath;
  SEARCH_METADATA_EXCLUDE_HOSTED_DOCUMENTS : Z;
  Time_Now : nat -> Z;
  pref_service_GetBoolean_kDisableDriveHostedFiles : nat -> bool;
  drive_service_CanStartOperation : nat -> bool;
  change_list_loader_loaded : nat -> bool;
  change_list_loader_refreshing : nat -> bool;
  resource_metadata_ReadDirectoryByPath :
    nat -> FilePath -> DriveFileError * option (list DriveEntryProto);
  resource_metadata_AddEntry :
    nat -> DriveEntryProto -> DriveFileError * FilePath;
  resource_metadata_GetLargestChangestamp : nat -> Z;
  change_list_loader_LoadFromServerIfNeeded :
    nat -> DirectoryFetchInfo -> DriveFileError;
  change_list_loader_LoadDirectoryFromServer : nat -> string -> DriveFileError;
  change_list_loader_SearchFromServer :
    nat -> string -> GURL -> list ChangeList * DriveFileError;
  scheduler_GetAboutResource : nat -> GDataErrorCode * option AboutResource
}.

(** ** Methods *)

(** A method body: from the state to the state it leaves and what it did. *)
Definition Method : Type := State -> State * list Action.

Definition skip : Method := fun st => (st, []).
Definition emit (a : Action) : Method := fun st => (st, [a]).
Definition invoke (c : Call) : Method := emit (Invoke c).
Definition delegate (d : Delegation) : Method := emit (Delegate d).
Definition modify (f : State -> State) : Method := fun st => (f st, []).
Definition seq (m1 m2 : Method) : Method :=
  fun st =>
    let '(st1, done1) := m1 st in
    let '(st2, done2) := m2 st1 in
    (st2, done1 ++ done2).

(** A method of the first part that starts no call, run on the members. *)
Definition on_members (h : Handler) : Method :=
  fun st => (set_members (fst (h (members st))) st, []).

Declare Scope method_scope.
Delimit Scope method_scope with method.
Bind Scope method_scope with Method.
Notation "m1 ;; m2" := (seq m1 m2)
  (at level 100, m2 at level 200, right associativity) : method_scope.
Local Open Scope method_scope.

(** [FOR_EACH_OBSERVER(DriveFileSystemObserver, observers_, ...)] *)
Definition FOR_EACH_OBSERVER (notification : Notification) : Method :=
  fun st => (st, (fun observer => Notify observer notification) <$> observers_ st).

Section Methods.

Variable env : Collaborators.

(** *** The change-list loader and the checks for updates *)

Definition SetupChangeListLoader : Method :=
  modify (set_change_list_loader_ (Some {| observed_by_this := false |})) ;;
  modify (set_change_list_loader_ (Some {| observed_by_this := true |})).

Definition Reload : Method :=
  invoke (ResourceMetadata_Reset Bind_ReloadAfterReset).

Definition ReloadAfterReset : Method :=
  SetupChangeListLoader ;;
  invoke (ChangeListLoader_LoadFromServerIfNeeded DirectoryFetchInfo_empty
            Bind_OnUpdateChecked).

Definition CheckForUpdates (now : nat) : Method :=
  fun st =>
    if bool_decide (is_Some (change_list_loader_ st))
       && change_list_loader_loaded env now
       && negb (change_list_loader_refreshing env now)
    then invoke (ChangeListLoader_LoadFromServerIfNeeded
                   DirectoryFetchInfo_empty Bind_OnUpdateChecked) st
    else skip st.

Definition OnUpdateChecked (now : nat) (error : DriveFileError) : Method :=
  modify (set_last_update_check (Time_Now env now) error).

Definition LoadIfNeeded (directory_fetch_info : DirectoryFetchInfo)
    (callback : FileOperationCallback) : Method :=
  fun st =>
    match change_list_loader_ st with
    | Some _ =>
        invoke (ChangeListLoader_LoadIfNeeded directory_fetch_info callback) st
    | None => emit (Stop NullDereference) st
    end.

(** *** The preference that hides hosted documents *)

Definition SetHideHostedDocuments (hide : bool) : Method :=
  fun st =>
    if decide (hide = hide_hosted_docs_ (members st))
    then skip st
    else
      (modify (fun st => set_members (set_hide_hosted_docs_ hide (members st)) st) ;;
       FOR_EACH_OBSERVER (OnDirectoryChanged_ (GetDriveGrandRootPath env))) st.

Definition OnDisableDriveHostedFilesChanged (now : nat) : Method :=
  SetHideHostedDocuments
    (pref_service_GetBoolean_kDisableDriveHostedFiles env now).

Definition InitializePreferenceObserver : Method :=
  delegate PrefChangeRegistrar_Add_kDisableDriveHostedFiles.

Definition Initialize (now : nat) : Method :=
  SetupChangeListLoader ;;
  delegate DriveOperations_Init ;;
  modify (fun st =>
            set_members
              (set_hide_hosted_docs_
                 (pref_service_GetBoolean_kDisableDriveHostedFiles env now)
                 (members st))
              st) ;;
  delegate Scheduler_Initialize ;;
  InitializePreferenceObserver.

(** [~DriveFileSystem] *)
Definition Destroy : Method :=
  fun st =>
    match change_list_loader_ st with
    | Some _ =>
        (modify (set_change_list_loader_ (Some {| observed_by_this := false |})) ;;
         delegate DriveService_CancelAll) st
    | None => emit (Stop NullDereference) st
    end.

(** *** The observers *)

(** [ObserverList] (of the base library) keeps an observer once, in the
    order in which the observers were added. *)
Definition AddObserver (observer : Observer) : Method :=
  fun st =>
    if decide (observer ∈ observers_ st)
    then skip st
    else modify (set_observers_ (observers_ st ++ [observer])) st.

Definition RemoveObserver (observer : Observer) : Method :=
  fun st =>
    modify (set_observers_
              (filter (fun o => o <> observer) (observers_ st))) st.

Definition OnDirectoryChanged (directory_path : FilePath) : Method :=
  FOR_EACH_OBSERVER (OnDirectoryChanged_ directory_path).

Definition OnDirectoryChangedByOperation (directory_path : FilePath) : Method :=
  OnDirectoryChanged directory_path.

Definition OnFeedFromServerLoaded : Method :=
  FOR_EACH_OBSERVER OnFeedFromServerLoaded_.

Definition OnInitialFeedLoaded : Method :=
  FOR_EACH_OBSERVER OnInitialLoadFinished_.

Definition NotifyFileSystemMounted : Method :=
  FOR_EACH_OBSERVER OnFileSystemMounted_.

Definition NotifyFileSystemToBeUnmounted : Method :=
  FOR_EACH_OBSERVER OnFileSystemBeingUnmounted_.

(** *** The first fetch, when the drive service is ready *)

(** [new OperationReadinessObserver(drive_service_, callback)]: the
    constructor adds the new observer to the drive service. *)
Definition OperationReadinessObserver_new (callback : Closure) : Method :=
  fun st =>
    modify (set_readiness_observers (readiness_observers st ++ [callback])) st.

(** [OperationReadinessObserver::OnReadyToPerformOperations], for the
    observer that is the [this]-th of the drive service: it posts its
    callback, leaves the drive service and is deleted. *)
Definition OnReadyToPerformOperations (this : nat) : Method :=
  fun st =>
    match readiness_observers st !! this with
    | Some callback_ =>
        (invoke (MessageLoop_PostTask callback_) ;;
         modify (set_readiness_observers (delete this (readiness_observers st))))
          st
    | None => skip st
    end.

(** The drive service tells its observers that it is ready, from the first
    to the last; each leaves the list as it is told. *)
Fixpoint OnReadyToPerformOperations_all (n : nat) : Method :=
  match n with
  | O => skip
  | S n => OnReadyToPerformOperations 0 ;; OnReadyToPerformOperations_all n
  end.

Definition DriveService_ready : Method :=
  fun st => OnReadyToPerformOperations_all (List.length (readiness_observers st)) st.

Definition StartInitialFeedFetch (now : nat) : Method :=
  if drive_service_CanStartOperation env now
  then LoadIfNeeded DirectoryFetchInfo_empty Bind_EmptyFileOperationCallback
  else OperationReadinessObserver_new
         (Bind_LoadIfNeeded DirectoryFetchInfo_empty
            Bind_EmptyFileOperationCallback).

(** *** What is handed to the drive operations and to the drive service *)

Definition TransferFileFromRemoteToLocal
    (remote_src_file_path local_dest_file_path : FilePath)
    (callback : FileOperationCallback) : Method :=
  delegate (DriveOperations_TransferFileFromRemoteToLocal remote_src_file_path
              local_dest_file_path callback).

Definition TransferFileFromLocalToRemote
    (local_src_file_path remote_dest_file_path : FilePath)
    (callback : FileOperationCallback) : Method :=
  delegate (DriveOperations_TransferFileFromLocalToRemote local_src_file_path
              remote_dest_file_path callback).

Definition Copy (src_file_path dest_file_path : FilePath)
    (callback : FileOperationCallback) : Method :=
  delegate (DriveOperations_Copy src_file_path dest_file_path callback).

Definition Move (src_file_path dest_file_path : FilePath)
    (callback : FileOperationCallback) : Method :=
  delegate (DriveOperations_Move src_file_path dest_file_path callback).

Definition Remove (file_path : FilePath) (is_recursive : bool)
    (callback : FileOperationCallback) : Method :=
  delegate (DriveOperations_Remove file_path is_recursive callback).

Definition CreateDirectory (directory_path : FilePath)
    (is_exclusive is_recursive : bool) (callback : FileOperationCallback)
  : Method :=
  delegate (DriveOperations_CreateDirectory directory_path is_exclusive
              is_recursive callback).

Definition UpdateFileByResourceId (resource_id : string)
    (context : DriveClientContext) (callback : FileOperationCallback)
  : Method :=
  delegate (DriveOperations_UpdateFileByResourceId resource_id context
              callback).

Definition CancelGetFile (drive_file_path : FilePath) : Method :=
  delegate (DriveService_CancelForFilePath drive_file_path).

(** [options |= SEARCH_METADATA_EXCLUDE_HOSTED_DOCUMENTS] on [int]. *)
Definition SearchMetadata (query : string) (options at_most_num_matches : Z)
    (callback : SearchMetadataCallback) : Method :=
  fun st =>
    let options :=
      if hide_hosted_docs_ (members st)
      then Z.lor options (SEARCH_METADATA_EXCLUDE_HOSTED_DOCUMENTS env)
      else options in
    delegate (Drive_SearchMetadata query options at_most_num_matches callback)
      st.

(** *** [ReadDirectoryByPath] *)

Definition ReadDirectoryByPath (directory_path : FilePath)
    (callback : ReadDirectoryWithSettingCallback) : Method :=
  invoke (ResourceMetadata_GetEntryInfoByPath directory_path
            (Bind_ReadDirectoryByPathAfterGetEntry directory_path callback)).

Definition ReadDirectoryByPathAfterGetEntry (directory_path : FilePath)
    (callback : ReadDirectoryWithSettingCallback) (error : DriveFileError)
    (entry_proto : option DriveEntryProto) : Method :=
  if decide (error <> DRIVE_FILE_OK)
  then LoadIfNeeded DirectoryFetchInfo_empty
         (Bind_ReadDirectoryByPathAfterLoad directory_path callback)
  else
    match entry_proto with
    | Some entry_proto =>
        if negb (PlatformFileInfoProto.is_directory (file_info entry_proto))
        then
          fun st =>
            emit (Run_ReadDirectoryWithSettingCallback callback
                    DRIVE_FILE_ERROR_NOT_A_DIRECTORY
                    (hide_hosted_docs_ (members st)) None) st
        else
          let directory_fetch_info :=
            {| dfi_resource_id := resource_id entry_proto;
               dfi_changestamp :=
                 changestamp (directory_specific_info entry_proto) |} in
          LoadIfNeeded directory_fetch_info
            (Bind_ReadDirectoryByPathAfterLoad directory_path callback)
    | None => emit (Stop NullDereference)
    end.

Definition ReadDirectoryByPathAfterLoad (directory_path : FilePath)
    (callback : ReadDirectoryWithSettingCallback) (error : DriveFileError)
  : Method :=
  if decide (error <> DRIVE_FILE_OK)
  then
    fun st =>
      emit (Run_ReadDirectoryWithSettingCallback callback error
              (hide_hosted_docs_ (members st)) None) st
  else invoke (ResourceMetadata_ReadDirectoryByPath directory_path
                 (Bind_ReadDirectoryByPathAfterRead callback)).

Definition ReadDirectoryByPathAfterRead
    (callback : ReadDirectoryWithSettingCallback) (error : DriveFileError)
    (entries : option (list DriveEntryProto)) : Method :=
  fun st =>
    if decide (error <> DRIVE_FILE_OK)
    then emit (Run_ReadDirectoryWithSettingCallback callback error
                 (hide_hosted_docs_ (members st)) None) st
    else emit (Run_ReadDirectoryWithSettingCallback callback DRIVE_FILE_OK
                 (hide_hosted_docs_ (members st)) entries) st.

(** *** [RefreshDirectory] *)

Definition RefreshDirectory (directory_path : FilePath)
    (callback : FileOperationCallback) : Method :=
  invoke (ResourceMetadata_GetEntryInfoByPath directory_path
            (Bind_RefreshDirectoryAfterGetEntryInfo directory_path callback)).

Definition RefreshDirectoryAfterGetEntryInfo (directory_path : FilePath)
    (callback : FileOperationCallback) (error : DriveFileError)
    (entry_proto : option DriveEntryProto) : Method :=
  if decide (error <> DRIVE_FILE_OK)
  then emit (Run_FileOperationCallback callback error)
  else
    match entry_proto with
    | Some entry_proto =>
        if negb (PlatformFileInfoProto.is_directory (file_info entry_proto))
        then emit (Run_FileOperationCallback callback
                     DRIVE_FILE_ERROR_NOT_A_DIRECTORY)
        else if IsSpecialResourceId env (resource_id entry_proto)
        then emit (Run_FileOperationCallback callback DRIVE_FILE_OK)
        else
          fun st =>
            match change_list_loader_ st with
            | Some _ =>
                invoke (ChangeListLoader_LoadDirectoryFromServer
                          (resource_id entry_proto) callback) st
            | None => emit (Stop NullDereference) st
            end
    | None => emit (Stop NullDereference)
    end.

(** *** [GetAvailableSpace] *)

Definition GetAvailableSpace (callback : GetAvailableSpaceCallback) : Method :=
  invoke (Scheduler_GetAboutResource (Bind_OnGetAboutResource callback)).

Definition OnGetAboutResource (callback : GetAvailableSpaceCallback)
    (status : GDataErrorCode) (about_resource : option AboutResource)
  : Method :=
  let error := GDataToDriveFileError (first_part env) status in
  if decide (error <> DRIVE_FILE_OK)
  then emit (Run_GetAvailableSpaceCallback callback error (-1) (-1))
  else
    match about_resource with
    | Some about_resource =>
        emit (Run_GetAvailableSpaceCallback callback DRIVE_FILE_OK
                (quota_bytes_total about_resource)
                (quota_bytes_used about_resource))
    | None => emit (Stop NullDereference)
    end.

(** *** [Search] *)

Definition Search (search_query : string) (next_feed : GURL)
    (callback : SearchCallback) : Method :=
  fun st =>
    match change_list_loader_ st with
    | Some _ =>
        invoke (ChangeListLoader_SearchFromServer search_query next_feed
                  (Bind_OnSearch callback)) st
    | None => emit (Stop NullDereference) st
    end.

(** The loop of [OnSearch]: the calls it starts, one [RefreshEntry] for each
    entry, the last of which is to run the callback.  [i] is the index of the
    first entry of [entries] and [size] is [entries.size()]. *)
Fixpoint OnSearch_loop (results : nat) (callback : Closure) (size i : nat)
    (entries : list DriveEntryProto) : list Call :=
  match entries with
  | [] => []
  | entry_proto :: entries =>
      let should_run_callback := bool_decide (i + 1 = size) in
      ResourceMetadata_RefreshEntry entry_proto
        (Bind_AddToSearchResults results should_run_callback callback)
      :: OnSearch_loop results callback size (S i) entries
  end.

Definition OnSearch (search_callback : SearchCallback)
    (change_lists : list ChangeList) (error : DriveFileError) : Method :=
  if decide (error <> DRIVE_FILE_OK)
  then emit (Run_SearchCallback search_callback error
               {| spec := EmptyString |} None)
  else
    fun st =>
      let results := List.length (heap st) in
      let st := set_heap (heap st ++ [Some []]) st in
      match change_lists with
      | change_list :: _ =>
          let next_feed := next_url change_list in
          let callback :=
            Bind_SearchCallback search_callback DRIVE_FILE_OK next_feed
              results in
          match entries change_list with
          | [] => emit (Run_Closure callback) st
          | _ :: _ =>
              (st,
               Invoke
                 <$> OnSearch_loop results callback
                       (List.length (entries change_list)) 0
                       (entries change_list))
          end
      | [] => emit (Stop NullDereference) st
      end.

(** [results->push_back(info)] *)
Definition push_back (results : nat) (info : SearchResultInfo) : Method :=
  fun st =>
    match heap st !! results with
    | Some (Some vector) =>
        modify (set_heap (<[results := Some (vector ++ [info])]> (heap st))) st
    | _ => emit (Stop UseAfterPass) st
    end.

(** [NOTREACHED()] does nothing in a release build. *)
Definition AddToSearchResults (now : nat) (results : nat)
    (should_run_callback : bool) (callback : Closure) (error : DriveFileError)
    (drive_file_path : FilePath) (entry_proto : option DriveEntryProto)
  : Method :=
  (if decide (error = DRIVE_FILE_OK)
   then
     match entry_proto with
     | Some entry_proto =>
         push_back results
           {| path := drive_file_path; entry_proto := entry_proto |}
     | None => emit (Stop NullDereference)
     end
   else if decide (error = DRIVE_FILE_ERROR_NOT_FOUND)
   then CheckForUpdates now
   else skip) ;;
  if should_run_callback then emit (Run_Closure callback) else skip.

(** Running [base::Bind(search_callback, error, next_feed,
    base::Passed(&result_vec))]: the vector leaves the heap with the run. *)
Definition Run_Bind_SearchCallback (search_callback : SearchCallback)
    (error : DriveFileError) (next_feed : GURL) (result_vec : nat) : Method :=
  fun st =>
    match heap st !! result_vec with
    | Some (Some vector) =>
        (modify (set_heap (<[result_vec := None]> (heap st))) ;;
         emit (Run_SearchCallback search_callback error next_feed
                 (Some vector))) st
    | _ => emit (Stop PassedTwice) st
    end.

(** *** [AddUploadedFile] *)

Definition AddUploadedFile (entry : option ResourceEntry.t)
    (file_content_path : FilePath) (callback : FileOperationCallback)
  : Method :=
  match entry with
  | Some entry =>
      let params :=
        {| AddUploadedFileParams.file_content_path := file_content_path;
           AddUploadedFileParams.callback := callback;
           AddUploadedFileParams.resource_id := ResourceEntry.resource_id entry;
           AddUploadedFileParams.md5 := ResourceEntry.file_md5 entry |} in
      invoke (ResourceMetadata_AddEntry
                (ConvertResourceEntryToDriveEntryProto (first_part env) entry)
                (Bind_AddUploadedFileToCache params))
  | None => emit (Stop NullDereference)
  end.

Definition AddUploadedFileToCache (params : AddUploadedFileParams.t)
    (error : DriveFileError) (file_path : FilePath) : Method :=
  if decide (error <> DRIVE_FILE_OK)
  then emit (Run_FileOperationCallback
               (AddUploadedFileParams.callback params) error)
  else
    OnDirectoryChanged (DirName (first_part env) file_path) ;;
    invoke (Cache_Store
              (AddUploadedFileParams.resource_id params)
              (AddUploadedFileParams.md5 params)
              (AddUploadedFileParams.file_content_path params)
              FILE_OPERATION_COPY
              (AddUploadedFileParams.callback params)).

(** *** [GetMetadata] *)

Definition GetMetadata (now : nat) (callback : GetFilesystemMetadataCallback)
  : Method :=
  fun st =>
    match change_list_loader_ st with
    | Some _ =>
        let metadata :=
          {| largest_changestamp := 0;
             loaded := change_list_loader_loaded env now;
             refreshing := change_list_loader_refreshing env now;
             push_notification_enabled :=
               push_notification_enabled_ (members st);
             polling_interval_sec := polling_interval_sec_ (members st);
             last_update_check_time := last_update_check_time_ st;
             last_update_check_error := last_update_check_error_ st |} in
        invoke (ResourceMetadata_GetLargestChangestamp
                  (Bind_OnGetLargestChangestamp metadata callback)) st
    | None => emit (Stop NullDereference) st
    end.

Definition OnGetLargestChangestamp (metadata : DriveFileSystemMetadata)
    (callback : GetFilesystemMetadataCallback) (largest_changestamp : Z)
  : Method :=
  emit (Run_GetFilesystemMetadataCallback callback
          (set_largest_changestamp largest_changestamp metadata)).

(** [SetHideHostedDocuments] called with each of [settings] in turn. *)
Fixpoint SetHideHostedDocuments_each (settings : list bool) : Method :=
  match settings with
  | [] => skip
  | hide :: settings =>
      SetHideHostedDocuments hide ;; SetHideHostedDocuments_each settings
  end.

(** ** The event loop *)

(** Running a callback made by [base::Bind], when [now] replies have been
    delivered. *)
Definition dispatch (now : nat) (a : Action) : Method :=
  match a with
  | Run_FileOperationCallback callback error =>
      match callback with
      | Caller_FileOperationCallback _ => skip
      | Bind_EmptyFileOperationCallback => skip
      | Bind_ReadDirectoryByPathAfterLoad directory_path callback =>
          ReadDirectoryByPathAfterLoad directory_path callback error
      | Bind_OnUpdateChecked => OnUpdateChecked now error
      end
  | Run_GetEntryInfoCallback callback error entry_proto =>
      match callback with
      | Bind_ReadDirectoryByPathAfterGetEntry directory_path callback =>
          ReadDirectoryByPathAfterGetEntry directory_path callback error
            entry_proto
      | Bind_RefreshDirectoryAfterGetEntryInfo directory_path callback =>
          RefreshDirectoryAfterGetEntryInfo directory_path callback error
            entry_proto
      end
  | Run_ReadDirectoryCallback (Bind_ReadDirectoryByPathAfterRead callback)
      error entries =>
      ReadDirectoryByPathAfterRead callback error entries
  | Run_GetEntryInfoWithFilePathCallback
      (Bind_AddToSearchResults results should_run_callback callback) error
      drive_file_path entry_proto =>
      AddToSearchResults now results should_run_callback callback error
        drive_file_path entry_proto
  | Run_FileMoveCallback (Bind_AddUploadedFileToCache params) error file_path =>
      AddUploadedFileToCache params error file_path
  | Run_GetAboutResourceCallback (Bind_OnGetAboutResource callback) status
      about_resource =>
      OnGetAboutResource callback status about_resource
  | Run_LoadFeedListCallback (Bind_OnSearch search_callback) change_lists
      error =>
      OnSearch search_callback change_lists error
  | Run_GetChangestampCallback (Bind_OnGetLargestChangestamp metadata callback)
      changestamp =>
      OnGetLargestChangestamp metadata callback changestamp
  | Run_Closure task =>
      match task with
      | Bind_SearchCallback search_callback error next_feed result_vec =>
          Run_Bind_SearchCallback search_callback error next_feed result_vec
      | Bind_ReloadAfterReset => ReloadAfterReset
      | Bind_LoadIfNeeded directory_fetch_info callback =>
          LoadIfNeeded directory_fetch_info callback
      | Bind_CheckForUpdates => CheckForUpdates now
      end
  | _ => skip
  end.

(** The actions that run a caller's callback, and what the caller is told. *)
Definition caller_result (a : Action) : option CallerResult :=
  match a with
  | Run_ReadDirectoryWithSettingCallback
      (Caller_ReadDirectoryWithSettingCallback id) error hide entries =>
      Some (ReadDirectoryResult id error hide entries)
  | Run_GetAvailableSpaceCallback (Caller_GetAvailableSpaceCallback id) error
      bytes_total bytes_used =>
      Some (GetAvailableSpaceResult id error bytes_total bytes_used)
  | Run_SearchCallback (Caller_SearchCallback id) error next_feed results =>
      Some (SearchResult id error next_feed results)
  | Run_GetFilesystemMetadataCallback
      (Caller_GetFilesystemMetadataCallback id) metadata =>
      Some (GetFilesystemMetadataResult id metadata)
  | Run_FileOperationCallback (Caller_FileOperationCallback id) error =>
      Some (FileOperationResult id error)
  | _ => None
  end.

(** The reply to a call, when it is the [now]-th to be answered. *)
Definition complete (now : nat) (c : Call) : Action :=
  match c with
  | ResourceMetadata_GetEntryInfoByPath file_path callback =>
      let '(error, entry_proto) :=
        resource_metadata_GetEntryInfoByPath (first_part env) now file_path in
      Run_GetEntryInfoCallback callback error entry_proto
  | ResourceMetadata_ReadDirectoryByPath file_path callback =>
      let '(error, entries) :=
        resource_metadata_ReadDirectoryByPath env now file_path in
      Run_ReadDirectoryCallback callback error entries
  | ResourceMetadata_RefreshEntry entry callback =>
      let '(error, file_path, entry_proto) :=
        resource_metadata_RefreshEntry (first_part env) now entry in
      Run_GetEntryInfoWithFilePathCallback callback error file_path entry_proto
  | ResourceMetadata_AddEntry entry callback =>
      let '(error, file_path) := resource_metadata_AddEntry env now entry in
      Run_FileMoveCallback callback error file_path
  | ResourceMetadata_GetLargestChangestamp callback =>
      Run_GetChangestampCallback callback
        (resource_metadata_GetLargestChangestamp env now)
  | ResourceMetadata_Reset callback => Run_Closure callback
  | ChangeListLoader_LoadIfNeeded directory_fetch_info callback =>
      Run_FileOperationCallback callback
        (change_list_loader_LoadIfNeeded (first_part env) now
           directory_fetch_info)
  | ChangeListLoader_LoadFromServerIfNeeded directory_fetch_info callback =>
      Run_FileOperationCallback callback
        (change_list_loader_LoadFromServerIfNeeded env now directory_fetch_info)
  | ChangeListLoader_LoadDirectoryFromServer directory_resource_id callback =>
      Run_FileOperationCallback callback
        (change_list_loader_LoadDirectoryFromServer env now
           directory_resource_id)
  | ChangeListLoader_SearchFromServer search_query next_feed callback =>
      let '(change_lists, error) :=
        change_list_loader_SearchFromServer env now search_query next_feed in
      Run_LoadFeedListCallback callback change_lists error
  | Scheduler_GetAboutResource callback =>
      let '(status, about_resource) := scheduler_GetAboutResource env now in
      Run_GetAboutResourceCallback callback status about_resource
  | Cache_Store resource_id md5 source_path file_operation_type callback =>
      Run_FileOperationCallback callback
        (cache_Store (first_part env) now resource_id md5 source_path
           file_operation_type)
  | MessageLoop_PostTask task => Run_Closure task
  end.

(** The state, what the method that is running has still to do, the calls
    that wait for their reply (oldest first), the number of replies
    delivered, and what has been observed so far (oldest first). *)
Record Config : Type := {
  state : State;
  agenda : list Action;
  pending : list Call;
  now : nat;
  trace : list Event
}.

(** One step, as in the first part. *)
Definition step (cfg : Config) : Config :=
  match agenda cfg with
  | a :: rest =>
      match a with
      | Invoke c =>
          {| state := state cfg; agenda := rest;
             pending := pending cfg ++ [c]; now := now cfg;
             trace := trace cfg ++ [EvCall c] |}
      | Delegate d =>
          {| state := state cfg; agenda := rest;
             pending := pending cfg; now := now cfg;
             trace := trace cfg ++ [EvDelegate d] |}
      | Notify observer notification =>
          {| state := state cfg; agenda := rest;
             pending := pending cfg; now := now cfg;
             trace := trace cfg ++ [EvNotify observer notification] |}
      | Stop fault =>
          {| state := state cfg; agenda := [];
             pending := []; now := now cfg;
             trace := trace cfg ++ [EvStop fault] |}
      | _ =>
          match caller_result a with
          | Some r =>
              {| state := state cfg; agenda := rest;
                 pending := pending cfg; now := now cfg;
                 trace := trace cfg ++ [EvCaller r] |}
          | None =>
              let '(st, todo) := dispatch (now cfg) a (state cfg) in
              {| state := st; agenda := todo ++ rest;
                 pending := pending cfg; now := now cfg;
                 trace := trace cfg |}
          end
      end
  | [] =>
      match pending cfg with
      | c :: rest =>
          {| state := state cfg; agenda := [complete (now cfg) c];
             pending := rest; now := S (now cfg);
             trace := trace cfg |}
      | [] => cfg
      end
  end.

Fixpoint run (fuel : nat) (cfg : Config) : Config :=
  match fuel with
  | O => cfg
  | S fuel => run fuel (step cfg)
  end.

(** Nothing left to do and nothing to wait for. *)
Definition quiescent (cfg : Config) : Prop :=
  agenda cfg = [] /\ pending cfg = [].

(** A method is called on the state [st], when [start] replies have been
    delivered. *)
Definition call (start : nat) (st : State) (method : Method) : Config :=
  let '(st', todo) := method st in
  {| state := st'; agenda := todo; pending := []; now := start; trace := [] |}.

(** A method is called between two replies, while calls are pending: it
    finds the state as the callbacks run so far have left it. *)
Definition then_call (cfg : Config) (method : nat -> Method) : Config :=
  let '(st', todo) := method (now cfg) (state cfg) in
  {| state := st'; agenda := agenda cfg ++ todo; pending := pending cfg;
     now := now cfg; trace := trace cfg |}.

End Methods.

(** The calls started, the results told to callers and what the observers
    were told, in order. *)
Definition calls_of (t : list Event) : list Call :=
  omap (fun ev => match ev with EvCall c => Some c | _ => None end) t.

Definition caller_results_of (t : list Event) : list CallerResult :=
  omap (fun ev => match ev with EvCaller r => Some r | _ => None end) t.

Definition notifications_of (t : list Event)
  : list (Observer * Notification) :=
  omap (fun ev => match ev with EvNotify o n => Some (o, n) | _ => None end) t.

(** ** Runs *)

Definition reaches (env : Collaborators) (cfg cfg' : Config) : Prop :=
  exists fuel, run env fuel cfg = cfg'.

Definition runs_to (env : Collaborators) (cfg cfg' : Config) : Prop :=
  reaches env cfg cfg' /\ quiescent cfg'.

Definition ends (env : Collaborators) (cfg : Config) (P : Config -> Prop)
  : Prop :=
  exists cfg', runs_to env cfg cfg' /\ P cfg'.

(** ** What [Search] is to find *)

(** The replies of [DriveResourceMetadata::RefreshEntry] for [entries], when
    the first is the [start]-th reply to be delivered. *)
Fixpoint refresh_replies (env : Collaborators) (start : nat)
    (entries : list DriveEntryProto)
  : list (DriveFileError * FilePath * option DriveEntryProto) :=
  match entries with
  | [] => []
  | entry_proto :: entries =>
      resource_metadata_RefreshEntry (first_part env) start entry_proto
      :: refresh_replies env (S start) entries
  end.

(** A reply of [RefreshEntry] that is not a success, or comes with an
    entry. *)
Definition with_entry
    (reply : DriveFileError * FilePath * option DriveEntryProto) : Prop :=
  reply.1.1 = DRIVE_FILE_OK -> is_Some reply.2.

(** The entries that the metadata has, with their paths. *)
Definition found
    (replies : list (DriveFileError * FilePath * option DriveEntryProto))
  : list SearchResultInfo :=
  omap (fun '(error, drive_file_path, entry) =>
          if decide (error = DRIVE_FILE_OK)
          then (fun entry_proto =>
                  {| path := drive_file_path; entry_proto := entry_proto |})
               <$> entry
          else None) replies.

(** The entries that [RefreshEntry] was called on. *)
Definition refreshes_of (calls : list Call) : list DriveEntryProto :=
  omap (fun c =>
          match c with
          | ResourceMetadata_RefreshEntry entry_proto _ => Some entry_proto
          | _ => None
          end) calls.

(** The call with which [CheckForUpdates] and [ReloadAfterReset] ask the
    loader for the changes of the server. *)
Definition update_check : Call :=
  ChangeListLoader_LoadFromServerIfNeeded DirectoryFetchInfo_empty
    Bind_OnUpdateChecked.

(** The checks for updates that are started, each by what the loader is
    asked to fetch. *)
Definition update_checks_of (calls : list Call) : list DirectoryFetchInfo :=
  omap (fun c =>
          match c with
          | ChangeListLoader_LoadFromServerIfNeeded directory_fetch_info
              Bind_OnUpdateChecked =>
              Some directory_fetch_info
          | _ => None
          end) calls.

(** How many checks for updates the replies of [RefreshEntry] call for, when
    the first is the [start]-th reply to be delivered: one for each entry
    that the metadata does not have, if the loader is loaded and is not
    refreshing when the reply is handled. *)
Fixpoint update_checks_due (env : Collaborators) (start : nat)
    (replies : list (DriveFileError * FilePath * option DriveEntryProto))
  : nat :=
  match replies with
  | [] => 0
  | (error, _, _) :: replies =>
      (if decide (error = DRIVE_FILE_ERROR_NOT_FOUND)
       then
         if change_list_loader_loaded env (S start)
            && negb (change_list_loader_refreshing env (S start))
         then 1 else 0
       else 0)
      + update_checks_due env (S start) replies
  end.

(** How often the setting changes when it is set to each of [settings] in
    turn, from [hide]. *)
Fixpoint changes (hide : bool) (settings : list bool) : nat :=
  match settings with
  | [] => 0
  | setting :: settings =>
      (if decide (setting = hide) then 0 else 1) + changes setting settings
  end.

(** ** Sample data *)

Definition sample_about_resource : AboutResource :=
  {| quota_bytes_total := 5000; quota_bytes_used := 1200 |}.

(** Collaborators that answer every call the same way at all times, on top
    of those of the first part: the directory holds [listing], the server
    finds [change_lists], the loader is loaded and is not refreshing, and the
    drive service can start operations or not. *)
Definition sample_collaborators (first : Env)
    (listing : DriveFileError * option (list DriveEntryProto))
    (change_lists : list ChangeList * DriveFileError)
    (can_start : bool) : Collaborators :=
  {| first_part := first;
     IsSpecialResourceId := fun id => bool_decide (id = "<other>");
     GetDriveGrandRootPath := "drive";
     SEARCH_METADATA_EXCLUDE_HOSTED_DOCUMENTS := 2;
     Time_Now := fun now => (1000 + Z.of_nat now)%Z;
     pref_service_GetBoolean_kDisableDriveHostedFiles := fun _ => true;
     drive_service_CanStartOperation := fun _ => can_start;
     change_list_loader_loaded := fun _ => true;
     change_list_loader_refreshing := fun _ => false;
     resource_metadata_ReadDirectoryByPath := fun _ _ => listing;
     resource_metadata_AddEntry := fun _ _ => (DRIVE_FILE_OK, "drive/up.txt");
     resource_metadata_GetLargestChangestamp := fun _ => 77%Z;
     change_list_loader_LoadFromServerIfNeeded := fun _ _ => DRIVE_FILE_OK;
     change_list_loader_LoadDirectoryFromServer := fun _ _ => DRIVE_FILE_OK;
     change_list_loader_SearchFromServer := fun _ _ _ => change_lists;
     scheduler_GetAboutResource :=
       fun _ => (GDATA_STATUS 200, Some sample_about_resource) |}.

(** The collaborators of the first part when the metadata has the sample
    file only: refreshing any other entry fails with
    [DRIVE_FILE_ERROR_NOT_FOUND]. *)
Definition env_with_one_entry : Env :=
  let env := env_with_lookup sample_regular_file in
  {| GDataToDriveFileError := GDataToDriveFileError env;
     ConvertResourceEntryToDriveEntryProto :=
       ConvertResourceEntryToDriveEntryProto env;
     ConvertPlatformFileInfoToProto := ConvertPlatformFileInfoToProto env;
     GURL_of_string := GURL_of_string env;
     DirName := DirName env;
     resource_metadata_GetEntryInfoByPath :=
       resource_metadata_GetEntryInfoByPath env;
     resource_metadata_GetEntryInfoByResourceId :=
       resource_metadata_GetEntryInfoByResourceId env;
     resource_metadata_RefreshEntry :=
       fun _ e =>
         if bool_decide (resource_id e = "file:1")
         then (DRIVE_FILE_OK, "drive/a.txt", Some e)
         else (DRIVE_FILE_ERROR_NOT_FOUND, EmptyString, None);
     cache_GetCacheDirectoryPath := cache_GetCacheDirectoryPath env;
     cache_GetFile := cache_GetFile env;
     cache_GetCacheEntry := cache_GetCacheEntry env;
     cache_MarkDirty := cache_MarkDirty env;
     cache_CommitDirty := cache_CommitDirty env;
     cache_Unpin := cache_Unpin env;
     cache_Store := cache_Store env;
     cache_FreeDiskSpaceIfNeededFor := cache_FreeDiskSpaceIfNeededFor env;
     scheduler_GetResourceEntry := scheduler_GetResourceEntry env;
     scheduler_DownloadFile := scheduler_DownloadFile env;
     drive_operations_TransferRegularFile :=
       drive_operations_TransferRegularFile env;
     change_list_loader_LoadIfNeeded := change_list_loader_LoadIfNeeded env;
     file_util_CreateTemporaryFileInDir := file_util_CreateTemporaryFileInDir env;
     file_util_WriteFile := file_util_WriteFile env;
     file_util_GetFileInfo := file_util_GetFileInfo env |}.

(** What the server finds: a document that the metadata does not have yet,
    and the sample file. *)
Definition sample_change_list : ChangeList :=
  {| entries := [sample_hosted_document; sample_regular_file];
     next_url := {| spec := "https://drive/feed?page=2" |} |}.

(** An object on which [Initialize] has been called, with two observers. *)
Definition sample_state : State :=
  {| members := DriveFileSystem_new;
     observers_ := [1; 2];
     change_list_loader_ := Some {| observed_by_this := true |};
     last_update_check_time_ := 0;
     last_update_check_error_ := DRIVE_FILE_OK;
     readiness_observers := [];
     heap := [] |}.

(** The collaborators [env], but for the server, which answers every request
    for the about resource with [reply]. *)
Definition with_about_resource (reply : GDataErrorCode * option AboutResource)
    (env : Collaborators) : Collaborators :=
  {| first_part := first_part env;
     IsSpecialResourceId := IsSpecialResourceId env;
     GetDriveGrandRootPath := GetDriveGrandRootPath env;
     SEARCH_METADATA_EXCLUDE_HOSTED_DOCUMENTS :=
       SEARCH_METADATA_EXCLUDE_HOSTED_DOCUMENTS env;
     Time_Now := Time_Now env;
     pref_service_GetBoolean_kDisableDriveHostedFiles :=
       pref_service_GetBoolean_kDisableDriveHostedFiles env;
     drive_service_CanStartOperation := drive_service_CanStartOperation env;
     change_list_loader_loaded := change_list_loader_loaded env;
     change_list_loader_refreshing := change_list_loader_refreshing env;
     resource_metadata_ReadDirectoryByPath :=
       resource_metadata_ReadDirectoryByPath env;
     resource_metadata_AddEntry := resource_metadata_AddEntry env;
     resource_metadata_GetLargestChangestamp :=
       resource_metadata_GetLargestChangestamp env;
     change_list_loader_LoadFromServerIfNeeded :=
       change_list_loader_LoadFromServerIfNeeded env;
     change_list_loader_LoadDirectoryFromServer :=
       change_list_loader_LoadDirectoryFromServer env;
     change_list_loader_SearchFromServer :=
       change_list_loader_SearchFromServer env;
     scheduler_GetAboutResource := fun _ => reply |}.

End Catalog.

(** * Properties *)

(** ** The event loop is deterministic and stays where it ends *)

Section Runs.
Variable env : Env.

Lemma run_add n m cfg : run env (n + m) cfg = run env m (run env n cfg).
Proof. revert cfg; induction n as [|n IH]; intros cfg; simpl; [done|]. apply IH. Qed.

Lemma step_quiescent cfg : quiescent cfg -> step env cfg = cfg.
Proof. intros [Ha Hp]. unfold step. by rewrite Ha, Hp. Qed.

Lemma run_quiescent n cfg : quiescent cfg -> run env n cfg = cfg.
Proof. intros Hq. induction n as [|n IH]; simpl; [done|]. by rewrite step_quiescent. Qed.

Lemma run_stable n m cfg :
  quiescent (run env n cfg) -> n <= m -> run env m cfg = run env n cfg.
Proof.
  intros Hq Hle. replace m with (n + (m - n)) by lia.
  rewrite run_add. by apply run_quiescent.
Qed.

Lemma reaches_refl cfg : reaches env cfg cfg.
Proof. by exists 0. Qed.

Lemma reaches_step cfg cfg' : reaches env (step env cfg) cfg' -> reaches env cfg cfg'.
Proof. intros [n Hn]. by exists (S n). Qed.

Lemma runs_to_done cfg : quiescent cfg -> runs_to env cfg cfg.
Proof. intros Hq. split; [apply reaches_refl | done]. Qed.

Lemma runs_to_step cfg cfg' : runs_to env (step env cfg) cfg' -> runs_to env cfg cfg'.
Proof. intros [Hr Hq]. split; [by apply reaches_step | done]. Qed.

Lemma runs_to_unique cfg cfg1 cfg2 :
  runs_to env cfg cfg1 -> runs_to env cfg cfg2 -> cfg1 = cfg2.
Proof.
  intros [[n1 H1] Hq1] [[n2 H2] Hq2]. subst cfg1 cfg2.
  destruct (Nat.le_ge_cases n1 n2) as [Hle|Hle].
  - symmetry. by apply run_stable.
  - by apply run_stable.
Qed.

Lemma runs_to_more_fuel cfg cfg' :
  runs_to env cfg cfg' -> exists fuel, forall n, fuel <= n -> run env n cfg = cfg'.
Proof.
  intros [[fuel Hf] Hq]. exists fuel. intros n Hn. subst cfg'. by apply run_stable.
Qed.
Lemma concrete_run n cfg :
  quiescent (run env n cfg) -> runs_to env cfg (run env n cfg).
Proof. intros Hq. split; [by exists n | done]. Qed.

Lemma ends_done cfg (P : Config -> Prop) :
  quiescent cfg -> P cfg -> ends env cfg P.
Proof. intros Hq HP. exists cfg. split; [by apply runs_to_done | done]. Qed.

Lemma ends_step cfg (P : Config -> Prop) :
  ends env (step env cfg) P -> ends env cfg P.
Proof.
  intros (cfg' & Hrun & HP). exists cfg'. split; [by apply runs_to_step | done].
Qed.

Lemma ends_after_reaches cfg cfg' (P : Config -> Prop) :
  reaches env cfg cfg' -> ends env cfg' P -> ends env cfg P.
Proof.
  intros [n Hn] (cfg'' & [[m Hm] Hq] & HP). exists cfg''.
  split; [|done]. split; [|done]. exists (n + m). by rewrite run_add, Hn.
Qed.

Lemma ends_impl cfg (P Q : Config -> Prop) :
  (forall cfg', P cfg' -> Q cfg') -> ends env cfg P -> ends env cfg Q.
Proof. intros HPQ (cfg' & Hrun & HP). exists cfg'. split; [done | by apply HPQ]. Qed.

Lemma ends_runs_to cfg cfg' (P : Config -> Prop) :
  runs_to env cfg cfg' -> ends env cfg P -> P cfg'.
Proof.
  intros Hrun (cfg'' & Hrun' & HP). by rewrite (runs_to_unique _ _ _ Hrun Hrun').
Qed.
End Runs.

(** ** Symbolic execution

    [run_to_end] follows a run step by step.  A test of the source on a value
    that is known is settled; a reply that no hypothesis fixes is left to
    [case_reply], which considers every answer. *)

#[local] Arguments document_json : simpl never.
#[local] Arguments static_cast_int : simpl never.

Create HintDb methods.
#[local] Hint Unfold
  OnError OnCacheFound OnStoreCompleted OnDirectoryChanged LoadIfNeeded
  RunGetEntryInfoWithFilePathCallback
  CreateFile OnGetEntryInfoForCreateFile
  GetResolvedFileByPath GetFileByPath OnGetEntryInfoCompleteForGetFileByPath
  GetFileByResourceId GetFileByResourceIdAfterGetEntry
  GetResolvedFileByPathAfterCreateDocumentJsonFile
  GetResolvedFileByPathAfterGetFileFromCache
  GetResolvedFileByPathAfterGetResourceEntry
  GetResolvedFileByPathAfterRefreshEntry
  GetResolvedFileByPathAfterFreeDiskSpace
  GetResolveFileByPathAfterCreateTemporaryFile
  GetResolvedFileByPathAfterDownloadFile
  GetResolvedFileByPathAfterGetCacheEntryForCancel
  GetResolvedFileByPathAfterStore GetResolvedFileByPathAfterGetFile
  CheckLocalModificationAndRun CheckLocalModificationAndRunAfterGetCacheEntry
  CheckLocalModificationAndRunAfterGetCacheFile
  CheckLocalModificationAndRunAfterGetFileInfo
  GetEntryInfoByResourceId GetEntryInfoByResourceIdAfterGetEntry
  GetEntryInfoByPath GetEntryInfoByPathAfterGetEntry1
  GetEntryInfoByPathAfterLoad GetEntryInfoByPathAfterGetEntry2
  OpenFile OnGetEntryInfoCompleteForOpenFile OnGetFileCompleteForOpenFile
  OnMarkDirtyInCacheCompleteForOpenFile OnOpenFileFinished
  CloseFile CloseFileAfterGetEntryInfo CloseFileFinalize
  CreateDocumentJsonFileOnBlockingPool
  seq emit invoke modify skip : methods.

Ltac known_true := first [ assumption | congruence | split; congruence ].
Ltac known_false :=
  first [ assumption
        | let H := fresh in
          intros H; first [ congruence | destruct H; congruence ] ].

Ltac settle_decide :=
  match goal with
  | |- context [decide ?P] =>
      first [ rewrite (decide_True (P := P)) by known_true
            | rewrite (decide_False (P := P)) by known_false ]
  end.

Ltac use_known_reply :=
  match goal with
  | H : ?x = _ |- context [?x] => rewrite H
  end.

Ltac simplify_config :=
  repeat first [ progress cbn
               | progress autounfold with methods
               | settle_decide
               | use_known_reply ].

Ltac finish_run :=
  first [ apply runs_to_done; split; reflexivity | apply reaches_refl ].

Ltac advance :=
  match goal with
  | |- runs_to _ (Build_Config _ (_ :: _) _ _ _) _ => apply runs_to_step
  | |- runs_to _ (Build_Config _ [] (_ :: _) _ _) _ => apply runs_to_step
  | |- reaches _ (Build_Config _ (_ :: _) _ _ _) _ => apply reaches_step
  | |- reaches _ (Build_Config _ [] (_ :: _) _ _) _ => apply reaches_step
  end.

Ltac run_to_end :=
  simplify_config;
  repeat (first [ finish_run | advance ]; simplify_config).

(** A boolean test is split into the tests it is made of. *)
Ltac split_bool b :=
  match b with
  | orb ?a _ => split_bool a
  | andb ?a _ => split_bool a
  | negb ?a => split_bool a
  | _ => destruct b eqn:?
  end.

(** The innermost test or reply on which [t] waits. *)
Ltac split_stuck t :=
  match t with
  | context [match ?x with _ => _ end] =>
      first [ split_stuck x | split_bool x ]
  | context [@decide ?P ?d] => destruct (@decide P d)
  end.

Ltac case_reply :=
  match goal with
  | |- ends _ ?cfg _ => split_stuck cfg
  end.

Ltac step_forward :=
  match goal with
  | |- ends _ (Build_Config _ (_ :: _) _ _ _) _ => apply ends_step
  | |- ends _ (Build_Config _ [] (_ :: _) _ _) _ => apply ends_step
  end.

(** Follows every run from the configuration of the goal to its end, and
    leaves the property to prove of each final configuration. *)
Ltac explore :=
  simplify_config;
  repeat (first [ apply ends_done; [split; reflexivity|]
                | step_forward
                | case_reply ];
          simplify_config).

(** ** [CreateFile] on a path where an entry exists *)

(** The whole run: one lookup in the metadata, then the caller is told. *)
Lemma CreateFile_on_existing_entry_run env fs start file_path is_exclusive id
    entry :
  resource_metadata_GetEntryInfoByPath env start file_path
    = (DRIVE_FILE_OK, Some entry) ->
  runs_to env
    (call start fs
       (CreateFile file_path is_exclusive (Caller_FileOperationCallback id)))
    {| object := fs; agenda := []; pending := []; now := S start;
       trace :=
         [EvCall
            (ResourceMetadata_GetEntryInfoByPath file_path
               (Bind_OnGetEntryInfoForCreateFile file_path is_exclusive
                  (Caller_FileOperationCallback id)));
          EvCaller
            (FileOperationResult id
               (if is_exclusive
                   || PlatformFileInfoProto.is_directory (file_info entry)
                   || is_hosted_document (file_specific_info entry)
                then DRIVE_FILE_ERROR_EXISTS else DRIVE_FILE_OK))
            fs] |}.
Proof.
  intros Hlookup.
  destruct is_exclusive; [run_to_end|]. cbn [orb].
  destruct (_ || _) eqn:Hkind; run_to_end.
Qed.

(** C1, as amended.  When the metadata has an entry at the path, [CreateFile]
    ends without a call to the RemoteStore and leaves the object as it was.
    It succeeds on a regular file when [is_exclusive] is false.  On a
    directory or a hosted document it fails with [DRIVE_FILE_ERROR_EXISTS],
    whether [is_exclusive] is true or false. *)
Theorem CreateFile_on_existing_entry env fs start file_path is_exclusive id
    entry :
  resource_metadata_GetEntryInfoByPath env start file_path
    = (DRIVE_FILE_OK, Some entry) ->
  exists cfg,
    runs_to env
      (call start fs
         (CreateFile file_path is_exclusive (Caller_FileOperationCallback id)))
      cfg
    /\ object cfg = fs
    /\ Forall (fun c => is_remote_store_call c = false) (calls_of (trace cfg))
    /\ (is_exclusive = false ->
        PlatformFileInfoProto.is_directory (file_info entry) = false ->
        is_hosted_document (file_specific_info entry) = false ->
        caller_results_of (trace cfg) = [FileOperationResult id DRIVE_FILE_OK])
    /\ (PlatformFileInfoProto.is_directory (file_info entry) = true
        \/ is_hosted_document (file_specific_info entry) = true ->
        caller_results_of (trace cfg)
          = [FileOperationResult id DRIVE_FILE_ERROR_EXISTS]).
Proof.
  intros Hlookup. eexists. split.
  { by apply CreateFile_on_existing_entry_run. }
  cbn. split; [done|]. split; [by repeat constructor|]. split.
  - by intros -> -> ->.
  - intros [-> | ->]; by rewrite ?orb_true_r.
Qed.

Lemma CreateFile_on_existing_entry_witness :
  resource_metadata_GetEntryInfoByPath (env_with_lookup sample_regular_file) 0
    "drive/a.txt" = (DRIVE_FILE_OK, Some sample_regular_file)
  /\ exists cfg,
       runs_to (env_with_lookup sample_regular_file)
         (call 0 DriveFileSystem_new
            (CreateFile "drive/a.txt" false (Caller_FileOperationCallback 0)))
         cfg
       /\ object cfg = DriveFileSystem_new
       /\ Forall (fun c => is_remote_store_call c = false)
            (calls_of (trace cfg))
       /\ caller_results_of (trace cfg)
          = [FileOperationResult 0 DRIVE_FILE_OK].
Proof.
  split; [reflexivity|].
  destruct (CreateFile_on_existing_entry (env_with_lookup sample_regular_file)
              DriveFileSystem_new 0 "drive/a.txt" false 0 sample_regular_file
              eq_refl) as (cfg & Hrun & Hobject & Hcalls & Hfile & _).
  exists cfg. repeat split; try assumption.
  - apply Hrun.
  - apply Hrun.
  - apply Hrun.
  - by apply Hfile.
Defined.

(** C1 as it was stated fails: without [is_exclusive], [CreateFile] on a
    directory does not end with [DRIVE_FILE_ERROR_INVALID_OPERATION] (it ends
    with [DRIVE_FILE_ERROR_EXISTS]). *)
Lemma CreateFile_on_directory_counterexample :
  PlatformFileInfoProto.is_directory (file_info sample_directory) = true
  /\ ~ exists cfg,
        runs_to (env_with_lookup sample_directory)
          (call 0 DriveFileSystem_new
             (CreateFile "drive/docs" false (Caller_FileOperationCallback 0)))
          cfg
        /\ caller_results_of (trace cfg)
           = [FileOperationResult 0 DRIVE_FILE_ERROR_INVALID_OPERATION].
Proof.
  split; [reflexivity|]. intros (cfg & Hrun & Htold).
  pose proof (CreateFile_on_existing_entry_run
                (env_with_lookup sample_directory) DriveFileSystem_new 0
                "drive/docs" false 0 sample_directory eq_refl) as Hrun'.
  rewrite (runs_to_unique _ _ _ _ Hrun Hrun') in Htold. discriminate Htold.
Qed.

(** ** [CloseFile] *)

(** C3.  [CloseFile] on a path that is not open tells the caller
    [DRIVE_FILE_ERROR_NOT_FOUND], starts no call but the posted task, and
    leaves the object as it was.  On an open path the run ends and the
    caller's callback is run once (unless the metadata replied
    [DRIVE_FILE_OK] with a null entry); when it is run the path is no longer
    in [open_files_].  When the metadata has the file, the caller is told
    what [DriveCache::CommitDirty] replied, success or failure. *)
Theorem CloseFile_releases_the_path env fs start file_path id :
  (file_path ∉ open_files_ fs ->
   runs_to env
     (call start fs (CloseFile file_path (Caller_FileOperationCallback id)))
     {| object := fs; agenda := []; pending := []; now := S start;
        trace :=
          [EvCall
             (MessageLoop_PostTask
                (Bind_FileOperationCallback (Caller_FileOperationCallback id)
                   DRIVE_FILE_ERROR_NOT_FOUND));
           EvCaller (FileOperationResult id DRIVE_FILE_ERROR_NOT_FOUND) fs] |})
  /\ (file_path ∈ open_files_ fs ->
      ends env
        (call start fs (CloseFile file_path (Caller_FileOperationCallback id)))
        (fun cfg =>
           (last (trace cfg) = Some EvNullDereference
            \/ exists result fs',
                caller_events (trace cfg)
                  = [(FileOperationResult id result, fs')])
           /\ Forall
                (fun '(_, fs') =>
                   (file_path ∉ open_files_ fs')
                   /\ (open_files_ fs' = open_files_ fs ∖ {[file_path]}))
                (caller_events (trace cfg))
           /\ (forall entry,
                resource_metadata_GetEntryInfoByPath env start file_path
                  = (DRIVE_FILE_OK, Some entry) ->
                has_file_specific_info entry = true ->
                object cfg
                  = set_open_files_ (open_files_ fs ∖ {[file_path]}) fs
                /\ trace cfg
                   = [EvCall
                        (ResourceMetadata_GetEntryInfoByPath file_path
                           (Bind_CloseFileAfterGetEntryInfo file_path
                              (Bind_CloseFileFinalize file_path
                                 (Caller_FileOperationCallback id))));
                      EvCall
                        (Cache_CommitDirty (resource_id entry)
                           (file_md5 (file_specific_info entry))
                           (Bind_CloseFileFinalize file_path
                              (Caller_FileOperationCallback id)));
                      EvCaller
                        (FileOperationResult id
                           (cache_CommitDirty env (S start) (resource_id entry)
                              (file_md5 (file_specific_info entry))))
                        (set_open_files_ (open_files_ fs ∖ {[file_path]})
                           fs)]))).
Proof.
  split.
  - intros Hclosed. unfold call, CloseFile.
    rewrite decide_True by done. run_to_end.
  - intros Hopen. unfold call, CloseFile.
    rewrite decide_False by (intros Hclosed; by apply Hclosed).
    assert (file_path ∉ open_files_ fs ∖ {[file_path]}) as Hgone
      by (intros [_ Hin]%elem_of_difference; apply Hin; by apply elem_of_singleton).
    explore.
    all: split; [first [ left; reflexivity | right; by eexists _, _ ]|].
    all: split; [by repeat constructor|].
    all: intros entry ? Hinfo; simplify_eq.
    all: try (rewrite Hinfo in *; discriminate).
    all: done.
Qed.

Lemma CloseFile_releases_the_path_witness :
  (("drive/a.txt" ∉ open_files_ DriveFileSystem_new)
   /\ runs_to (env_with_lookup sample_regular_file)
        (call 0 DriveFileSystem_new
           (CloseFile "drive/a.txt" (Caller_FileOperationCallback 0)))
        {| object := DriveFileSystem_new; agenda := []; pending := [];
           now := 1;
           trace :=
             [EvCall
                (MessageLoop_PostTask
                   (Bind_FileOperationCallback (Caller_FileOperationCallback 0)
                      DRIVE_FILE_ERROR_NOT_FOUND));
              EvCaller (FileOperationResult 0 DRIVE_FILE_ERROR_NOT_FOUND)
                DriveFileSystem_new] |})
  /\ (("drive/a.txt"
         ∈ open_files_ (set_open_files_ {["drive/a.txt"]} DriveFileSystem_new))
      /\ exists cfg,
           runs_to (env_with_lookup sample_regular_file)
             (call 0 (set_open_files_ {["drive/a.txt"]} DriveFileSystem_new)
                (CloseFile "drive/a.txt" (Caller_FileOperationCallback 0)))
             cfg
           /\ Forall (fun '(_, fs') => "drive/a.txt" ∉ open_files_ fs')
                (caller_events (trace cfg))).
Proof.
  split.
  - split; [set_solver|].
    apply (CloseFile_releases_the_path (env_with_lookup sample_regular_file)
             DriveFileSystem_new 0 "drive/a.txt" 0).
    set_solver.
  - split; [set_solver|].
    destruct (proj2
                (CloseFile_releases_the_path
                   (env_with_lookup sample_regular_file)
                   (set_open_files_ {["drive/a.txt"]} DriveFileSystem_new)
                   0 "drive/a.txt" 0))
      as (cfg & Hrun & _ & Hgone & _); [set_solver|].
    exists cfg. split; [exact Hrun|].
    eapply Forall_impl; [exact Hgone|]. by intros [? ?] [? _].
Defined.

(** ** [OpenFile] *)

Lemma insert_then_erase (s : gset string) (p : string) :
  p ∉ s -> ({[p]} ∪ s) ∖ {[p]} = s.
Proof.
  intros Hp. apply set_eq. intros x.
  rewrite elem_of_difference, elem_of_union, elem_of_singleton.
  split; [intros [[->|Hx] Hne]; done|].
  intros Hx. split; [by right|]. by intros ->.
Qed.

Lemma OpenFile_in_use_run env fs start file_path id :
  file_path ∈ open_files_ fs ->
  runs_to env
    (call start fs (OpenFile file_path (Caller_OpenFileCallback id)))
    {| object := fs; agenda := []; pending := []; now := S start;
       trace :=
         [EvCall
            (MessageLoop_PostTask
               (Bind_OpenFileCallback (Caller_OpenFileCallback id)
                  DRIVE_FILE_ERROR_IN_USE EmptyString));
          EvCaller (OpenFileResult id DRIVE_FILE_ERROR_IN_USE EmptyString)
            fs] |}.
Proof.
  intros Hopen. unfold call, OpenFile. rewrite decide_True by done.
  run_to_end.
Qed.

Lemma OpenFile_on_closed_path fs file_path callback :
  file_path ∉ open_files_ fs ->
  OpenFile file_path callback fs
  = (set_open_files_ ({[file_path]} ∪ open_files_ fs) fs,
     [Invoke
        (ResourceMetadata_GetEntryInfoByPath file_path
           (Bind_OnGetEntryInfoCompleteForOpenFile file_path
              (Bind_OnOpenFileFinished file_path callback)))]).
Proof. intros Hclosed. unfold OpenFile. by rewrite decide_False by done. Qed.

(** Every run of [OpenFile] on a path that is not open, whatever the
    collaborators reply. *)
Lemma OpenFile_run env fs start file_path id :
  file_path ∉ open_files_ fs ->
  ends env (call start fs (OpenFile file_path (Caller_OpenFileCallback id)))
    (fun cfg =>
       head (trace cfg)
       = Some
           (EvCall
              (ResourceMetadata_GetEntryInfoByPath file_path
                 (Bind_OnGetEntryInfoCompleteForOpenFile file_path
                    (Bind_OnOpenFileFinished file_path
                       (Caller_OpenFileCallback id)))))
       /\ (last (trace cfg) = Some EvNullDereference
           \/ exists error cache_file_path fs',
               caller_events (trace cfg)
               = [(OpenFileResult id error cache_file_path, fs')])
       /\ forall error cache_file_path fs',
            (OpenFileResult id error cache_file_path, fs')
              ∈ caller_events (trace cfg) ->
            (error <> DRIVE_FILE_OK ->
             open_files_ fs' = open_files_ fs
             /\ open_files_ (object cfg) = open_files_ fs)
            /\ (error = DRIVE_FILE_OK ->
                open_files_ fs' = {[file_path]} ∪ open_files_ fs
                /\ open_files_ (object cfg) = {[file_path]} ∪ open_files_ fs
                /\ exists entry,
                    resource_metadata_GetEntryInfoByPath env start file_path
                    = (DRIVE_FILE_OK, Some entry)
                    /\ Cache_MarkDirty (resource_id entry)
                         (file_md5 (file_specific_info entry))
                         (Bind_OnMarkDirtyInCacheCompleteForOpenFile
                            {| GetFileCompleteForOpenParams.callback :=
                                 Bind_OnOpenFileFinished file_path
                                   (Caller_OpenFileCallback id);
                               GetFileCompleteForOpenParams.resource_id :=
                                 resource_id entry;
                               GetFileCompleteForOpenParams.md5 :=
                                 file_md5 (file_specific_info entry) |})
                       ∈ calls_of (trace cfg))).
Proof.
  intros Hclosed. unfold call. rewrite OpenFile_on_closed_path by done.
  pose proof (insert_then_erase _ _ Hclosed) as Hrestore.
  explore.
  all: split; [reflexivity|].
  all: split; [first [ left; reflexivity | right; by eexists _, _, _ ]|].
  all: intros error cache_file_path fs' Hin; cbn in Hin.
  all: try (by apply elem_of_nil in Hin).
  all: apply list_elem_of_singleton in Hin; simplify_eq.
  all: split; [intros Hne; try done; cbn; by split|].
  all: intros Heq; try done.
  all: split; [done|]; split; [done|]; eexists; split; [done|]; cbn.
  all: repeat first [apply list_elem_of_here | apply list_elem_of_further].
Qed.

(** The run is followed from the request to the moment at which the call of
    [DriveCache::MarkDirty] is the one to be answered. *)
Ltac run_to_MarkDirty :=
  simplify_config;
  repeat (first
            [ match goal with
              | |- reaches _ (Build_Config _ [] [Cache_MarkDirty _ _ _] _ _) _ =>
                  apply reaches_refl
              end
            | advance ];
          simplify_config).

(** A run of [OpenFile] in which the caller is told [DRIVE_FILE_OK] has
    waited for the reply of [DriveCache::MarkDirty], and that reply was
    [DRIVE_FILE_OK]. *)
Lemma OpenFile_success_after_MarkDirty env fs start file_path id :
  file_path ∉ open_files_ fs ->
  let request :=
    call start fs (OpenFile file_path (Caller_OpenFileCallback id)) in
  ends env request
    (fun cfg =>
       forall cache_file_path fs',
         (OpenFileResult id DRIVE_FILE_OK cache_file_path, fs')
           ∈ caller_events (trace cfg) ->
         exists entry waiting,
           resource_metadata_GetEntryInfoByPath env start file_path
           = (DRIVE_FILE_OK, Some entry)
           /\ reaches env request waiting
           /\ agenda waiting = []
           /\ pending waiting
              = [Cache_MarkDirty (resource_id entry)
                   (file_md5 (file_specific_info entry))
                   (Bind_OnMarkDirtyInCacheCompleteForOpenFile
                      {| GetFileCompleteForOpenParams.callback :=
                           Bind_OnOpenFileFinished file_path
                             (Caller_OpenFileCallback id);
                         GetFileCompleteForOpenParams.resource_id :=
                           resource_id entry;
                         GetFileCompleteForOpenParams.md5 :=
                           file_md5 (file_specific_info entry) |})]
           /\ cache_MarkDirty env (now waiting) (resource_id entry)
                (file_md5 (file_specific_info entry))
              = DRIVE_FILE_OK).
Proof.
  intros Hclosed request. subst request. unfold call.
  rewrite OpenFile_on_closed_path by done.
  explore.
  all: intros cache_file_path fs' Hin; cbn in Hin.
  all: try (by apply elem_of_nil in Hin).
  all: apply list_elem_of_singleton in Hin; simplify_eq.
  all: try congruence.
  all: eexists _, _; split; [reflexivity|].
  all: split; [run_to_MarkDirty|].
  all: split; [reflexivity|]; split; [reflexivity|]; cbn.
  all: match goal with
       | Hreply : ¬ (?error ≠ _) |- ?error = _ =>
           by destruct (decide (error = DRIVE_FILE_OK))
       end.
Qed.


(** C10.  In every run of [OpenFile] on a path that is not in [open_files_]
    the caller's callback is run once (unless a collaborator replied
    [DRIVE_FILE_OK] with a null entry).  When it is run with an error, the
    path is already out of [open_files_], which is the set as it was before
    the request, and stays so to the end of the run; [OpenFile] on the same
    path then proceeds to the metadata lookup again. *)
Theorem OpenFile_failure_releases_the_path env fs start file_path id :
  file_path ∉ open_files_ fs ->
  ends env (call start fs (OpenFile file_path (Caller_OpenFileCallback id)))
    (fun cfg =>
       (last (trace cfg) = Some EvNullDereference
        \/ exists error cache_file_path fs',
            caller_events (trace cfg)
            = [(OpenFileResult id error cache_file_path, fs')])
       /\ forall error cache_file_path fs',
            (OpenFileResult id error cache_file_path, fs')
              ∈ caller_events (trace cfg) ->
            error <> DRIVE_FILE_OK ->
            (file_path ∉ open_files_ fs')
            /\ open_files_ fs' = open_files_ fs
            /\ open_files_ (object cfg) = open_files_ fs
            /\ forall callback,
                 snd (OpenFile file_path callback (object cfg))
                 = [Invoke
                      (ResourceMetadata_GetEntryInfoByPath file_path
                         (Bind_OnGetEntryInfoCompleteForOpenFile file_path
                            (Bind_OnOpenFileFinished file_path callback)))]).
Proof.
  intros Hclosed.
  eapply ends_impl; [|by apply OpenFile_run].
  intros cfg (_ & Honce & Htold). split; [done|].
  intros error cache_file_path fs' Hin Herror.
  destruct (Htold _ _ _ Hin) as [Hfail _].
  destruct (Hfail Herror) as [Hthen Hend].
  split; [by rewrite Hthen|]. split; [done|]. split; [done|].
  intros callback. rewrite OpenFile_on_closed_path; [done|by rewrite Hend].
Qed.


Lemma OpenFile_failure_releases_the_path_witness :
  ("drive/docs" ∉ open_files_ DriveFileSystem_new)
  /\ exists cfg,
       runs_to (env_with_lookup sample_directory)
         (call 0 DriveFileSystem_new
            (OpenFile "drive/docs" (Caller_OpenFileCallback 0)))
         cfg
       /\ caller_results_of (trace cfg)
          = [OpenFileResult 0 DRIVE_FILE_ERROR_NOT_FOUND EmptyString]
       /\ open_files_ (object cfg) = open_files_ DriveFileSystem_new.
Proof.
  assert ("drive/docs" ∉ open_files_ DriveFileSystem_new)
    as Hclosed by apply not_elem_of_empty.
  split; [exact Hclosed|].
  set (cfg0 := call 0 DriveFileSystem_new
                 (OpenFile "drive/docs" (Caller_OpenFileCallback 0))).
  assert (runs_to (env_with_lookup sample_directory) cfg0
            (run (env_with_lookup sample_directory) 8 cfg0)) as Hrun
    by (apply concrete_run; vm_compute; split; reflexivity).
  assert (caller_events (trace (run (env_with_lookup sample_directory) 8 cfg0))
          = [(OpenFileResult 0 DRIVE_FILE_ERROR_NOT_FOUND EmptyString,
              DriveFileSystem_new)])
    as Htold by (vm_compute; reflexivity).
  pose proof (ends_runs_to _ _ _ _ Hrun
                (OpenFile_failure_releases_the_path
                   (env_with_lookup sample_directory) DriveFileSystem_new 0
                   "drive/docs" 0 Hclosed))
    as [_ Hreleased].
  destruct (Hreleased DRIVE_FILE_ERROR_NOT_FOUND EmptyString
              DriveFileSystem_new)
    as (_ & _ & Hend & _); [rewrite Htold; apply list_elem_of_here|done|].
  exists (run (env_with_lookup sample_directory) 8 cfg0).
  split; [exact Hrun|]. split; [vm_compute; reflexivity|exact Hend].
Defined.

(** ** Polling *)

(** The interval and the flag agree: holds of a new object and is kept by
    [SetPushNotificationEnabled], [StartPolling] and [StopPolling]. *)
Lemma polling_interval_agrees_with_flag (methods : list Handler) :
  Forall
    (fun method =>
       method = StartPolling \/ method = StopPolling
       \/ exists enabled, method = SetPushNotificationEnabled enabled)
    methods ->
  let fs := foldl (fun fs method => fst (method fs)) DriveFileSystem_new methods in
  polling_interval_sec_ fs
  = if push_notification_enabled_ fs then kSlowPollingIntervalInSec
    else kFastPollingIntervalInSec.
Proof.
  intros Hmethods. cbn zeta.
  assert (polling_interval_sec_ DriveFileSystem_new
          = if push_notification_enabled_ DriveFileSystem_new
            then kSlowPollingIntervalInSec else kFastPollingIntervalInSec)
    as Hnew by reflexivity.
  revert Hnew. generalize DriveFileSystem_new.
  induction Hmethods as [|method methods Hmethod _ IH]; intros fs Hfs; [done|].
  cbn. apply IH.
  destruct Hmethod as [-> | [-> | [enabled ->]]].
  - done.
  - unfold StopPolling. by destruct (Timer.IsRunning (update_timer_ fs)).
  - done.
Qed.

(** C8, as amended.  [SetPushNotificationEnabled] stores the flag and the
    interval that goes with it: the long one when the flag is enabled, the
    short one when it is disabled.  It leaves the timer alone: a timer that is
    running keeps the interval it was started with.  A timer started by
    [StartPolling] ticks at the interval stored at that moment, so the new
    interval is the one of the ticks once polling has been stopped and
    started again. *)
Theorem SetPushNotificationEnabled_sets_the_next_interval
    (fs : DriveFileSystem) (enabled : bool) :
  let interval :=
    if enabled then kSlowPollingIntervalInSec else kFastPollingIntervalInSec in
  let fs' := fst (SetPushNotificationEnabled enabled fs) in
  push_notification_enabled_ fs' = enabled
  /\ polling_interval_sec_ fs' = interval
  /\ update_timer_ fs' = update_timer_ fs
  /\ Timer.tick_interval (update_timer_ fs')
     = Timer.tick_interval (update_timer_ fs)
  /\ Timer.tick_interval (update_timer_ (fst (StartPolling fs')))
     = Some interval
  /\ Timer.tick_interval
       (update_timer_ (fst (StartPolling (fst (StopPolling fs')))))
     = Some interval.
Proof.
  repeat split.
  unfold StopPolling. cbn.
  by destruct (Timer.IsRunning (update_timer_ fs)).
Qed.

(** C8 as it was stated fails: polling is started with the flag disabled, the
    flag is enabled while the timer is running, and the ticks are still the
    short interval apart, not the long one. *)
Lemma SetPushNotificationEnabled_running_timer_counterexample :
  let fs :=
    fst (SetPushNotificationEnabled true
           (fst (StartPolling DriveFileSystem_new))) in
  Timer.IsRunning (update_timer_ fs) = true
  /\ push_notification_enabled_ fs = true
  /\ Timer.tick_interval (update_timer_ fs) = Some kFastPollingIntervalInSec
  /\ Timer.tick_interval (update_timer_ fs) <> Some kSlowPollingIntervalInSec.
Proof. cbn. repeat split. discriminate. Qed.

(** ** The file-materialization pipeline *)

(** C5.  A [GetFileByPath] or [GetFileByResourceId] request whose entry is a
    file that is not a hosted document, and whose content [DriveCache::GetFile]
    finds under the entry's resource id and md5, ends by telling the caller
    the cached path with the entry's mime type and the kind [REGULAR_FILE];
    no call to the RemoteStore is made (no metadata fetch, no download). *)
Theorem GetFile_cache_hit env fs start id entry cache_file_path :
  has_file_specific_info entry = true ->
  is_hosted_document (file_specific_info entry) = false ->
  cache_GetFile env (S start) (resource_id entry)
    (file_md5 (file_specific_info entry))
  = (DRIVE_FILE_OK, cache_file_path) ->
  let told :=
    [GetFileResult id DRIVE_FILE_OK cache_file_path
       (content_mime_type (file_specific_info entry)) REGULAR_FILE] in
  (forall file_path,
     resource_metadata_GetEntryInfoByPath env start file_path
     = (DRIVE_FILE_OK, Some entry) ->
     ends env
       (call start fs (GetFileByPath file_path (Caller_GetFileCallback id)))
       (fun cfg =>
          caller_results_of (trace cfg) = told
          /\ Forall (fun c => is_remote_store_call c = false)
               (calls_of (trace cfg))
          /\ object cfg = fs))
  /\ (forall resource_id context get_content_callback file_path,
        resource_metadata_GetEntryInfoByResourceId env start resource_id
        = (DRIVE_FILE_OK, file_path, Some entry) ->
        ends env
          (call start fs
             (GetFileByResourceId resource_id context
                (Caller_GetFileCallback id) get_content_callback))
          (fun cfg =>
             caller_results_of (trace cfg) = told
             /\ Forall (fun c => is_remote_store_call c = false)
                  (calls_of (trace cfg))
             /\ object cfg = fs)).
Proof.
  intros Hinfo Hhosted Hcached told. split.
  - intros file_path Hlookup. explore. by repeat constructor.
  - intros rid context get_content_callback file_path Hlookup. explore.
    by repeat constructor.
Qed.

Lemma GetFile_cache_hit_witness :
  has_file_specific_info sample_regular_file = true
  /\ is_hosted_document (file_specific_info sample_regular_file) = false
  /\ cache_GetFile (env_with_cached sample_regular_file) 1 "file:1" "md5-a"
     = (DRIVE_FILE_OK, "cache/files/a")
  /\ resource_metadata_GetEntryInfoByPath (env_with_cached sample_regular_file)
       0 "drive/a.txt"
     = (DRIVE_FILE_OK, Some sample_regular_file)
  /\ ends (env_with_cached sample_regular_file)
       (call 0 DriveFileSystem_new
          (GetFileByPath "drive/a.txt" (Caller_GetFileCallback 0)))
       (fun cfg =>
          caller_results_of (trace cfg)
          = [GetFileResult 0 DRIVE_FILE_OK "cache/files/a" "text/plain"
               REGULAR_FILE]
          /\ Forall (fun c => is_remote_store_call c = false)
               (calls_of (trace cfg))
          /\ object cfg = DriveFileSystem_new).
Proof.
  repeat (split; [reflexivity|]).
  apply (proj1 (GetFile_cache_hit (env_with_cached sample_regular_file)
                  DriveFileSystem_new 0 0 sample_regular_file "cache/files/a"
                  eq_refl eq_refl eq_refl)).
  reflexivity.
Defined.

(** C6.  [GDataToDriveFileError] is a parameter; a cancelled request is not
    a success, and the kind it gives to [GDATA_CANCELLED] is the one the
    specification calls Cancelled.  In every run in which the reply of a
    download is delivered with the status [GDATA_CANCELLED], the caller is
    told that kind and nothing is stored in the cache.  The pipeline asks the
    cache for the record of the entry, and calls [DriveCache::Unpin] on it
    exactly when the record exists and is pinned. *)
Theorem cancelled_download_unpins_only_a_pinned_entry env cfg0 fs now trace0
    drive_file_path context entry id get_content_callback
    downloaded_file_path :
  let params :=
    {| GetResolvedFileParams.drive_file_path := drive_file_path;
       GetResolvedFileParams.context := context;
       GetResolvedFileParams.entry_proto := entry;
       GetResolvedFileParams.get_file_callback := Caller_GetFileCallback id;
       GetResolvedFileParams.get_content_callback := get_content_callback |} in
  let md5 := file_md5 (file_specific_info entry) in
  let record := cache_GetCacheEntry env now (resource_id entry) md5 in
  reaches env cfg0
    {| object := fs;
       agenda :=
         [Run_DownloadActionCallback
            (Bind_GetResolvedFileByPathAfterDownloadFile params)
            GDATA_CANCELLED downloaded_file_path];
       pending := []; now := now; trace := trace0 |} ->
  GDataToDriveFileError env GDATA_CANCELLED <> DRIVE_FILE_OK ->
  ends env cfg0
    (fun cfg =>
       trace cfg
       = trace0
         ++ [EvCall
               (Cache_GetCacheEntry (resource_id entry) md5
                  (Bind_GetResolvedFileByPathAfterGetCacheEntryForCancel
                     (resource_id entry) md5));
             EvCaller
               (GetFileResult id (GDataToDriveFileError env GDATA_CANCELLED)
                  EmptyString EmptyString REGULAR_FILE)
               fs]
         ++ (if fst record && DriveCacheEntry.is_pinned (snd record)
             then [EvCall
                     (Cache_Unpin (resource_id entry) md5
                        Bind_EmptyFileOperationCallback)]
             else [])
       /\ object cfg = fs).
Proof.
  intros params md5 record Hreaches Hcancelled.
  apply (ends_after_reaches _ _ _ _ Hreaches).
  subst params md5 record.
  destruct (cache_GetCacheEntry env now (resource_id entry)
              (file_md5 (file_specific_info entry)))
    as [success cache_entry] eqn:Hrecord.
  destruct success, (DriveCacheEntry.is_pinned cache_entry) eqn:Hpinned;
    explore; by rewrite <- ?app_assoc.
Qed.

Lemma cancelled_download_unpins_only_a_pinned_entry_witness :
  let env := env_with_download GDATA_CANCELLED DRIVE_FILE_OK true in
  let cfg0 :=
    call 0 DriveFileSystem_new
      (GetFileByPath "drive/a.txt" (Caller_GetFileCallback 0)) in
  GDataToDriveFileError env GDATA_CANCELLED <> DRIVE_FILE_OK
  /\ ends env cfg0
       (fun cfg =>
          caller_results_of (trace cfg)
          = [GetFileResult 0 DRIVE_FILE_ERROR_CANCELLED EmptyString
               EmptyString REGULAR_FILE]
          /\ last (calls_of (trace cfg))
             = Some
                 (Cache_Unpin "file:1" "md5-a" Bind_EmptyFileOperationCallback)
          /\ object cfg = DriveFileSystem_new).
Proof.
  intros env cfg0.
  assert (GDataToDriveFileError env GDATA_CANCELLED <> DRIVE_FILE_OK)
    as Hcancelled by discriminate.
  split; [exact Hcancelled|].
  eapply ends_impl;
    [|apply (cancelled_download_unpins_only_a_pinned_entry env cfg0
               DriveFileSystem_new 7 (trace (run env 20 cfg0)) "drive/a.txt"
               {| context_type := USER_INITIATED |} sample_regular_file 0 None
               "cache/tmp/file0");
      [exists 20; vm_compute; reflexivity | exact Hcancelled]].
  intros cfg [-> ->]. repeat split; vm_compute; reflexivity.
Defined.

(** C7.  In every run in which the reply of a download is delivered with a
    status that is a success (one that [GDataToDriveFileError] sends to
    [DRIVE_FILE_OK]) and [DriveCache::Store] then fails with [error], the
    pipeline posts the deletion of the downloaded file to the blocking pool,
    where [file_util::Delete] is run on it, and the caller is told [error];
    the caller is told nothing else, and nothing more is asked of the
    cache. *)
Theorem failed_store_deletes_the_download env cfg0 fs now trace0
    drive_file_path context entry id get_content_callback status
    downloaded_file_path error :
  let params :=
    {| GetResolvedFileParams.drive_file_path := drive_file_path;
       GetResolvedFileParams.context := context;
       GetResolvedFileParams.entry_proto := entry;
       GetResolvedFileParams.get_file_callback := Caller_GetFileCallback id;
       GetResolvedFileParams.get_content_callback := get_content_callback |} in
  reaches env cfg0
    {| object := fs;
       agenda :=
         [Run_DownloadActionCallback
            (Bind_GetResolvedFileByPathAfterDownloadFile params)
            status downloaded_file_path];
       pending := []; now := now; trace := trace0 |} ->
  status <> GDATA_CANCELLED ->
  GDataToDriveFileError env status = DRIVE_FILE_OK ->
  cache_Store env now (resource_id entry)
    (file_md5 (file_specific_info entry)) downloaded_file_path
    FILE_OPERATION_MOVE
  = error ->
  error <> DRIVE_FILE_OK ->
  ends env cfg0
    (fun cfg =>
       trace cfg
       = trace0
         ++ [EvCall
               (Cache_Store (resource_id entry)
                  (file_md5 (file_specific_info entry)) downloaded_file_path
                  FILE_OPERATION_MOVE
                  (Bind_GetResolvedFileByPathAfterStore params
                     downloaded_file_path));
             EvCall (BlockingPool_Delete downloaded_file_path false);
             EvCaller
               (GetFileResult id error EmptyString EmptyString REGULAR_FILE)
               fs;
             EvFileUtil (FileUtil_Delete downloaded_file_path false)]
       /\ object cfg = fs).
Proof.
  intros params Hreaches Hstatus Hdownload Hstore Herror.
  apply (ends_after_reaches _ _ _ _ Hreaches). subst params.
  explore. by rewrite <- ?app_assoc.
Qed.

Lemma failed_store_deletes_the_download_witness :
  let env :=
    env_with_download (GDATA_STATUS 200) DRIVE_FILE_ERROR_NO_SPACE false in
  let cfg0 :=
    call 0 DriveFileSystem_new
      (GetFileByPath "drive/a.txt" (Caller_GetFileCallback 0)) in
  GDATA_STATUS 200 <> GDATA_CANCELLED
  /\ GDataToDriveFileError env (GDATA_STATUS 200) = DRIVE_FILE_OK
  /\ cache_Store env 7 "file:1" "md5-a" "cache/tmp/file0" FILE_OPERATION_MOVE
     = DRIVE_FILE_ERROR_NO_SPACE
  /\ DRIVE_FILE_ERROR_NO_SPACE <> DRIVE_FILE_OK
  /\ ends env cfg0
       (fun cfg =>
          caller_results_of (trace cfg)
          = [GetFileResult 0 DRIVE_FILE_ERROR_NO_SPACE EmptyString EmptyString
               REGULAR_FILE]
          /\ file_util_ops_of (trace cfg)
             = [FileUtil_CreateTemporaryFileInDir "cache/tmp/downloads"
                  (Some "cache/tmp/file0");
                FileUtil_Delete "cache/tmp/file0" false]
          /\ object cfg = DriveFileSystem_new).
Proof.
  intros env cfg0.
  assert (GDATA_STATUS 200 <> GDATA_CANCELLED) as Hstatus by discriminate.
  assert (DRIVE_FILE_ERROR_NO_SPACE <> DRIVE_FILE_OK) as Herror
    by discriminate.
  split; [exact Hstatus|]. split; [reflexivity|]. split; [reflexivity|].
  split; [exact Herror|].
  eapply ends_impl;
    [|apply (failed_store_deletes_the_download env cfg0 DriveFileSystem_new 7
               (trace (run env 20 cfg0)) "drive/a.txt"
               {| context_type := USER_INITIATED |} sample_regular_file 0 None
               (GDATA_STATUS 200) "cache/tmp/file0" DRIVE_FILE_ERROR_NO_SPACE);
      [exists 20; vm_compute; reflexivity | exact Hstatus | reflexivity
      | reflexivity | exact Herror]].
  intros cfg [-> ->]. repeat split; vm_compute; reflexivity.
Defined.

Lemma string_append_assoc (a b c : string) :
  (a +:+ b) +:+ c = a +:+ (b +:+ c).
Proof.
  induction a as [|ch a IH]; [done|].
  change (String ch ((a +:+ b) +:+ c) = String ch (a +:+ (b +:+ c))).
  by rewrite IH.
Qed.

(** The text holds what [%s] copies of each argument. *)
Lemma document_json_embeds url resource_id :
  embeds (document_json url resource_id) (c_str url)
  /\ embeds (document_json url resource_id) (c_str resource_id).
Proof.
  split.
  - exists ("{" +:+ double_quote +:+ "url" +:+ double_quote +:+ ": "
              +:+ double_quote),
           (double_quote +:+ ", " +:+ double_quote +:+ "resource_id"
              +:+ double_quote +:+ ": " +:+ double_quote
              +:+ c_str resource_id +:+ double_quote +:+ "}").
    reflexivity.
  - exists ("{" +:+ double_quote +:+ "url" +:+ double_quote +:+ ": "
              +:+ double_quote +:+ c_str url +:+ double_quote +:+ ", "
              +:+ double_quote +:+ "resource_id" +:+ double_quote +:+ ": "
              +:+ double_quote),
           (double_quote +:+ "}").
    unfold document_json. rewrite !string_append_assoc. reflexivity.
Qed.

(** A string that holds no NUL is copied whole. *)
Lemma c_str_without_NUL s : has_NUL s = false -> c_str s = s.
Proof.
  induction s as [|c s IH]; [done|]. cbn.
  destruct (Ascii.eqb c Ascii.zero); [done|].
  intros Hrest. by rewrite IH.
Qed.

(** An id with a NUL in it: the text ends the id at the NUL, and is 54 bytes
    long for the 22 bytes of the URL and the 2 bytes of the id that are
    copied. *)
Example document_json_stops_at_NUL :
  let resource_id := "ab" +:+ String Ascii.zero "cd" in
  document_json "https://docs/edit?id=3" resource_id
  = document_json "https://docs/edit?id=3" "ab"
  /\ String.length (document_json "https://docs/edit?id=3" resource_id) = 54.
Proof. split; vm_compute; reflexivity. Qed.

(** [static_cast<int>] keeps a size that an [int] can hold. *)
Lemma static_cast_int_of_small_size (n : nat) :
  (Z.of_nat n < 2 ^ 31)%Z -> static_cast_int (Z.of_nat n) = Z.of_nat n.
Proof.
  intros Hsmall. unfold static_cast_int.
  rewrite Z.mod_small; lia.
Qed.



(** ** Entry info of a file modified locally *)

(** C9, as amended.  [GetEntryInfoByPath] (at its first lookup, and at its
    second, after a load) and [GetEntryInfoByResourceId] hand the entry the
    metadata resolved to [CheckLocalModificationAndRun], which runs the
    callback
    - on the entry as stored, when it has no file-specific info or is a
      hosted document, when the cache has no record of it or a record that is
      not dirty, and also when the record is dirty but [DriveCache::GetFile]
      does not find the cache file;
    - on the entry with its [file_info] replaced by the file info read from
      the cache file on disk, when the record is dirty, the cache file is
      found and its file info can be read;
    - on [DRIVE_FILE_ERROR_NOT_FOUND] and no entry, when the record is dirty,
      the cache file is found and its file info cannot be read. *)
Theorem CheckLocalModificationAndRun_entry_info env fs start entry callback :
  let cfg := call start fs (CheckLocalModificationAndRun entry callback) in
  let resource_id := resource_id entry in
  let md5 := file_md5 (file_specific_info entry) in
  ((forall file_path,
      GetEntryInfoByPathAfterGetEntry1 file_path callback DRIVE_FILE_OK
        (Some entry)
      = CheckLocalModificationAndRun entry callback)
   /\ GetEntryInfoByPathAfterGetEntry2 callback DRIVE_FILE_OK (Some entry)
      = CheckLocalModificationAndRun entry callback
   /\ (forall callback' file_path,
         GetEntryInfoByResourceIdAfterGetEntry callback' DRIVE_FILE_OK
           file_path (Some entry)
         = CheckLocalModificationAndRun entry
             (Bind_RunGetEntryInfoWithFilePathCallback callback' file_path)))
  /\ (has_file_specific_info entry = false
      \/ is_hosted_document (file_specific_info entry) = true ->
      calls_back env cfg callback DRIVE_FILE_OK (Some entry))
  /\ (has_file_specific_info entry = true ->
      is_hosted_document (file_specific_info entry) = false ->
      forall success cache_entry,
        cache_GetCacheEntry env start resource_id md5 = (success, cache_entry) ->
        (success = false \/ DriveCacheEntry.is_dirty cache_entry = false ->
         calls_back env cfg callback DRIVE_FILE_OK (Some entry))
        /\ (success = true ->
            DriveCacheEntry.is_dirty cache_entry = true ->
            forall error local_cache_path,
              cache_GetFile env (S start) resource_id md5
              = (error, local_cache_path) ->
              (error <> DRIVE_FILE_OK ->
               calls_back env cfg callback DRIVE_FILE_OK (Some entry))
              /\ (error = DRIVE_FILE_OK ->
                  (forall file_info,
                     file_util_GetFileInfo env (S (S start)) local_cache_path
                     = Some file_info ->
                     calls_back env cfg callback DRIVE_FILE_OK
                       (Some
                          (set_file_info entry
                             (ConvertPlatformFileInfoToProto env file_info))))
                  /\ (file_util_GetFileInfo env (S (S start)) local_cache_path
                      = None ->
                      calls_back env cfg callback DRIVE_FILE_ERROR_NOT_FOUND
                        None)))).
Proof.
  intros cfg rid md5. subst cfg rid md5. unfold calls_back.
  split.
  { split; [|split].
    - intros file_path. unfold GetEntryInfoByPathAfterGetEntry1.
      by rewrite decide_True by done.
    - unfold GetEntryInfoByPathAfterGetEntry2.
      by rewrite decide_False by (intros Hne; by apply Hne).
    - intros callback' file_path.
      unfold GetEntryInfoByResourceIdAfterGetEntry.
      by rewrite decide_False by (intros Hne; by apply Hne). }
  split.
  { intros [Hinfo | Hhosted]; eexists _, _.
    - run_to_end.
    - unfold CheckLocalModificationAndRun. rewrite Hhosted, orb_true_r.
      run_to_end. }
  intros Hinfo Hhosted success cache_entry Hrecord. split.
  { intros [-> | Hclean]; eexists _, _.
    - run_to_end.
    - destruct success; run_to_end. }
  intros -> Hdirty error local_cache_path Hfile. split.
  { intros Herror. eexists _, _. run_to_end. }
  intros ->. split.
  - intros file_info Hread. eexists _, _. run_to_end.
  - intros Hread. eexists _, _. run_to_end.
Qed.

Lemma CheckLocalModificationAndRun_entry_info_witness :
  let env := env_with_dirty_record (DRIVE_FILE_OK, "cache/files/a") in
  has_file_specific_info sample_regular_file = true
  /\ is_hosted_document (file_specific_info sample_regular_file) = false
  /\ cache_GetCacheEntry env 0 "file:1" "md5-a"
     = (true, sample_cache_entry false true)
  /\ cache_GetFile env 1 "file:1" "md5-a" = (DRIVE_FILE_OK, "cache/files/a")
  /\ file_util_GetFileInfo env 2 "cache/files/a"
     = Some sample_platform_file_info
  /\ calls_back env
       (call 0 DriveFileSystem_new
          (CheckLocalModificationAndRun sample_regular_file
             (Caller_GetEntryInfoCallback 0)))
       (Caller_GetEntryInfoCallback 0) DRIVE_FILE_OK
       (Some
          (set_file_info sample_regular_file
             (sample_ConvertPlatformFileInfoToProto sample_platform_file_info))).
Proof.
  intros env. repeat (split; [reflexivity|]).
  destruct (CheckLocalModificationAndRun_entry_info env DriveFileSystem_new 0
              sample_regular_file (Caller_GetEntryInfoCallback 0))
    as (_ & _ & Hfile).
  destruct (Hfile eq_refl eq_refl true (sample_cache_entry false true) eq_refl)
    as [_ Hdirty].
  destruct (Hdirty eq_refl eq_refl DRIVE_FILE_OK "cache/files/a" eq_refl)
    as [_ Hfound].
  destruct (Hfound eq_refl) as [Hread _].
  apply (Hread sample_platform_file_info). reflexivity.
Defined.

(** C9 as it was stated fails: the entry is a file that is not a hosted
    document, its cache record exists and is dirty, and [GetEntryInfoByPath]
    returns the entry with the [file_info] of the stored metadata.  No file on
    disk was read, and the file info of the files on disk is another one. *)
Lemma dirty_record_without_cache_file_counterexample :
  let env :=
    env_with_dirty_record (DRIVE_FILE_ERROR_NOT_FOUND, EmptyString) in
  has_file_specific_info sample_regular_file = true
  /\ is_hosted_document (file_specific_info sample_regular_file) = false
  /\ cache_GetCacheEntry env 1 "file:1" "md5-a"
     = (true, sample_cache_entry false true)
  /\ DriveCacheEntry.is_dirty (sample_cache_entry false true) = true
  /\ exists cfg,
       runs_to env
         (call 0 DriveFileSystem_new
            (GetEntryInfoByPath "drive/a.txt" (Caller_GetEntryInfoCallback 0)))
         cfg
       /\ caller_results_of (trace cfg)
          = [GetEntryInfoResult 0 DRIVE_FILE_OK (Some sample_regular_file)]
       /\ file_util_ops_of (trace cfg) = []
       /\ file_info sample_regular_file
          <> ConvertPlatformFileInfoToProto env sample_platform_file_info.
Proof.
  intros env. repeat (split; [reflexivity|]).
  exists (run env 12
            (call 0 DriveFileSystem_new
               (GetEntryInfoByPath "drive/a.txt"
                  (Caller_GetEntryInfoCallback 0)))).
  split; [apply concrete_run; vm_compute; split; reflexivity|].
  split; [vm_compute; reflexivity|]. split; [vm_compute; reflexivity|].
  discriminate.
Qed.

(** ** Whole runs of the pipeline

    The stages at which the statements above start are met by requests made
    through the public operations. *)

(** A file that is not in the cache is downloaded, stored and returned, and
    the observers are told that its directory changed. *)
Example GetFileByPath_download_run :
  let cfg :=
    run (env_with_download (GDATA_STATUS 200) DRIVE_FILE_OK false) 40
      (call 0 DriveFileSystem_new
         (GetFileByPath "drive/a.txt" (Caller_GetFileCallback 0))) in
  quiescent cfg
  /\ call_name <$> calls_of (trace cfg)
     = ["GetEntryInfoByPath"; "GetFile"; "GetResourceEntry"; "RefreshEntry";
        "FreeDiskSpaceIfNeededFor"; "CreateTemporaryFileInDir"; "DownloadFile";
        "Store"; "GetFile"]
  /\ caller_results_of (trace cfg)
     = [GetFileResult 0 DRIVE_FILE_OK "cache/files/a" "text/plain" REGULAR_FILE]
  /\ EvObserver_OnDirectoryChanged "drive" ∈ trace cfg.
Proof.
  cbn zeta. split; [vm_compute; split; reflexivity|].
  split; [vm_compute; reflexivity|]. split; [vm_compute; reflexivity|].
  vm_compute. repeat first [apply list_elem_of_here | apply list_elem_of_further].
Qed.

(** The download of a pinned file is cancelled: the record is unpinned. *)
Example GetFileByPath_cancelled_download_run :
  let cfg :=
    run (env_with_download GDATA_CANCELLED DRIVE_FILE_OK true) 40
      (call 0 DriveFileSystem_new
         (GetFileByPath "drive/a.txt" (Caller_GetFileCallback 0))) in
  quiescent cfg
  /\ call_name <$> calls_of (trace cfg)
     = ["GetEntryInfoByPath"; "GetFile"; "GetResourceEntry"; "RefreshEntry";
        "FreeDiskSpaceIfNeededFor"; "CreateTemporaryFileInDir"; "DownloadFile";
        "GetCacheEntry"; "Unpin"]
  /\ caller_results_of (trace cfg)
     = [GetFileResult 0 DRIVE_FILE_ERROR_CANCELLED EmptyString EmptyString
          REGULAR_FILE].
Proof.
  cbn zeta. split; [vm_compute; split; reflexivity|].
  split; vm_compute; reflexivity.
Qed.

(** The download succeeds and the cache cannot store it: the downloaded file
    is deleted. *)
Example GetFileByPath_failed_store_run :
  let cfg :=
    run (env_with_download (GDATA_STATUS 200) DRIVE_FILE_ERROR_NO_SPACE false)
      40
      (call 0 DriveFileSystem_new
         (GetFileByPath "drive/a.txt" (Caller_GetFileCallback 0))) in
  quiescent cfg
  /\ call_name <$> calls_of (trace cfg)
     = ["GetEntryInfoByPath"; "GetFile"; "GetResourceEntry"; "RefreshEntry";
        "FreeDiskSpaceIfNeededFor"; "CreateTemporaryFileInDir"; "DownloadFile";
        "Store"; "Delete"]
  /\ caller_results_of (trace cfg)
     = [GetFileResult 0 DRIVE_FILE_ERROR_NO_SPACE EmptyString EmptyString
          REGULAR_FILE]
  /\ file_util_ops_of (trace cfg)
     = [FileUtil_CreateTemporaryFileInDir "cache/tmp/downloads"
          (Some "cache/tmp/file0");
        FileUtil_Delete "cache/tmp/file0" false].
Proof.
  cbn zeta. split; [vm_compute; split; reflexivity|].
  split; [vm_compute; reflexivity|]. split; vm_compute; reflexivity.
Qed.

(** [OpenFile], [OpenFile] again, [CloseFile], [OpenFile]: the second request
    is refused, the third succeeds. *)
Example OpenFile_twice_then_CloseFile_run :
  let env := env_with_cached sample_regular_file in
  let first :=
    run env 40
      (call 0 DriveFileSystem_new
         (OpenFile "drive/a.txt" (Caller_OpenFileCallback 1))) in
  let second :=
    run env 40
      (call (now first) (object first)
         (OpenFile "drive/a.txt" (Caller_OpenFileCallback 2))) in
  let closed :=
    run env 40
      (call (now second) (object second)
         (CloseFile "drive/a.txt" (Caller_FileOperationCallback 3))) in
  let third :=
    run env 40
      (call (now closed) (object closed)
         (OpenFile "drive/a.txt" (Caller_OpenFileCallback 4))) in
  caller_results_of (trace first)
  = [OpenFileResult 1 DRIVE_FILE_OK "cache/files/a"]
  /\ caller_results_of (trace second)
     = [OpenFileResult 2 DRIVE_FILE_ERROR_IN_USE EmptyString]
  /\ caller_results_of (trace closed) = [FileOperationResult 3 DRIVE_FILE_OK]
  /\ caller_results_of (trace third)
     = [OpenFileResult 4 DRIVE_FILE_OK "cache/files/a"].
Proof. cbn zeta. repeat split; vm_compute; reflexivity. Qed.

(** * Further properties of the first part *)

(** ** Requests that the metadata does not resolve *)

(** X1.  When the metadata lookup fails, [GetFileByPath] tells the caller the
    error of the lookup, and [GetFileByResourceId] tells
    [DRIVE_FILE_ERROR_NOT_FOUND] whatever the error of the lookup was.  Both
    give no path and no mime type, and neither asks anything of the cache or
    of the server. *)
Theorem GetFile_lookup_failure env fs start id error :
  error <> DRIVE_FILE_OK ->
  (forall file_path entry,
     resource_metadata_GetEntryInfoByPath env start file_path = (error, entry) ->
     runs_to env
       (call start fs (GetFileByPath file_path (Caller_GetFileCallback id)))
       {| object := fs; agenda := []; pending := []; now := S start;
          trace :=
            [EvCall
               (ResourceMetadata_GetEntryInfoByPath file_path
                  (Bind_OnGetEntryInfoCompleteForGetFileByPath file_path
                     (Caller_GetFileCallback id)));
             EvCaller
               (GetFileResult id error EmptyString EmptyString REGULAR_FILE)
               fs] |})
  /\ (forall resource_id context get_content_callback file_path entry,
        resource_metadata_GetEntryInfoByResourceId env start resource_id
        = (error, file_path, entry) ->
        runs_to env
          (call start fs
             (GetFileByResourceId resource_id context
                (Caller_GetFileCallback id) get_content_callback))
          {| object := fs; agenda := []; pending := []; now := S start;
             trace :=
               [EvCall
                  (ResourceMetadata_GetEntryInfoByResourceId resource_id
                     (Bind_GetFileByResourceIdAfterGetEntry context
                        (Caller_GetFileCallback id) get_content_callback));
                EvCaller
                  (GetFileResult id DRIVE_FILE_ERROR_NOT_FOUND EmptyString
                     EmptyString REGULAR_FILE)
                  fs] |}).
Proof.
  intros Herror. split.
  - intros file_path entry Hlookup. run_to_end.
  - intros resource_id context get_content_callback file_path entry Hlookup.
    run_to_end.
Qed.

Lemma GetFile_lookup_failure_witness :
  let env := env_without_entry DRIVE_FILE_ERROR_ACCESS_DENIED in
  DRIVE_FILE_ERROR_ACCESS_DENIED <> DRIVE_FILE_OK
  /\ (exists cfg,
        runs_to env
          (call 0 DriveFileSystem_new
             (GetFileByPath "drive/a.txt" (Caller_GetFileCallback 0)))
          cfg
        /\ caller_results_of (trace cfg)
           = [GetFileResult 0 DRIVE_FILE_ERROR_ACCESS_DENIED EmptyString
                EmptyString REGULAR_FILE])
  /\ exists cfg,
       runs_to env
         (call 0 DriveFileSystem_new
            (GetFileByResourceId "file:1" {| context_type := BACKGROUND |}
               (Caller_GetFileCallback 0) None))
         cfg
       /\ caller_results_of (trace cfg)
          = [GetFileResult 0 DRIVE_FILE_ERROR_NOT_FOUND EmptyString
               EmptyString REGULAR_FILE].
Proof.
  intros env.
  assert (DRIVE_FILE_ERROR_ACCESS_DENIED <> DRIVE_FILE_OK) as Herror
    by discriminate.
  destruct (GetFile_lookup_failure env DriveFileSystem_new 0 0
              DRIVE_FILE_ERROR_ACCESS_DENIED Herror) as [Hpath Hid].
  split; [exact Herror|]. split.
  - eexists. split; [apply (Hpath "drive/a.txt" None); reflexivity|].
    reflexivity.
  - eexists. split.
    + apply (Hid "file:1" {| context_type := BACKGROUND |} None "drive/a.txt"
               None).
      reflexivity.
    + reflexivity.
Defined.

(** X2.  [CreateFile] on a path where the metadata has no entry uploads the
    empty file [kEmptyFilePath] to the path and tells the caller what the
    upload replied, with or without [is_exclusive].  When the lookup fails with
    another error, the caller is told that error and nothing is uploaded. *)
Theorem CreateFile_on_missing_path env fs start file_path is_exclusive id
    result entry :
  resource_metadata_GetEntryInfoByPath env start file_path = (result, entry) ->
  result <> DRIVE_FILE_OK ->
  let lookup :=
    EvCall
      (ResourceMetadata_GetEntryInfoByPath file_path
         (Bind_OnGetEntryInfoForCreateFile file_path is_exclusive
            (Caller_FileOperationCallback id))) in
  runs_to env
    (call start fs
       (CreateFile file_path is_exclusive (Caller_FileOperationCallback id)))
    (if decide (result = DRIVE_FILE_ERROR_NOT_FOUND)
     then
       {| object := fs; agenda := []; pending := []; now := S (S start);
          trace :=
            [lookup;
             EvCall
               (DriveOperations_TransferRegularFile kEmptyFilePath file_path
                  (Caller_FileOperationCallback id));
             EvCaller
               (FileOperationResult id
                  (drive_operations_TransferRegularFile env (S start)
                     kEmptyFilePath file_path))
               fs] |}
     else
       {| object := fs; agenda := []; pending := []; now := S start;
          trace := [lookup; EvCaller (FileOperationResult id result) fs] |}).
Proof.
  intros Hlookup Hresult lookup. subst lookup.
  destruct (decide (result = DRIVE_FILE_ERROR_NOT_FOUND)) as [->|Hother];
    run_to_end.
Qed.

Lemma CreateFile_on_missing_path_witness :
  let env := env_without_entry DRIVE_FILE_ERROR_NOT_FOUND in
  resource_metadata_GetEntryInfoByPath env 0 "drive/new.txt"
  = (DRIVE_FILE_ERROR_NOT_FOUND, None)
  /\ DRIVE_FILE_ERROR_NOT_FOUND <> DRIVE_FILE_OK
  /\ exists cfg,
       runs_to env
         (call 0 DriveFileSystem_new
            (CreateFile "drive/new.txt" true (Caller_FileOperationCallback 0)))
         cfg
       /\ caller_results_of (trace cfg) = [FileOperationResult 0 DRIVE_FILE_OK]
       /\ DriveOperations_TransferRegularFile "/dev/null" "drive/new.txt"
            (Caller_FileOperationCallback 0)
          ∈ calls_of (trace cfg).
Proof.
  intros env.
  assert (DRIVE_FILE_ERROR_NOT_FOUND <> DRIVE_FILE_OK) as Hresult
    by discriminate.
  split; [reflexivity|]. split; [exact Hresult|].
  eexists. split.
  - apply (CreateFile_on_missing_path env DriveFileSystem_new 0 "drive/new.txt"
             true 0 DRIVE_FILE_ERROR_NOT_FOUND None eq_refl Hresult).
  - split; [reflexivity|]. vm_compute.
    repeat first [apply list_elem_of_here | apply list_elem_of_further].
Defined.


(** What the callers were told is the same in both readings of a trace. *)
Lemma caller_results_of_events (t : list Event) :
  caller_results_of t = fst <$> caller_events t.
Proof.
  unfold caller_results_of, caller_events.
  induction t as [|ev t IH]; [done|].
  destruct ev; cbn; by rewrite IH.
Qed.

(** ** What [OpenFile] refuses to open *)

(** X3.  [OpenFile] opens files only.  When the metadata gives an entry that
    has no file-specific info (a directory), the caller is told
    [DRIVE_FILE_ERROR_NOT_FOUND], whatever error came with the entry.  When it
    gives a file whose md5 is empty or that is a hosted document, the caller is
    told [DRIVE_FILE_ERROR_INVALID_OPERATION].  In both cases nothing is asked
    of the cache or of the server, and the path is out of [open_files_] again
    when the caller is told. *)
Theorem OpenFile_refuses_what_is_not_a_file env fs start file_path id error
    entry :
  file_path ∉ open_files_ fs ->
  resource_metadata_GetEntryInfoByPath env start file_path
  = (error, Some entry) ->
  let refused (result : DriveFileError) :=
    ends env (call start fs (OpenFile file_path (Caller_OpenFileCallback id)))
      (fun cfg =>
         calls_of (trace cfg)
         = [ResourceMetadata_GetEntryInfoByPath file_path
              (Bind_OnGetEntryInfoCompleteForOpenFile file_path
                 (Bind_OnOpenFileFinished file_path
                    (Caller_OpenFileCallback id)))]
         /\ (exists fs',
               caller_events (trace cfg)
               = [(OpenFileResult id result EmptyString, fs')]
               /\ open_files_ fs' = open_files_ fs)
         /\ open_files_ (object cfg) = open_files_ fs) in
  (has_file_specific_info entry = false -> refused DRIVE_FILE_ERROR_NOT_FOUND)
  /\ (has_file_specific_info entry = true ->
      error = DRIVE_FILE_OK ->
      file_md5 (file_specific_info entry) = EmptyString
      \/ is_hosted_document (file_specific_info entry) = true ->
      refused DRIVE_FILE_ERROR_INVALID_OPERATION).
Proof.
  intros Hclosed Hlookup refused. subst refused. cbn beta.
  unfold call. rewrite OpenFile_on_closed_path by done.
  pose proof (insert_then_erase _ _ Hclosed) as Hrestore.
  split.
  - intros Hinfo. explore. split; [done|]. split; [|done].
    eexists. split; [reflexivity|done].
  - intros Hinfo -> Hkind.
    assert (bool_decide (file_md5 (file_specific_info entry) = EmptyString)
            || is_hosted_document (file_specific_info entry) = true) as Htest.
    { destruct Hkind as [Hmd5 | Hhosted].
      - by rewrite bool_decide_eq_true_2.
      - by rewrite Hhosted, orb_true_r. }
    explore. split; [done|]. split; [|done].
    eexists. split; [reflexivity|done].
Qed.

Lemma OpenFile_refuses_what_is_not_a_file_witness :
  let env := env_with_lookup sample_hosted_document in
  ("drive/doc" ∉ open_files_ DriveFileSystem_new)
  /\ resource_metadata_GetEntryInfoByPath env 0 "drive/doc"
     = (DRIVE_FILE_OK, Some sample_hosted_document)
  /\ has_file_specific_info sample_hosted_document = true
  /\ is_hosted_document (file_specific_info sample_hosted_document) = true
  /\ ends env
       (call 0 DriveFileSystem_new
          (OpenFile "drive/doc" (Caller_OpenFileCallback 0)))
       (fun cfg =>
          caller_results_of (trace cfg)
          = [OpenFileResult 0 DRIVE_FILE_ERROR_INVALID_OPERATION EmptyString]
          /\ open_files_ (object cfg) = open_files_ DriveFileSystem_new).
Proof.
  intros env.
  assert ("drive/doc" ∉ open_files_ DriveFileSystem_new) as Hclosed
    by apply not_elem_of_empty.
  split; [exact Hclosed|]. repeat (split; [reflexivity|]).
  eapply ends_impl;
    [|apply (proj2 (OpenFile_refuses_what_is_not_a_file env
                      DriveFileSystem_new 0 "drive/doc" 0 DRIVE_FILE_OK
                      sample_hosted_document Hclosed eq_refl)
               eq_refl eq_refl (or_intror eq_refl))].
  intros cfg (_ & (fs' & Htold & _) & Hend). split; [|exact Hend].
  by rewrite caller_results_of_events, Htold.
Defined.


(** ** Every request for a file is answered once *)



(** ** The download, stage by stage *)

(** X5.  A file that is not in the cache is fetched in this order: the entry
    is asked of the server, the metadata is refreshed with it, room is made
    in the cache for the size of the refreshed entry, a temporary file is
    created in the cache's directory for downloads, the content is
    downloaded into it, the download is moved into the cache under the
    resource id and md5 of the refreshed entry, the observers are told that
    the directory of the file changed, and the cache is asked for the file.
    The caller is told that file, with the mime type of the refreshed entry
    and the kind [REGULAR_FILE]. *)
Theorem GetFileByPath_downloads_a_missing_file env fs start file_path id entry
    miss missed status server_entry refreshed_path refreshed temp_file
    download_status downloaded_file_path cache_file_path :
  let context := {| context_type := USER_INITIATED |} in
  let download_url := ResourceEntry.download_url server_entry in
  let download_dir := cache_GetCacheDirectoryPath env CACHE_TYPE_TMP_DOWNLOADS in
  let resource_id' := resource_id refreshed in
  let md5' := file_md5 (file_specific_info refreshed) in
  has_file_specific_info entry = true ->
  is_hosted_document (file_specific_info entry) = false ->
  resource_metadata_GetEntryInfoByPath env start file_path
  = (DRIVE_FILE_OK, Some entry) ->
  cache_GetFile env (1 + start) (resource_id entry)
    (file_md5 (file_specific_info entry))
  = (miss, missed) ->
  miss <> DRIVE_FILE_OK ->
  scheduler_GetResourceEntry env (2 + start) (resource_id entry) context
  = (status, Some server_entry) ->
  GDataToDriveFileError env status = DRIVE_FILE_OK ->
  is_empty download_url = false ->
  resource_metadata_RefreshEntry env (3 + start)
    (ConvertResourceEntryToDriveEntryProto env server_entry)
  = (DRIVE_FILE_OK, refreshed_path, Some refreshed) ->
  cache_FreeDiskSpaceIfNeededFor env (4 + start)
    (PlatformFileInfoProto.size (file_info refreshed))
  = true ->
  file_util_CreateTemporaryFileInDir env (5 + start) download_dir
  = Some temp_file ->
  scheduler_DownloadFile env (6 + start) file_path temp_file download_url
    context
  = (download_status, downloaded_file_path) ->
  download_status <> GDATA_CANCELLED ->
  GDataToDriveFileError env download_status = DRIVE_FILE_OK ->
  cache_Store env (7 + start) resource_id' md5' downloaded_file_path
    FILE_OPERATION_MOVE
  = DRIVE_FILE_OK ->
  cache_GetFile env (8 + start) resource_id' md5'
  = (DRIVE_FILE_OK, cache_file_path) ->
  let params :=
    {| GetResolvedFileParams.drive_file_path := file_path;
       GetResolvedFileParams.context := context;
       GetResolvedFileParams.entry_proto := entry;
       GetResolvedFileParams.get_file_callback := Caller_GetFileCallback id;
       GetResolvedFileParams.get_content_callback := None |} in
  let params' := GetResolvedFileParams.set_entry_proto params refreshed in
  runs_to env
    (call start fs (GetFileByPath file_path (Caller_GetFileCallback id)))
    {| object := fs; agenda := []; pending := []; now := 9 + start;
       trace :=
         [EvCall
            (ResourceMetadata_GetEntryInfoByPath file_path
               (Bind_OnGetEntryInfoCompleteForGetFileByPath file_path
                  (Caller_GetFileCallback id)));
          EvCall
            (Cache_GetFile (resource_id entry)
               (file_md5 (file_specific_info entry))
               (Bind_GetResolvedFileByPathAfterGetFileFromCache params));
          EvCall
            (Scheduler_GetResourceEntry (resource_id entry) context
               (Bind_GetResolvedFileByPathAfterGetResourceEntry params));
          EvCall
            (ResourceMetadata_RefreshEntry
               (ConvertResourceEntryToDriveEntryProto env server_entry)
               (Bind_GetResolvedFileByPathAfterRefreshEntry params
                  download_url));
          EvCall
            (Cache_FreeDiskSpaceIfNeededFor
               (PlatformFileInfoProto.size (file_info refreshed))
               (Bind_GetResolvedFileByPathAfterFreeDiskSpace params'
                  download_url));
          EvCall
            (BlockingPool_CreateTemporaryFileInDir download_dir params'
               download_url);
          EvFileUtil
            (FileUtil_CreateTemporaryFileInDir download_dir (Some temp_file));
          EvCall
            (Scheduler_DownloadFile file_path temp_file download_url context
               (Bind_GetResolvedFileByPathAfterDownloadFile params') None);
          EvCall
            (Cache_Store resource_id' md5' downloaded_file_path
               FILE_OPERATION_MOVE
               (Bind_GetResolvedFileByPathAfterStore params'
                  downloaded_file_path));
          EvObserver_OnDirectoryChanged (DirName env file_path);
          EvCall
            (Cache_GetFile resource_id' md5'
               (Bind_GetResolvedFileByPathAfterGetFile params'));
          EvCaller
            (GetFileResult id DRIVE_FILE_OK cache_file_path
               (content_mime_type (file_specific_info refreshed))
               REGULAR_FILE)
            fs] |}.
Proof.
  intros context download_url download_dir resource_id' md5' Hinfo Hhosted
    Hlookup Hmiss Hmissed Hentry Hstatus Hurl Hrefresh Hspace Htemp Hdownload
    Hcompleted Hdownloaded Hstore Hfile params params'.
  subst context download_url download_dir resource_id' md5' params params'.
  cbn in *. run_to_end.
Qed.

Lemma GetFileByPath_downloads_a_missing_file_witness :
  let env := env_with_download (GDATA_STATUS 200) DRIVE_FILE_OK false in
  exists cfg,
    runs_to env
      (call 0 DriveFileSystem_new
         (GetFileByPath "drive/a.txt" (Caller_GetFileCallback 0)))
      cfg
    /\ caller_results_of (trace cfg)
       = [GetFileResult 0 DRIVE_FILE_OK "cache/files/a" "text/plain"
            REGULAR_FILE]
    /\ file_util_ops_of (trace cfg)
       = [FileUtil_CreateTemporaryFileInDir "cache/tmp/downloads"
            (Some "cache/tmp/file0")].
Proof.
  intros env. eexists. split.
  - apply (GetFileByPath_downloads_a_missing_file env DriveFileSystem_new 0
             "drive/a.txt" 0 sample_regular_file DRIVE_FILE_ERROR_NOT_FOUND
             EmptyString (GDATA_STATUS 200) (sample_resource_entry "file:1")
             "drive/a.txt" sample_regular_file "cache/tmp/file0"
             (GDATA_STATUS 200) "cache/tmp/file0" "cache/files/a");
      first [reflexivity | discriminate].
  - split; reflexivity.
Defined.


(** X6.  When the server's entry has no download URL (a file that its owner
    does not let viewers download), the caller is told
    [DRIVE_FILE_ERROR_ACCESS_DENIED]: the metadata is not refreshed, no room
    is made in the cache and nothing is downloaded. *)
Theorem GetFileByPath_without_download_url env fs start file_path id entry
    miss missed status server_entry :
  let context := {| context_type := USER_INITIATED |} in
  has_file_specific_info entry = true ->
  is_hosted_document (file_specific_info entry) = false ->
  resource_metadata_GetEntryInfoByPath env start file_path
  = (DRIVE_FILE_OK, Some entry) ->
  cache_GetFile env (1 + start) (resource_id entry)
    (file_md5 (file_specific_info entry))
  = (miss, missed) ->
  miss <> DRIVE_FILE_OK ->
  scheduler_GetResourceEntry env (2 + start) (resource_id entry) context
  = (status, Some server_entry) ->
  GDataToDriveFileError env status = DRIVE_FILE_OK ->
  is_empty (ResourceEntry.download_url server_entry) = true ->
  let params :=
    {| GetResolvedFileParams.drive_file_path := file_path;
       GetResolvedFileParams.context := context;
       GetResolvedFileParams.entry_proto := entry;
       GetResolvedFileParams.get_file_callback := Caller_GetFileCallback id;
       GetResolvedFileParams.get_content_callback := None |} in
  runs_to env
    (call start fs (GetFileByPath file_path (Caller_GetFileCallback id)))
    {| object := fs; agenda := []; pending := []; now := 3 + start;
       trace :=
         [EvCall
            (ResourceMetadata_GetEntryInfoByPath file_path
               (Bind_OnGetEntryInfoCompleteForGetFileByPath file_path
                  (Caller_GetFileCallback id)));
          EvCall
            (Cache_GetFile (resource_id entry)
               (file_md5 (file_specific_info entry))
               (Bind_GetResolvedFileByPathAfterGetFileFromCache params));
          EvCall
            (Scheduler_GetResourceEntry (resource_id entry) context
               (Bind_GetResolvedFileByPathAfterGetResourceEntry params));
          EvCaller
            (GetFileResult id DRIVE_FILE_ERROR_ACCESS_DENIED EmptyString
               EmptyString REGULAR_FILE)
            fs] |}.
Proof.
  intros context Hinfo Hhosted Hlookup Hmiss Hmissed Hentry Hstatus Hurl params.
  subst context params. cbn in *. run_to_end.
Qed.

Lemma GetFileByPath_without_download_url_witness :
  let env := env_shared_without_download sample_regular_file in
  exists cfg,
    runs_to env
      (call 0 DriveFileSystem_new
         (GetFileByPath "drive/a.txt" (Caller_GetFileCallback 0)))
      cfg
    /\ caller_results_of (trace cfg)
       = [GetFileResult 0 DRIVE_FILE_ERROR_ACCESS_DENIED EmptyString
            EmptyString REGULAR_FILE]
    /\ call_name <$> calls_of (trace cfg)
       = ["GetEntryInfoByPath"; "GetFile"; "GetResourceEntry"].
Proof.
  intros env. eexists. split.
  - apply (GetFileByPath_without_download_url env DriveFileSystem_new 0
             "drive/a.txt" 0 sample_regular_file DRIVE_FILE_ERROR_NOT_FOUND
             EmptyString (GDATA_STATUS 200)
             {| ResourceEntry.resource_id := "file:1";
                ResourceEntry.download_url := {| spec := EmptyString |};
                ResourceEntry.file_md5 := "md5-a" |});
      first [reflexivity | discriminate].
  - split; reflexivity.
Defined.

(** X7.  When the cache cannot make room for the file, the caller is told
    [DRIVE_FILE_ERROR_NO_SPACE]; no temporary file is created on the disk,
    nothing is downloaded and nothing is stored.  This holds of every run in
    which the cache always answers that there is not enough room. *)
Theorem GetFile_without_disk_space env fs start file_path id :
  (forall now num_bytes,
     cache_FreeDiskSpaceIfNeededFor env now num_bytes = false) ->
  ends env
    (call start fs (GetFileByPath file_path (Caller_GetFileCallback id)))
    (fun cfg =>
       Forall (fun c => starts_download c = false) (calls_of (trace cfg))
       /\ forall num_bytes callback,
            Cache_FreeDiskSpaceIfNeededFor num_bytes callback
              ∈ calls_of (trace cfg) ->
            caller_results_of (trace cfg)
            = [GetFileResult id DRIVE_FILE_ERROR_NO_SPACE EmptyString
                 EmptyString REGULAR_FILE]
            /\ file_util_ops_of (trace cfg) = []).
Proof.
  intros Hfull.
  simplify_config;
    repeat (first [ rewrite Hfull
                  | apply ends_done; [split; reflexivity|]
                  | step_forward
                  | case_reply ];
            simplify_config).
  all: split; [by repeat constructor|].
  all: intros num_bytes callback Hin.
  all: repeat (apply elem_of_cons in Hin as [Heq | Hin];
               [first [discriminate Heq | by split]|]).
  all: by apply elem_of_nil in Hin.
Qed.


Lemma GetFile_without_disk_space_witness :
  let cfg0 :=
    call 0 DriveFileSystem_new
      (GetFileByPath "drive/a.txt" (Caller_GetFileCallback 0)) in
  let cfg := run env_without_disk_space 40 cfg0 in
  runs_to env_without_disk_space cfg0 cfg
  /\ Forall (fun c => starts_download c = false) (calls_of (trace cfg))
  /\ caller_results_of (trace cfg)
     = [GetFileResult 0 DRIVE_FILE_ERROR_NO_SPACE EmptyString EmptyString
          REGULAR_FILE]
  /\ file_util_ops_of (trace cfg) = [].
Proof.
  intros cfg0 cfg.
  assert (runs_to env_without_disk_space cfg0 cfg) as Hrun
    by (apply concrete_run; vm_compute; split; reflexivity).
  split; [exact Hrun|].
  destruct (ends_runs_to _ _ _ _ Hrun
              (GetFile_without_disk_space env_without_disk_space
                 DriveFileSystem_new 0 "drive/a.txt" 0
                 (fun _ _ => eq_refl)))
    as [Hcalls Htold].
  split; [exact Hcalls|].
  apply (Htold 12%Z
           (Bind_GetResolvedFileByPathAfterFreeDiskSpace
              (sample_params sample_regular_file 0)
              {| spec := "https://drive/download/a" |})).
  vm_compute. repeat first [apply list_elem_of_here | apply list_elem_of_further].
Defined.

(** ** What is left on the disk *)

(** X8.  The stub of a hosted document that could not be written whole stays
    on the disk.  When the temporary file is created and [file_util::WriteFile]
    takes fewer bytes than the document has, the caller is told
    [DRIVE_FILE_ERROR_FAILED] with no path, no mime type and the kind
    [REGULAR_FILE]; the file was created and written to, and it is not
    deleted.  When the temporary file cannot be created, the caller is told
    the same and nothing is written. *)
Theorem hosted_document_stub_is_not_cleaned_up env fs start params id :
  let entry := GetResolvedFileParams.entry_proto params in
  let document_dir := cache_GetCacheDirectoryPath env CACHE_TYPE_TMP_DOCUMENTS in
  let edit_url := GURL_of_string env (alternate_url (file_specific_info entry)) in
  let document_content := document_json (spec edit_url) (resource_id entry) in
  let document_size :=
    static_cast_int (Z.of_nat (String.length document_content)) in
  let told :=
    EvCaller
      (GetFileResult id DRIVE_FILE_ERROR_FAILED EmptyString EmptyString
         REGULAR_FILE) fs in
  let staged :=
    EvCall
      (BlockingPool_CreateDocumentJsonFileOnBlockingPool document_dir edit_url
         (resource_id entry) params) in
  has_file_specific_info entry = true ->
  is_hosted_document (file_specific_info entry) = true ->
  GetResolvedFileParams.get_file_callback params = Caller_GetFileCallback id ->
  (forall temp_file_path written,
     file_util_CreateTemporaryFileInDir env start document_dir
     = Some temp_file_path ->
     file_util_WriteFile env start temp_file_path document_content
       document_size
     = written ->
     written <> document_size ->
     runs_to env (call start fs (GetResolvedFileByPath env params))
       {| object := fs; agenda := []; pending := []; now := S start;
          trace :=
            [staged;
             EvFileUtil
               (FileUtil_CreateTemporaryFileInDir document_dir
                  (Some temp_file_path));
             EvFileUtil
               (FileUtil_WriteFile temp_file_path document_content
                  document_size written);
             told] |})
  /\ (file_util_CreateTemporaryFileInDir env start document_dir = None ->
      runs_to env (call start fs (GetResolvedFileByPath env params))
        {| object := fs; agenda := []; pending := []; now := S start;
           trace :=
             [staged;
              EvFileUtil (FileUtil_CreateTemporaryFileInDir document_dir None);
              told] |}).
Proof.
  intros entry document_dir edit_url document_content document_size told
    staged Hinfo Hhosted Hcallback.
  subst entry document_dir edit_url document_content document_size told staged.
  destruct params as [drive_file_path context entry callback content_callback].
  cbn in *. subst callback. split.
  - intros temp_file_path written Hcreated Hwritten Hshort. run_to_end.
  - intros Hcreated. run_to_end.
Qed.


Lemma hosted_document_stub_is_not_cleaned_up_witness :
  let env := env_with_short_write 10 in
  let document_content :=
    document_json "https://docs/edit?id=3" "document:3" in
  exists cfg,
    runs_to env
      (call 0 DriveFileSystem_new
         (GetResolvedFileByPath env (sample_params sample_hosted_document 0)))
      cfg
    /\ caller_results_of (trace cfg)
       = [GetFileResult 0 DRIVE_FILE_ERROR_FAILED EmptyString EmptyString
            REGULAR_FILE]
    /\ file_util_ops_of (trace cfg)
       = [FileUtil_CreateTemporaryFileInDir "cache/tmp/documents"
            (Some "cache/tmp/file0");
          FileUtil_WriteFile "cache/tmp/file0" document_content 62 10].
Proof.
  intros env document_content. eexists. split.
  - apply (proj1 (hosted_document_stub_is_not_cleaned_up env
                    DriveFileSystem_new 0
                    (sample_params sample_hosted_document 0) 0
                    eq_refl eq_refl eq_refl)
             "cache/tmp/file0" 10%Z eq_refl eq_refl).
    vm_compute. discriminate.
  - split; vm_compute; reflexivity.
Defined.

(** X9.  A download that fails leaves its temporary file where it is.  In
    every run in which the reply of a download is delivered with a status
    that is not [GDATA_CANCELLED] and that [GDataToDriveFileError] sends to
    an error, the caller is told that error and the pipeline starts nothing
    more: nothing is stored, nothing is deleted and the observers are not
    told. *)
Theorem failed_download_only_reports env cfg0 fs now trace0 params id status
    downloaded_file_path :
  GetResolvedFileParams.get_file_callback params = Caller_GetFileCallback id ->
  reaches env cfg0
    {| object := fs;
       agenda :=
         [Run_DownloadActionCallback
            (Bind_GetResolvedFileByPathAfterDownloadFile params)
            status downloaded_file_path];
       pending := []; now := now; trace := trace0 |} ->
  status <> GDATA_CANCELLED ->
  GDataToDriveFileError env status <> DRIVE_FILE_OK ->
  runs_to env cfg0
    {| object := fs; agenda := []; pending := []; now := now;
       trace :=
         trace0
         ++ [EvCaller
               (GetFileResult id (GDataToDriveFileError env status)
                  EmptyString EmptyString REGULAR_FILE)
               fs] |}.
Proof.
  intros Hcallback [n Hreaches] Hstatus Herror.
  destruct params as [drive_file_path context entry callback content_callback].
  cbn in Hcallback. subst callback.
  assert (runs_to env (run env n cfg0)
            {| object := fs; agenda := []; pending := []; now := now;
               trace :=
                 trace0
                 ++ [EvCaller
                       (GetFileResult id (GDataToDriveFileError env status)
                          EmptyString EmptyString REGULAR_FILE)
                       fs] |}) as [[m Hm] Hquiescent].
  { rewrite Hreaches. run_to_end. }
  split; [|exact Hquiescent]. exists (n + m). by rewrite run_add.
Qed.

Lemma failed_download_only_reports_witness :
  let env := env_with_download (GDATA_STATUS 500) DRIVE_FILE_OK false in
  let cfg0 :=
    call 0 DriveFileSystem_new
      (GetFileByPath "drive/a.txt" (Caller_GetFileCallback 0)) in
  runs_to env cfg0
    {| object := DriveFileSystem_new; agenda := []; pending := []; now := 7;
       trace :=
         trace (run env 20 cfg0)
         ++ [EvCaller
               (GetFileResult 0 DRIVE_FILE_ERROR_FAILED EmptyString EmptyString
                  REGULAR_FILE)
               DriveFileSystem_new] |}
  /\ file_util_ops_of (trace (run env 20 cfg0))
     = [FileUtil_CreateTemporaryFileInDir "cache/tmp/downloads"
          (Some "cache/tmp/file0")].
Proof.
  intros env cfg0. split; [|vm_compute; reflexivity].
  apply (failed_download_only_reports env cfg0 DriveFileSystem_new 7
           (trace (run env 20 cfg0)) (sample_params sample_regular_file 0) 0
           (GDATA_STATUS 500) "cache/tmp/file0" eq_refl).
  - exists 20. vm_compute. reflexivity.
  - discriminate.
  - vm_compute. discriminate.
Defined.


(** ** Entry-info lookups *)


(** X11.  [GetEntryInfoByPath] on a path that the metadata does not know
    asks the change-list loader to load, with an empty directory fetch info,
    and looks the path up once more when the load succeeded.  The caller is
    told the error of the load when it fails, and the error of the second
    lookup when that fails; the error of the first lookup is never
    reported. *)
Theorem GetEntryInfoByPath_looks_up_again_after_load env fs start file_path id
    error entry :
  resource_metadata_GetEntryInfoByPath env start file_path = (error, entry) ->
  error <> DRIVE_FILE_OK ->
  let callback := Caller_GetEntryInfoCallback id in
  let first_lookup :=
    EvCall
      (ResourceMetadata_GetEntryInfoByPath file_path
         (Bind_GetEntryInfoByPathAfterGetEntry1 file_path callback)) in
  let load :=
    EvCall
      (ChangeListLoader_LoadIfNeeded DirectoryFetchInfo_empty
         (Bind_GetEntryInfoByPathAfterLoad file_path callback)) in
  let second_lookup :=
    EvCall
      (ResourceMetadata_GetEntryInfoByPath file_path
         (Bind_GetEntryInfoByPathAfterGetEntry2 callback)) in
  let load_error :=
    change_list_loader_LoadIfNeeded env (1 + start) DirectoryFetchInfo_empty in
  (load_error <> DRIVE_FILE_OK ->
   runs_to env (call start fs (GetEntryInfoByPath file_path callback))
     {| object := fs; agenda := []; pending := []; now := 2 + start;
        trace :=
          [first_lookup; load;
           EvCaller (GetEntryInfoResult id load_error None) fs] |})
  /\ (load_error = DRIVE_FILE_OK ->
      forall error' entry',
        resource_metadata_GetEntryInfoByPath env (2 + start) file_path
        = (error', entry') ->
        error' <> DRIVE_FILE_OK ->
        runs_to env (call start fs (GetEntryInfoByPath file_path callback))
          {| object := fs; agenda := []; pending := []; now := 3 + start;
             trace :=
               [first_lookup; load; second_lookup;
                EvCaller (GetEntryInfoResult id error' None) fs] |}).
Proof.
  intros Hlookup Herror callback first_lookup load second_lookup load_error.
  subst callback first_lookup load second_lookup load_error. cbn. split.
  - intros Hload. run_to_end.
  - intros Hload error' entry' Hlookup' Herror'. run_to_end.
Qed.

Lemma GetEntryInfoByPath_looks_up_again_after_load_witness :
  let env := env_without_entry DRIVE_FILE_ERROR_NOT_FOUND in
  exists cfg,
    runs_to env
      (call 0 DriveFileSystem_new
         (GetEntryInfoByPath "drive/a.txt" (Caller_GetEntryInfoCallback 0)))
      cfg
    /\ call_name <$> calls_of (trace cfg)
       = ["GetEntryInfoByPath"; "LoadIfNeeded"; "GetEntryInfoByPath"]
    /\ caller_results_of (trace cfg)
       = [GetEntryInfoResult 0 DRIVE_FILE_ERROR_NOT_FOUND None].
Proof.
  intros env.
  assert (DRIVE_FILE_ERROR_NOT_FOUND <> DRIVE_FILE_OK) as Herror
    by discriminate.
  eexists. split.
  - apply (proj2 (GetEntryInfoByPath_looks_up_again_after_load env
                    DriveFileSystem_new 0 "drive/a.txt" 0
                    DRIVE_FILE_ERROR_NOT_FOUND None eq_refl Herror)
             eq_refl DRIVE_FILE_ERROR_NOT_FOUND None eq_refl Herror).
  - split; reflexivity.
Defined.


(** ** [OpenFile], then [CloseFile] *)

(** Every run of [CloseFile] on a path that is open, whatever the
    collaborators reply. *)
Lemma CloseFile_open_path_run env fs start file_path id :
  file_path ∈ open_files_ fs ->
  ends env
    (call start fs (CloseFile file_path (Caller_FileOperationCallback id)))
    (fun cfg =>
       last (trace cfg) = Some EvNullDereference
       \/ (open_files_ (object cfg) = open_files_ fs ∖ {[file_path]}
           /\ exists result,
               caller_results_of (trace cfg) = [FileOperationResult id result])).
Proof.
  intros Hopen. unfold call, CloseFile.
  rewrite decide_False by (intros Hclosed; by apply Hclosed).
  explore.
  all: first [ left; reflexivity | right; split; [reflexivity | by eexists] ].
Qed.




(** ** What the pipeline passes on *)

(** X13.  The request reaches the server as it was made.  In every run of
    [GetFileByResourceId], whatever the collaborators reply, the entry is
    asked of the server and the content is downloaded with the client context
    of the request, and the download is given the request's callback for the
    content.  In every run of [GetFileByPath] the context is
    [USER_INITIATED], there is no callback for the content, and the download
    is made for the path of the request.  A download is only ever moved into
    the cache, never copied, and what is deleted is deleted without
    recursion. *)
Theorem GetFile_passes_the_request_on env fs start id :
  (forall file_path,
     ends env
       (call start fs (GetFileByPath file_path (Caller_GetFileCallback id)))
       (fun cfg =>
          Forall
            (carries_the_request (Some file_path)
               {| context_type := USER_INITIATED |} None)
            (calls_of (trace cfg))))
  /\ (forall resource_id context get_content_callback,
        ends env
          (call start fs
             (GetFileByResourceId resource_id context
                (Caller_GetFileCallback id) get_content_callback))
          (fun cfg =>
             Forall (carries_the_request None context get_content_callback)
               (calls_of (trace cfg)))).
Proof.
  split.
  - intros file_path. explore.
    all: repeat (apply Forall_cons; split; [cbn; try done|]).
    all: try apply Forall_nil_2.
    all: repeat split; try done.
    all: intros file_path' Hsome; by injection Hsome.
  - intros resource_id context get_content_callback. explore.
    all: repeat (apply Forall_cons; split; [cbn; try done|]).
    all: try apply Forall_nil_2.
    all: by repeat split.
Qed.

(** ** [CloseFile] without a commit *)

(** X14.  [CloseFile] on an open path commits nothing when the metadata does
    not give a file: the caller is told the error of the lookup, or
    [DRIVE_FILE_ERROR_NOT_FOUND] when the entry has no file-specific info (a
    directory), and nothing is asked of the cache.  The path is removed from
    [open_files_] all the same. *)
Theorem CloseFile_without_a_file env fs start file_path id error entry :
  file_path ∈ open_files_ fs ->
  resource_metadata_GetEntryInfoByPath env start file_path = (error, entry) ->
  let closed := set_open_files_ (open_files_ fs ∖ {[file_path]}) fs in
  let lookup :=
    EvCall
      (ResourceMetadata_GetEntryInfoByPath file_path
         (Bind_CloseFileAfterGetEntryInfo file_path
            (Bind_CloseFileFinalize file_path
               (Caller_FileOperationCallback id)))) in
  let close := call start fs (CloseFile file_path (Caller_FileOperationCallback id)) in
  (forall entry_proto,
     entry = Some entry_proto ->
     has_file_specific_info entry_proto = false ->
     runs_to env close
       {| object := closed; agenda := []; pending := []; now := S start;
          trace :=
            [lookup;
             EvCaller (FileOperationResult id DRIVE_FILE_ERROR_NOT_FOUND)
               closed] |})
  /\ (error <> DRIVE_FILE_OK ->
      entry = None ->
      runs_to env close
        {| object := closed; agenda := []; pending := []; now := S start;
           trace := [lookup; EvCaller (FileOperationResult id error) closed] |}).
Proof.
  intros Hopen Hlookup closed lookup close. subst closed lookup close.
  unfold call, CloseFile.
  rewrite decide_False by (intros Hclosed; by apply Hclosed).
  split.
  - intros entry_proto -> Hinfo. run_to_end.
  - intros Herror ->. run_to_end.
Qed.

Lemma CloseFile_without_a_file_witness :
  let env := env_with_lookup sample_directory in
  let fs := set_open_files_ {["drive/docs"]} DriveFileSystem_new in
  ("drive/docs" ∈ open_files_ fs)
  /\ exists cfg,
       runs_to env
         (call 0 fs (CloseFile "drive/docs" (Caller_FileOperationCallback 0)))
         cfg
       /\ caller_results_of (trace cfg)
          = [FileOperationResult 0 DRIVE_FILE_ERROR_NOT_FOUND]
       /\ calls_of (trace cfg)
          = [ResourceMetadata_GetEntryInfoByPath "drive/docs"
               (Bind_CloseFileAfterGetEntryInfo "drive/docs"
                  (Bind_CloseFileFinalize "drive/docs"
                     (Caller_FileOperationCallback 0)))]
       /\ "drive/docs" ∉ open_files_ (object cfg).
Proof.
  intros env fs.
  assert ("drive/docs" ∈ open_files_ fs) as Hopen by (vm_compute; reflexivity).
  split; [exact Hopen|].
  eexists. split.
  - apply (proj1 (CloseFile_without_a_file env fs 0 "drive/docs" 0
                    DRIVE_FILE_OK (Some sample_directory) Hopen eq_refl)
             sample_directory eq_refl eq_refl).
  - split; [reflexivity|]. split; [reflexivity|]. cbn.
    intros [_ Hin]%elem_of_difference. apply Hin. by apply elem_of_singleton.
Defined.


(** * Properties of the second part *)

(** ** Runs of the second part *)

Section CatalogRuns.
Import Catalog.
Variable env : Collaborators.

Lemma catalog_run_add n m cfg :
  run env (n + m) cfg = run env m (run env n cfg).
Proof. revert cfg; induction n as [|n IH]; intros cfg; simpl; [done|]. apply IH. Qed.

Lemma catalog_step_quiescent cfg : quiescent cfg -> step env cfg = cfg.
Proof. intros [Ha Hp]. unfold step. by rewrite Ha, Hp. Qed.

Lemma catalog_run_quiescent n cfg : quiescent cfg -> run env n cfg = cfg.
Proof.
  intros Hq. induction n as [|n IH]; simpl; [done|].
  by rewrite catalog_step_quiescent.
Qed.

Lemma catalog_runs_to_unique cfg cfg1 cfg2 :
  runs_to env cfg cfg1 -> runs_to env cfg cfg2 -> cfg1 = cfg2.
Proof.
  intros [[n1 H1] Hq1] [[n2 H2] Hq2]. subst cfg1 cfg2.
  destruct (Nat.le_ge_cases n1 n2) as [Hle|Hle].
  - replace n2 with (n1 + (n2 - n1)) by lia.
    rewrite catalog_run_add. symmetry. by apply catalog_run_quiescent.
  - replace n1 with (n2 + (n1 - n2)) by lia.
    rewrite catalog_run_add. by apply catalog_run_quiescent.
Qed.

Lemma catalog_reaches_refl cfg : reaches env cfg cfg.
Proof. by exists 0. Qed.

Lemma catalog_reaches_step cfg cfg' :
  reaches env (step env cfg) cfg' -> reaches env cfg cfg'.
Proof. intros [n Hn]. by exists (S n). Qed.

Lemma catalog_reaches_trans cfg1 cfg2 cfg3 :
  reaches env cfg1 cfg2 -> reaches env cfg2 cfg3 -> reaches env cfg1 cfg3.
Proof.
  intros [n Hn] [m Hm]. exists (n + m). by rewrite catalog_run_add, Hn.
Qed.

Lemma catalog_runs_to_done cfg : quiescent cfg -> runs_to env cfg cfg.
Proof. intros Hq. split; [apply catalog_reaches_refl | done]. Qed.

Lemma catalog_runs_to_step cfg cfg' :
  runs_to env (step env cfg) cfg' -> runs_to env cfg cfg'.
Proof. intros [Hr Hq]. split; [by apply catalog_reaches_step | done]. Qed.

Lemma catalog_runs_to_after cfg1 cfg2 cfg3 :
  reaches env cfg1 cfg2 -> runs_to env cfg2 cfg3 -> runs_to env cfg1 cfg3.
Proof.
  intros Hreaches [Hr Hq]. split; [by eapply catalog_reaches_trans | done].
Qed.

Lemma catalog_concrete_run n cfg :
  quiescent (run env n cfg) -> runs_to env cfg (run env n cfg).
Proof. intros Hq. split; [by exists n | done]. Qed.

Lemma catalog_ends_done cfg (P : Config -> Prop) :
  quiescent cfg -> P cfg -> ends env cfg P.
Proof.
  intros Hq HP. exists cfg. split; [by apply catalog_runs_to_done | done].
Qed.

Lemma catalog_ends_step cfg (P : Config -> Prop) :
  ends env (step env cfg) P -> ends env cfg P.
Proof.
  intros (cfg' & Hrun & HP). exists cfg'.
  split; [by apply catalog_runs_to_step | done].
Qed.

Lemma catalog_ends_impl cfg (P Q : Config -> Prop) :
  (forall cfg', P cfg' -> Q cfg') -> ends env cfg P -> ends env cfg Q.
Proof.
  intros HPQ (cfg' & Hrun & HP). exists cfg'. split; [done | by apply HPQ].
Qed.

Lemma catalog_ends_runs_to cfg cfg' (P : Config -> Prop) :
  runs_to env cfg cfg' -> ends env cfg P -> P cfg'.
Proof.
  intros Hrun (cfg'' & Hrun' & HP).
  by rewrite (catalog_runs_to_unique _ _ _ Hrun Hrun').
Qed.

Lemma catalog_ends_after_reaches cfg cfg' (P : Config -> Prop) :
  reaches env cfg cfg' -> ends env cfg' P -> ends env cfg P.
Proof.
  intros Hreaches (cfg'' & Hrun & HP). exists cfg''.
  split; [by eapply catalog_runs_to_after | done].
Qed.

(** The observers are told one after the other, and nothing else happens
    meanwhile. *)
Lemma catalog_notifies st observers notification rest waiting k t :
  reaches env
    {| state := st;
       agenda := ((fun o => Notify o notification) <$> observers) ++ rest;
       pending := waiting; now := k; trace := t |}
    {| state := st; agenda := rest; pending := waiting; now := k;
       trace := t ++ ((fun o => EvNotify o notification) <$> observers) |}.
Proof.
  revert t. induction observers as [|o observers IH]; intros t.
  - cbn. rewrite app_nil_r. apply catalog_reaches_refl.
  - apply catalog_reaches_step. cbn.
    replace (t ++ EvNotify o notification
               :: ((fun o => EvNotify o notification) <$> observers))
      with ((t ++ [EvNotify o notification])
              ++ ((fun o => EvNotify o notification) <$> observers))
      by (by rewrite <- app_assoc).
    apply IH.
Qed.

Lemma catalog_notifies_all st observers notification waiting k t :
  reaches env
    {| state := st;
       agenda := (fun o => Notify o notification) <$> observers;
       pending := waiting; now := k; trace := t |}
    {| state := st; agenda := []; pending := waiting; now := k;
       trace := t ++ ((fun o => EvNotify o notification) <$> observers) |}.
Proof.
  pose proof (catalog_notifies st observers notification [] waiting k t)
    as Hnotifies.
  by rewrite app_nil_r in Hnotifies.
Qed.

End CatalogRuns.

(** Telling the observers tells no caller and starts no call. *)
Lemma catalog_notifications_tell_no_caller (observers : list nat)
    (notification : Catalog.Notification) :
  omap (fun ev => match ev with Catalog.EvCaller r => Some r | _ => None end)
    ((fun o => Catalog.EvNotify o notification) <$> observers)
  = [].
Proof. induction observers as [|o observers IH]; [done|]. cbn. apply IH. Qed.

Lemma catalog_notifications_start_no_call (observers : list nat)
    (notification : Catalog.Notification) :
  omap (fun ev => match ev with Catalog.EvCall c => Some c | _ => None end)
    ((fun o => Catalog.EvNotify o notification) <$> observers)
  = [].
Proof. induction observers as [|o observers IH]; [done|]. cbn. apply IH. Qed.

Lemma catalog_notifications_of_notifications (observers : list nat)
    (notification : Catalog.Notification) :
  Catalog.notifications_of
    ((fun o => Catalog.EvNotify o notification) <$> observers)
  = (fun o => (o, notification)) <$> observers.
Proof.
  unfold Catalog.notifications_of.
  induction observers as [|o observers IH]; [done|]. cbn. by rewrite IH.
Qed.

(** The symbolic execution of the first part, for the second. *)

#[local] Hint Unfold
  Catalog.SetupChangeListLoader Catalog.Reload Catalog.ReloadAfterReset
  Catalog.CheckForUpdates Catalog.OnUpdateChecked Catalog.LoadIfNeeded
  Catalog.SetHideHostedDocuments Catalog.OnDisableDriveHostedFilesChanged
  Catalog.InitializePreferenceObserver Catalog.Initialize Catalog.Destroy
  Catalog.OnDirectoryChanged Catalog.OnDirectoryChangedByOperation
  Catalog.OnFeedFromServerLoaded Catalog.OnInitialFeedLoaded
  Catalog.NotifyFileSystemMounted Catalog.NotifyFileSystemToBeUnmounted
  Catalog.OperationReadinessObserver_new Catalog.OnReadyToPerformOperations
  Catalog.DriveService_ready Catalog.StartInitialFeedFetch
  Catalog.SearchMetadata
  Catalog.ReadDirectoryByPath Catalog.ReadDirectoryByPathAfterGetEntry
  Catalog.ReadDirectoryByPathAfterLoad Catalog.ReadDirectoryByPathAfterRead
  Catalog.RefreshDirectory Catalog.RefreshDirectoryAfterGetEntryInfo
  Catalog.GetAvailableSpace Catalog.OnGetAboutResource
  Catalog.Search Catalog.OnSearch Catalog.push_back Catalog.AddToSearchResults
  Catalog.Run_Bind_SearchCallback
  Catalog.AddUploadedFile Catalog.AddUploadedFileToCache
  Catalog.GetMetadata Catalog.OnGetLargestChangestamp
  Catalog.FOR_EACH_OBSERVER Catalog.on_members
  Catalog.seq Catalog.emit Catalog.invoke Catalog.delegate Catalog.modify
  Catalog.skip Catalog.call Catalog.then_call : methods.

Ltac catalog_finish_run :=
  first [ apply catalog_runs_to_done; split; reflexivity
        | apply catalog_reaches_refl ].

Ltac catalog_advance :=
  match goal with
  | |- Catalog.runs_to _ (Catalog.Build_Config _ (_ :: _) _ _ _) _ =>
      apply catalog_runs_to_step
  | |- Catalog.runs_to _ (Catalog.Build_Config _ [] (_ :: _) _ _) _ =>
      apply catalog_runs_to_step
  | |- Catalog.reaches _ (Catalog.Build_Config _ (_ :: _) _ _ _) _ =>
      apply catalog_reaches_step
  | |- Catalog.reaches _ (Catalog.Build_Config _ [] (_ :: _) _ _) _ =>
      apply catalog_reaches_step
  end.

Ltac catalog_run_to_end :=
  simplify_config;
  repeat (first [ catalog_finish_run | catalog_advance ]; simplify_config).

Ltac catalog_case_reply :=
  match goal with
  | |- Catalog.ends _ ?cfg _ => split_stuck cfg
  end.

Ltac catalog_step_forward :=
  match goal with
  | |- Catalog.ends _ (Catalog.Build_Config _ (_ :: _) _ _ _) _ =>
      apply catalog_ends_step
  | |- Catalog.ends _ (Catalog.Build_Config _ [] (_ :: _) _ _) _ =>
      apply catalog_ends_step
  end.

Ltac catalog_explore :=
  simplify_config;
  repeat (first [ apply catalog_ends_done; [split; reflexivity|]
                | catalog_step_forward
                | catalog_case_reply ];
          simplify_config).

Section CatalogProperties.
Import Catalog.
Local Open Scope method_scope.

(** ** The quota *)

(** X15.  [GetAvailableSpace] asks the server for the about resource.  When
    the status of the reply is an error, the caller is told that error with
    -1 for the total and -1 for the used bytes, whether a resource came with
    the reply or not.  When the status is a success, the caller is told
    [DRIVE_FILE_OK] and the two quotas of the resource; a success without a
    resource reads a null pointer, and nobody is told. *)
Theorem GetAvailableSpace_reports_the_quota env st start id status
    about_resource :
  scheduler_GetAboutResource env start = (status, about_resource) ->
  let error := GDataToDriveFileError (first_part env) status in
  let request :=
    call start st (GetAvailableSpace (Caller_GetAvailableSpaceCallback id)) in
  let asked :=
    EvCall
      (Scheduler_GetAboutResource
         (Bind_OnGetAboutResource (Caller_GetAvailableSpaceCallback id))) in
  (error <> DRIVE_FILE_OK ->
   runs_to env request
     {| state := st; agenda := []; pending := []; now := S start;
        trace :=
          [asked; EvCaller (GetAvailableSpaceResult id error (-1) (-1))] |})
  /\ (error = DRIVE_FILE_OK ->
      forall resource,
        about_resource = Some resource ->
        runs_to env request
          {| state := st; agenda := []; pending := []; now := S start;
             trace :=
               [asked;
                EvCaller
                  (GetAvailableSpaceResult id DRIVE_FILE_OK
                     (quota_bytes_total resource)
                     (quota_bytes_used resource))] |})
  /\ (error = DRIVE_FILE_OK ->
      about_resource = None ->
      runs_to env request
        {| state := st; agenda := []; pending := []; now := S start;
           trace := [asked; EvStop NullDereference] |}).
Proof.
  intros Hreply error request asked. subst error request asked.
  split; [|split].
  - intros Herror. destruct about_resource; catalog_run_to_end.
  - intros Hok resource ->. catalog_run_to_end.
  - intros Hok ->. catalog_run_to_end.
Qed.


(** ** Directories *)

(** X16.  [ReadDirectoryByPath] loads before it reads.  When the metadata
    knows the directory, the loader is asked with the directory's resource id
    and changestamp; when the lookup failed, it is asked with an empty
    directory fetch info.  When the load fails the caller is told its error
    and the directory is not read.  Otherwise the directory is read, and the
    caller is told the error of the read with the entries, or with no entries
    when the read failed.  The caller is always told the setting
    [hide_hosted_docs_]. *)
Theorem ReadDirectoryByPath_loads_before_reading env st start directory_path
    id error entry loader :
  change_list_loader_ st = Some loader ->
  resource_metadata_GetEntryInfoByPath (first_part env) start directory_path
  = (error, entry) ->
  (error = DRIVE_FILE_OK ->
   exists entry_proto,
     entry = Some entry_proto
     /\ PlatformFileInfoProto.is_directory (file_info entry_proto) = true) ->
  let callback := Caller_ReadDirectoryWithSettingCallback id in
  let hide := hide_hosted_docs_ (members st) in
  let directory_fetch_info :=
    match entry with
    | Some entry_proto =>
        if decide (error = DRIVE_FILE_OK)
        then {| dfi_resource_id := resource_id entry_proto;
                dfi_changestamp :=
                  changestamp (directory_specific_info entry_proto) |}
        else DirectoryFetchInfo_empty
    | None => DirectoryFetchInfo_empty
    end in
  let load_error :=
    change_list_loader_LoadIfNeeded (first_part env) (1 + start)
      directory_fetch_info in
  let read := resource_metadata_ReadDirectoryByPath env (2 + start) directory_path in
  let lookup :=
    EvCall
      (ResourceMetadata_GetEntryInfoByPath directory_path
         (Bind_ReadDirectoryByPathAfterGetEntry directory_path callback)) in
  let load :=
    EvCall
      (ChangeListLoader_LoadIfNeeded directory_fetch_info
         (Bind_ReadDirectoryByPathAfterLoad directory_path callback)) in
  runs_to env (call start st (ReadDirectoryByPath directory_path callback))
    (if decide (load_error = DRIVE_FILE_OK)
     then
       {| state := st; agenda := []; pending := []; now := 3 + start;
          trace :=
            [lookup; load;
             EvCall
               (ResourceMetadata_ReadDirectoryByPath directory_path
                  (Bind_ReadDirectoryByPathAfterRead callback));
             EvCaller
               (ReadDirectoryResult id (fst read) hide
                  (if decide (fst read = DRIVE_FILE_OK) then snd read
                   else None))] |}
     else
       {| state := st; agenda := []; pending := []; now := 2 + start;
          trace :=
            [lookup; load;
             EvCaller (ReadDirectoryResult id load_error hide None)] |}).
Proof.
  intros Hloader Hlookup Hdirectory callback hide directory_fetch_info
    load_error read lookup load.
  subst callback hide load_error read lookup load. cbn [Nat.add].
  destruct (resource_metadata_ReadDirectoryByPath env (S (S start))
              directory_path) as [read_error entries] eqn:Hread.
  cbn [fst snd].
  destruct (decide (error = DRIVE_FILE_OK)) as [->|Herror].
  - destruct (Hdirectory eq_refl) as (entry_proto & -> & Hkind).
    subst directory_fetch_info.
    destruct (decide (change_list_loader_LoadIfNeeded _ _ _ = DRIVE_FILE_OK))
      as [Hload|Hload];
      [destruct (decide (read_error = DRIVE_FILE_OK)) as [->|Hfailed]|];
      catalog_run_to_end.
  - assert (directory_fetch_info = DirectoryFetchInfo_empty) as ->
      by (subst directory_fetch_info; by destruct entry).
    destruct (decide (change_list_loader_LoadIfNeeded _ _ _ = DRIVE_FILE_OK))
      as [Hload|Hload];
      [destruct (decide (read_error = DRIVE_FILE_OK)) as [->|Hfailed]|];
      catalog_run_to_end.
Qed.


Lemma GetAvailableSpace_reports_the_quota_witness :
  let env :=
    sample_collaborators (env_with_lookup sample_directory)
      (DRIVE_FILE_OK, Some []) ([], DRIVE_FILE_OK) true in
  let unavailable := with_about_resource (GDATA_STATUS 503, None) env in
  let request :=
    call 0 sample_state
      (GetAvailableSpace (Caller_GetAvailableSpaceCallback 0)) in
  let asked :=
    EvCall
      (Scheduler_GetAboutResource
         (Bind_OnGetAboutResource (Caller_GetAvailableSpaceCallback 0))) in
  runs_to env request
    {| state := sample_state; agenda := []; pending := []; now := 1;
       trace :=
         [asked;
          EvCaller (GetAvailableSpaceResult 0 DRIVE_FILE_OK 5000 1200)] |}
  /\ runs_to unavailable request
       {| state := sample_state; agenda := []; pending := []; now := 1;
          trace :=
            [asked;
             EvCaller
               (GetAvailableSpaceResult 0 DRIVE_FILE_ERROR_FAILED (-1)
                  (-1))] |}.
Proof.
  intros env unavailable request asked. split.
  - apply (proj1 (proj2 (GetAvailableSpace_reports_the_quota env sample_state
                           0 0 (GDATA_STATUS 200) (Some sample_about_resource)
                           eq_refl))
             eq_refl sample_about_resource eq_refl).
  - apply (proj1 (GetAvailableSpace_reports_the_quota unavailable
                    sample_state 0 0 (GDATA_STATUS 503) None eq_refl)).
    discriminate.
Defined.

Lemma ReadDirectoryByPath_loads_before_reading_witness :
  let listing := [sample_regular_file; sample_hosted_document] in
  let env :=
    sample_collaborators (env_with_lookup sample_directory)
      (DRIVE_FILE_OK, Some listing) ([], DRIVE_FILE_OK) true in
  exists cfg,
    runs_to env
      (call 0 sample_state
         (ReadDirectoryByPath "drive/docs"
            (Caller_ReadDirectoryWithSettingCallback 0)))
      cfg
    /\ caller_results_of (trace cfg)
       = [ReadDirectoryResult 0 DRIVE_FILE_OK false (Some listing)]
    /\ ChangeListLoader_LoadIfNeeded
         {| dfi_resource_id := "folder:2"; dfi_changestamp := 5 |}
         (Bind_ReadDirectoryByPathAfterLoad "drive/docs"
            (Caller_ReadDirectoryWithSettingCallback 0))
       ∈ calls_of (trace cfg).
Proof.
  intros listing env. eexists. split.
  - apply (ReadDirectoryByPath_loads_before_reading env sample_state 0
             "drive/docs" 0 DRIVE_FILE_OK (Some sample_directory)
             {| observed_by_this := true |} eq_refl eq_refl).
    intros _. by exists sample_directory.
  - split; [reflexivity|]. vm_compute.
    repeat first [apply list_elem_of_here | apply list_elem_of_further].
Defined.

(** X17.  Nothing is loaded for what is not a directory.  When the metadata
    gives an entry that is not a directory, [ReadDirectoryByPath] and
    [RefreshDirectory] tell their callers
    [DRIVE_FILE_ERROR_NOT_A_DIRECTORY] after the lookup, and ask nothing of
    the loader.  [RefreshDirectory] on a directory whose resource id is
    special tells [DRIVE_FILE_OK] and loads nothing either; on any other
    directory it asks the loader for the directory, and the caller is told
    what the loader replies. *)
Theorem nothing_is_loaded_for_a_file env st start directory_path id
    entry_proto :
  resource_metadata_GetEntryInfoByPath (first_part env) start directory_path
  = (DRIVE_FILE_OK, Some entry_proto) ->
  let read_lookup :=
    EvCall
      (ResourceMetadata_GetEntryInfoByPath directory_path
         (Bind_ReadDirectoryByPathAfterGetEntry directory_path
            (Caller_ReadDirectoryWithSettingCallback id))) in
  let refresh_lookup :=
    EvCall
      (ResourceMetadata_GetEntryInfoByPath directory_path
         (Bind_RefreshDirectoryAfterGetEntryInfo directory_path
            (Caller_FileOperationCallback id))) in
  let refresh :=
    call start st
      (RefreshDirectory directory_path (Caller_FileOperationCallback id)) in
  (PlatformFileInfoProto.is_directory (file_info entry_proto) = false ->
   runs_to env
     (call start st
        (ReadDirectoryByPath directory_path
           (Caller_ReadDirectoryWithSettingCallback id)))
     {| state := st; agenda := []; pending := []; now := S start;
        trace :=
          [read_lookup;
           EvCaller
             (ReadDirectoryResult id DRIVE_FILE_ERROR_NOT_A_DIRECTORY
                (hide_hosted_docs_ (members st)) None)] |}
   /\ runs_to env refresh
        {| state := st; agenda := []; pending := []; now := S start;
           trace :=
             [refresh_lookup;
              EvCaller
                (FileOperationResult id DRIVE_FILE_ERROR_NOT_A_DIRECTORY)] |})
  /\ (PlatformFileInfoProto.is_directory (file_info entry_proto) = true ->
      (IsSpecialResourceId env (resource_id entry_proto) = true ->
       runs_to env refresh
         {| state := st; agenda := []; pending := []; now := S start;
            trace :=
              [refresh_lookup;
               EvCaller (FileOperationResult id DRIVE_FILE_OK)] |})
      /\ (IsSpecialResourceId env (resource_id entry_proto) = false ->
          is_Some (change_list_loader_ st) ->
          runs_to env refresh
            {| state := st; agenda := []; pending := []; now := S (S start);
               trace :=
                 [refresh_lookup;
                  EvCall
                    (ChangeListLoader_LoadDirectoryFromServer
                       (resource_id entry_proto)
                       (Caller_FileOperationCallback id));
                  EvCaller
                    (FileOperationResult id
                       (change_list_loader_LoadDirectoryFromServer env
                          (S start) (resource_id entry_proto)))] |})).
Proof.
  intros Hlookup read_lookup refresh_lookup refresh.
  subst read_lookup refresh_lookup refresh. split.
  - intros Hfile. split; catalog_run_to_end.
  - intros Hdirectory. split.
    + intros Hspecial. catalog_run_to_end.
    + intros Hordinary [loader Hloader]. catalog_run_to_end.
Qed.

Lemma nothing_is_loaded_for_a_file_witness :
  let env :=
    sample_collaborators (env_with_lookup sample_regular_file)
      (DRIVE_FILE_OK, Some []) ([], DRIVE_FILE_OK) true in
  (exists cfg,
     runs_to env
       (call 0 sample_state
          (ReadDirectoryByPath "drive/a.txt"
             (Caller_ReadDirectoryWithSettingCallback 0)))
       cfg
     /\ caller_results_of (trace cfg)
        = [ReadDirectoryResult 0 DRIVE_FILE_ERROR_NOT_A_DIRECTORY false None])
  /\ exists cfg,
       runs_to env
         (call 0 sample_state
            (RefreshDirectory "drive/a.txt" (Caller_FileOperationCallback 0)))
         cfg
       /\ caller_results_of (trace cfg)
          = [FileOperationResult 0 DRIVE_FILE_ERROR_NOT_A_DIRECTORY].
Proof.
  intros env.
  destruct (proj1 (nothing_is_loaded_for_a_file env sample_state 0
                     "drive/a.txt" 0 sample_regular_file eq_refl)
              eq_refl) as [Hread Hrefresh].
  split; eexists; (split; [eassumption|reflexivity]).
Defined.

(** X18.  The setting that [ReadDirectoryByPath] reports is the one in force
    when the caller is told, not the one in force when the directory was
    asked for.  When [SetHideHostedDocuments] is called while the request
    waits for the metadata, every result of the request reports the new
    setting, whatever the collaborators reply. *)
Theorem ReadDirectoryByPath_reports_the_setting_in_force env st start
    directory_path id hide :
  let asked :=
    run env 1
      (call start st
         (ReadDirectoryByPath directory_path
            (Caller_ReadDirectoryWithSettingCallback id))) in
  ends env (then_call asked (fun _ => SetHideHostedDocuments env hide))
    (fun cfg =>
       hide_hosted_docs_ (members (state cfg)) = hide
       /\ forall error hide' entries,
            ReadDirectoryResult id error hide' entries
              ∈ caller_results_of (trace cfg) ->
            hide' = hide).
Proof.
  intros asked. subst asked. cbn.
  unfold then_call, SetHideHostedDocuments. cbn.
  destruct (decide (hide = hide_hosted_docs_ (members st))) as [Hsame|Hnew].
  - catalog_explore.
    all: split; [done|].
    all: intros error hide' entries Hin; cbn in Hin.
    all: repeat (apply elem_of_cons in Hin as [Heq | Hin];
                 [by simplify_eq|]).
    all: by apply elem_of_nil in Hin.
  - cbn. eapply catalog_ends_after_reaches.
    { apply catalog_notifies_all. }
    catalog_explore.
    all: split; [done|].
    all: intros error hide' entries Hin.
    all: unfold caller_results_of in Hin; cbn in Hin.
    all: rewrite ?omap_app, ?catalog_notifications_tell_no_caller in Hin.
    all: cbn in Hin.
    all: repeat (apply elem_of_cons in Hin as [Heq | Hin];
                 [by simplify_eq|]).
    all: by apply elem_of_nil in Hin.
Qed.


(** ** Search *)

(** The calls of a loop are started one after the other, and nothing else
    happens meanwhile. *)
Lemma catalog_invokes env st calls rest waiting k t :
  reaches env
    {| state := st; agenda := (Invoke <$> calls) ++ rest;
       pending := waiting; now := k; trace := t |}
    {| state := st; agenda := rest; pending := waiting ++ calls; now := k;
       trace := t ++ (EvCall <$> calls) |}.
Proof.
  revert waiting t. induction calls as [|c calls IH]; intros waiting t.
  - cbn. rewrite !app_nil_r. apply catalog_reaches_refl.
  - apply catalog_reaches_step. cbn.
    replace (waiting ++ c :: calls) with ((waiting ++ [c]) ++ calls)
      by (by rewrite <- app_assoc).
    replace (t ++ EvCall c :: (EvCall <$> calls))
      with ((t ++ [EvCall c]) ++ (EvCall <$> calls))
      by (by rewrite <- app_assoc).
    apply IH.
Qed.

(** The replies to checks for updates are recorded and tell nobody. *)
Lemma catalog_update_checks_run env n st k t :
  exists st',
    runs_to env
      {| state := st; agenda := []; pending := replicate n update_check;
         now := k; trace := t |}
      {| state := st'; agenda := []; pending := []; now := n + k;
         trace := t |}
    /\ members st' = members st
    /\ observers_ st' = observers_ st
    /\ change_list_loader_ st' = change_list_loader_ st
    /\ heap st' = heap st.
Proof.
  revert st k. induction n as [|n IH]; intros st k.
  - exists st. split; [|done]. apply catalog_runs_to_done. by split.
  - destruct (IH (set_last_update_check (Time_Now env (S k))
                    (change_list_loader_LoadFromServerIfNeeded env k
                       DirectoryFetchInfo_empty) st) (S k))
      as (st' & Hrun & Hmembers & Hobservers & Hloader & Hheap).
    exists st'. split; [|done].
    replace (S n + k) with (n + S k) by lia.
    do 2 apply catalog_runs_to_step. exact Hrun.
Qed.

Lemma found_app replies1 replies2 :
  found (replies1 ++ replies2) = found replies1 ++ found replies2.
Proof. apply omap_app. Qed.

(** One reply of [RefreshEntry], as [AddToSearchResults] handles it: the
    entry is added to the vector when the metadata has it, a check for
    updates is started when it is due, and the callback is left to run when
    the entry is the last. *)
Lemma catalog_AddToSearchResults_run env st results should_run_callback
    callback entry rest k t vector loader :
  heap st !! results = Some (Some vector) ->
  change_list_loader_ st = Some loader ->
  let reply := resource_metadata_RefreshEntry (first_part env) k entry in
  with_entry reply ->
  let due := update_checks_due env k [reply] in
  exists st',
    reaches env
      {| state := st; agenda := [];
         pending :=
           ResourceMetadata_RefreshEntry entry
             (Bind_AddToSearchResults results should_run_callback callback)
           :: rest;
         now := k; trace := t |}
      {| state := st';
         agenda := if should_run_callback then [Run_Closure callback] else [];
         pending := rest ++ replicate due update_check;
         now := S k;
         trace := t ++ (EvCall <$> replicate due update_check) |}
    /\ heap st' !! results = Some (Some (vector ++ found [reply]))
    /\ members st' = members st
    /\ observers_ st' = observers_ st
    /\ change_list_loader_ st' = Some loader.
Proof.
  intros Hvector Hloader reply Hentry due. subst reply due.
  destruct (resource_metadata_RefreshEntry (first_part env) k entry)
    as [[error drive_file_path] refreshed] eqn:Hreply.
  unfold with_entry in Hentry. cbn in Hentry.
  unfold found, update_checks_due. cbn [omap].
  destruct (decide (error = DRIVE_FILE_OK)) as [->|Herror].
  - destruct (Hentry eq_refl) as [entry_proto ->].
    rewrite decide_False by done. cbn.
    eexists. split.
    + do 2 apply catalog_reaches_step. cbn.
      unfold AddToSearchResults, push_back. simplify_config.
      rewrite !app_nil_r.
      destruct should_run_callback; apply catalog_reaches_refl.
    + cbn. rewrite list_lookup_insert_eq; [done|].
      by eapply lookup_lt_Some.
  - destruct (decide (error = DRIVE_FILE_ERROR_NOT_FOUND)) as [->|Hother].
    + destruct (change_list_loader_loaded env (S k)
                && negb (change_list_loader_refreshing env (S k))) eqn:Hdue.
      * exists st.
      split; [|cbn; repeat settle_decide; rewrite ?app_nil_r; by repeat split].
        do 3 apply catalog_reaches_step. cbn.
        unfold AddToSearchResults, CheckForUpdates. simplify_config.
        destruct should_run_callback; cbn; apply catalog_reaches_refl.
      * exists st.
      split; [|cbn; repeat settle_decide; rewrite ?app_nil_r; by repeat split].
        do 2 apply catalog_reaches_step. cbn.
        unfold AddToSearchResults, CheckForUpdates. simplify_config.
        rewrite ?app_nil_r.
        destruct should_run_callback; cbn; apply catalog_reaches_refl.
    + exists st.
      split; [|cbn; repeat settle_decide; rewrite ?app_nil_r; by repeat split].
      do 2 apply catalog_reaches_step. cbn.
      unfold AddToSearchResults. simplify_config. rewrite ?app_nil_r.
      destruct should_run_callback; cbn; apply catalog_reaches_refl.
Qed.


Lemma found_cons reply replies :
  found (reply :: replies) = found [reply] ++ found replies.
Proof. apply (found_app [reply]). Qed.

Lemma update_checks_due_cons env k reply replies :
  update_checks_due env k (reply :: replies)
  = update_checks_due env k [reply] + update_checks_due env (S k) replies.
Proof. destruct reply as [[error drive_file_path] entry]. cbn. lia. Qed.

(** The replies of [RefreshEntry] for the entries of a search, from the
    [i]-th on: the run ends, the checks for updates that are due are
    started, and the caller is told, once and after the last reply, the
    entries that the metadata has. *)
Lemma catalog_refresh_replies_run env id next_feed results size entries :
  let callback :=
    Bind_SearchCallback (Caller_SearchCallback id) DRIVE_FILE_OK next_feed
      results in
  forall i vector st k t m loader,
    entries <> [] ->
    i + List.length entries = size ->
    heap st !! results = Some (Some vector) ->
    change_list_loader_ st = Some loader ->
    Forall with_entry (refresh_replies env k entries) ->
    ends env
      {| state := st; agenda := [];
         pending :=
           OnSearch_loop results callback size i entries
           ++ replicate m update_check;
         now := k; trace := t |}
      (fun cfg =>
         trace cfg
         = t
           ++ (EvCall
                 <$> replicate
                       (update_checks_due env k (refresh_replies env k entries))
                       update_check)
           ++ [EvCaller
                 (SearchResult id DRIVE_FILE_OK next_feed
                    (Some (vector ++ found (refresh_replies env k entries))))]
         /\ members (state cfg) = members st
         /\ observers_ (state cfg) = observers_ st).
Proof.
  intros callback.
  induction entries as [|entry entries IH];
    intros i vector st k t m loader Hsome Hsize Hvector Hloader Hreplies;
    [done|].
  cbn [OnSearch_loop refresh_replies] in *.
  apply Forall_cons in Hreplies as [Hreply Hreplies].
  rewrite found_cons, update_checks_due_cons.
  destruct (catalog_AddToSearchResults_run env st results
              (bool_decide (i + 1 = size)) callback entry
              (OnSearch_loop results callback size (S i) entries
               ++ replicate m update_check)
              k t vector loader Hvector Hloader Hreply)
    as (st' & Hreaches & Hvector' & Hmembers & Hobservers & Hloader').
  eapply catalog_ends_after_reaches; [exact Hreaches|].
  set (reply := resource_metadata_RefreshEntry (first_part env) k entry) in *.
  rewrite <- app_assoc, <- replicate_add.
  destruct entries as [|entry' entries].
  - rewrite bool_decide_eq_true_2 by (cbn in Hsize; lia).
    cbn [OnSearch_loop refresh_replies app update_checks_due found omap].
    rewrite Nat.add_0_r, app_nil_r.
    destruct (catalog_update_checks_run env
                (m + update_checks_due env k [reply])
                (set_heap (<[results := None]> (heap st')) st') (S k)
                ((t ++ (EvCall
                          <$> replicate (update_checks_due env k [reply])
                                update_check))
                 ++ [EvCaller
                       (SearchResult id DRIVE_FILE_OK next_feed
                          (Some (vector ++ found [reply])))]))
      as (st'' & Hrun & Hmembers'' & Hobservers'' & _).
    exists {| state := st''; agenda := []; pending := [];
              now := m + update_checks_due env k [reply] + S k;
              trace :=
                (t ++ (EvCall
                         <$> replicate (update_checks_due env k [reply])
                               update_check))
                ++ [EvCaller
                      (SearchResult id DRIVE_FILE_OK next_feed
                         (Some (vector ++ found [reply])))] |}.
    split.
    + do 2 apply catalog_runs_to_step. cbn.
      unfold Run_Bind_SearchCallback. rewrite Hvector'. cbn. exact Hrun.
    + cbn in Hmembers'', Hobservers'' |- *.
      split; [by rewrite <- app_assoc|]. split; congruence.
  - rewrite bool_decide_eq_false_2 by (cbn in Hsize; lia).
    eapply catalog_ends_impl;
      [|apply (IH (S i) (vector ++ found [reply]) st' (S k) _
                 (m + update_checks_due env k [reply]) loader);
        [done | cbn in Hsize |- *; lia | done | done | done]].
    intros cfg (Htrace & Hmembers'' & Hobservers''). cbn beta.
    split; [|split; congruence].
    rewrite Htrace, replicate_add, fmap_app, <- !app_assoc. reflexivity.
Qed.


Lemma calls_of_calls (calls : list Call) : calls_of (EvCall <$> calls) = calls.
Proof.
  unfold calls_of. induction calls as [|c calls IH]; [done|].
  cbn. by rewrite IH.
Qed.

Lemma caller_results_of_calls (calls : list Call) :
  caller_results_of (EvCall <$> calls) = [].
Proof. unfold caller_results_of. by induction calls. Qed.

Lemma refreshes_of_OnSearch_loop results callback size i entries :
  refreshes_of (OnSearch_loop results callback size i entries) = entries.
Proof.
  unfold refreshes_of. revert i.
  induction entries as [|entry entries IH]; intros i; [done|].
  cbn. by rewrite IH.
Qed.

Lemma update_checks_of_OnSearch_loop results callback size i entries :
  update_checks_of (OnSearch_loop results callback size i entries) = [].
Proof.
  unfold update_checks_of. revert i.
  induction entries as [|entry entries IH]; intros i; [done|]. cbn. apply IH.
Qed.

Lemma refreshes_of_update_checks n :
  refreshes_of (replicate n update_check) = [].
Proof. unfold refreshes_of. by induction n. Qed.

Lemma update_checks_of_update_checks n :
  update_checks_of (replicate n update_check)
  = replicate n DirectoryFetchInfo_empty.
Proof.
  unfold update_checks_of. induction n as [|n IH]; [done|].
  cbn. by rewrite IH.
Qed.

(** The whole run of a search that the server answers. *)
Lemma Search_run env st start search_query next_feed id loader change_list
    others :
  change_list_loader_ st = Some loader ->
  change_list_loader_SearchFromServer env start search_query next_feed
  = (change_list :: others, DRIVE_FILE_OK) ->
  let replies := refresh_replies env (S start) (entries change_list) in
  Forall with_entry replies ->
  ends env
    (call start st (Search search_query next_feed (Caller_SearchCallback id)))
    (fun cfg =>
       trace cfg
       = [EvCall
            (ChangeListLoader_SearchFromServer search_query next_feed
               (Bind_OnSearch (Caller_SearchCallback id)))]
         ++ (EvCall
               <$> OnSearch_loop (List.length (heap st))
                     (Bind_SearchCallback (Caller_SearchCallback id)
                        DRIVE_FILE_OK (next_url change_list)
                        (List.length (heap st)))
                     (List.length (entries change_list)) 0
                     (entries change_list))
         ++ (EvCall
               <$> replicate (update_checks_due env (S start) replies)
                     update_check)
         ++ [EvCaller
               (SearchResult id DRIVE_FILE_OK (next_url change_list)
                  (Some (found replies)))]
       /\ members (state cfg) = members st
       /\ observers_ (state cfg) = observers_ st).
Proof.
  intros Hloader Hsearch replies Hreplies. subst replies.
  unfold call, Search. rewrite Hloader. cbn.
  do 3 apply catalog_ends_step. cbn. rewrite Hsearch. cbn.
  unfold OnSearch. rewrite decide_False by (intros Hne; by apply Hne). cbn.
  destruct (entries change_list) as [|entry entries] eqn:Hentries.
  - cbn. do 3 apply catalog_ends_step. cbn.
    unfold Run_Bind_SearchCallback. cbn.
    rewrite lookup_app_r, Nat.sub_diag by done. cbn.
    apply catalog_ends_step. cbn.
    apply catalog_ends_done; [by split|]. by cbn.
  - rewrite app_nil_r.
    eapply catalog_ends_after_reaches.
    { rewrite <- (app_nil_r (Invoke <$> _)). apply catalog_invokes. }
    cbn [app].
    pose proof (catalog_refresh_replies_run env id (next_url change_list)
                  (List.length (heap st)) (List.length (entry :: entries))
                  (entry :: entries) 0 []
                  (set_heap (heap st ++ [Some []]) st) (S start)
                  (EvCall
                     (ChangeListLoader_SearchFromServer search_query next_feed
                        (Bind_OnSearch (Caller_SearchCallback id)))
                   :: (EvCall
                         <$> OnSearch_loop (List.length (heap st))
                               (Bind_SearchCallback (Caller_SearchCallback id)
                                  DRIVE_FILE_OK (next_url change_list)
                                  (List.length (heap st)))
                               (List.length (entry :: entries)) 0
                               (entry :: entries)))
                  0 loader) as Hrun.
    cbn [replicate] in Hrun. rewrite app_nil_r in Hrun.
    eapply catalog_ends_impl; [|apply Hrun; try done].
    + intros cfg (Htrace & Hmembers & Hobservers). split; [|done].
      by rewrite Htrace.
    + cbn. by rewrite lookup_app_r, Nat.sub_diag by done.
Qed.

(** X19.  A search that the server answers refreshes every entry of the
    first change list in the metadata, in the order of the list, and tells
    the caller once, after the last reply: [DRIVE_FILE_OK], the URL of the
    next feed, and the entries that the metadata has, each with its path, in
    the order of the list.  An entry that the metadata does not have is left
    out, and a check for updates is started for it if the loader is loaded
    and is not refreshing at that moment.  (Every reply that is a success is
    taken to come with an entry.) *)
Theorem Search_collects_the_entries_found env st start search_query next_feed
    id loader change_list others :
  change_list_loader_ st = Some loader ->
  change_list_loader_SearchFromServer env start search_query next_feed
  = (change_list :: others, DRIVE_FILE_OK) ->
  let replies := refresh_replies env (S start) (entries change_list) in
  Forall with_entry replies ->
  ends env
    (call start st (Search search_query next_feed (Caller_SearchCallback id)))
    (fun cfg =>
       caller_results_of (trace cfg)
       = [SearchResult id DRIVE_FILE_OK (next_url change_list)
            (Some (found replies))]
       /\ refreshes_of (calls_of (trace cfg)) = entries change_list
       /\ update_checks_of (calls_of (trace cfg))
          = replicate (update_checks_due env (S start) replies)
              DirectoryFetchInfo_empty
       /\ members (state cfg) = members st
       /\ observers_ (state cfg) = observers_ st).
Proof.
  intros Hloader Hsearch replies Hreplies.
  eapply catalog_ends_impl; [|by eapply Search_run].
  intros cfg (Htrace & Hmembers & Hobservers). fold replies in Htrace.
  rewrite Htrace. split; [|split; [|split; [|done]]].
  - unfold caller_results_of. rewrite !omap_app.
    fold (caller_results_of
            (EvCall
               <$> OnSearch_loop (List.length (heap st))
                     (Bind_SearchCallback (Caller_SearchCallback id)
                        DRIVE_FILE_OK (next_url change_list)
                        (List.length (heap st)))
                     (List.length (entries change_list)) 0
                     (entries change_list))).
    fold (caller_results_of
            (EvCall
               <$> replicate (update_checks_due env (S start) replies)
                     update_check)).
    by rewrite !caller_results_of_calls.
  - unfold calls_of. rewrite !omap_app. fold calls_of.
    rewrite !calls_of_calls. cbn.
    unfold refreshes_of. rewrite !omap_app. fold refreshes_of.
    rewrite refreshes_of_OnSearch_loop, refreshes_of_update_checks.
    by rewrite app_nil_r.
  - unfold calls_of. rewrite !omap_app. fold calls_of.
    rewrite !calls_of_calls. cbn.
    unfold update_checks_of. rewrite !omap_app. fold update_checks_of.
    rewrite update_checks_of_OnSearch_loop, update_checks_of_update_checks.
    by rewrite app_nil_r.
Qed.


Lemma Search_collects_the_entries_found_witness :
  let env :=
    sample_collaborators env_with_one_entry (DRIVE_FILE_OK, Some [])
      ([sample_change_list], DRIVE_FILE_OK) true in
  ends env
    (call 0 sample_state
       (Search "a" {| spec := EmptyString |} (Caller_SearchCallback 0)))
    (fun cfg =>
       caller_results_of (trace cfg)
       = [SearchResult 0 DRIVE_FILE_OK
            {| spec := "https://drive/feed?page=2" |}
            (Some
               [{| path := "drive/a.txt"; entry_proto := sample_regular_file |}])]
       /\ refreshes_of (calls_of (trace cfg))
          = [sample_hosted_document; sample_regular_file]
       /\ update_checks_of (calls_of (trace cfg)) = [DirectoryFetchInfo_empty]).
Proof.
  intros env.
  eapply catalog_ends_impl;
    [|apply (Search_collects_the_entries_found env sample_state 0 "a"
               {| spec := EmptyString |} 0 {| observed_by_this := true |}
               sample_change_list [] eq_refl eq_refl)].
  - intros cfg (Htold & Hrefreshed & Hchecks & _).
    rewrite Htold, Hrefreshed, Hchecks. repeat split.
  - repeat constructor.
    + intros Hok. discriminate Hok.
    + intros _. by eexists.
Defined.

(** X20.  A search that the server does not answer tells the caller the
    error, with an empty URL for the next feed and no results; no entry is
    refreshed and no vector of results is left on the heap. *)
Theorem Search_failure env st start search_query next_feed id loader
    change_lists error :
  change_list_loader_ st = Some loader ->
  change_list_loader_SearchFromServer env start search_query next_feed
  = (change_lists, error) ->
  error <> DRIVE_FILE_OK ->
  runs_to env
    (call start st (Search search_query next_feed (Caller_SearchCallback id)))
    {| state := st; agenda := []; pending := []; now := S start;
       trace :=
         [EvCall
            (ChangeListLoader_SearchFromServer search_query next_feed
               (Bind_OnSearch (Caller_SearchCallback id)));
          EvCaller
            (SearchResult id error {| spec := EmptyString |} None)] |}.
Proof.
  intros Hloader Hsearch Herror. unfold call, Search. rewrite Hloader.
  catalog_run_to_end.
Qed.

Lemma Search_failure_witness :
  let env :=
    sample_collaborators env_with_one_entry (DRIVE_FILE_OK, Some [])
      ([sample_change_list], DRIVE_FILE_ERROR_FAILED) true in
  exists cfg,
    runs_to env
      (call 0 sample_state
         (Search "a" {| spec := EmptyString |} (Caller_SearchCallback 0)))
      cfg
    /\ caller_results_of (trace cfg)
       = [SearchResult 0 DRIVE_FILE_ERROR_FAILED {| spec := EmptyString |}
            None]
    /\ refreshes_of (calls_of (trace cfg)) = [].
Proof.
  intros env. eexists. split.
  - apply (Search_failure env sample_state 0 "a" {| spec := EmptyString |} 0
             {| observed_by_this := true |} [sample_change_list]
             DRIVE_FILE_ERROR_FAILED eq_refl eq_refl).
    discriminate.
  - split; reflexivity.
Defined.

(** ** Uploaded files *)

(** X21.  [AddUploadedFile] adds the entry to the metadata first.  When that
    fails, the caller is told the error, the observers are told nothing and
    nothing is stored.  Otherwise every observer is told that the directory
    of the new file changed, the content is copied (not moved) into the cache
    under the resource id and md5 of the server's entry, and the caller is
    told what the cache replies. *)
Theorem AddUploadedFile_stores_a_copy env st start entry file_content_path id :
  let callback := Caller_FileOperationCallback id in
  let params :=
    {| AddUploadedFileParams.file_content_path := file_content_path;
       AddUploadedFileParams.callback := callback;
       AddUploadedFileParams.resource_id := ResourceEntry.resource_id entry;
       AddUploadedFileParams.md5 := ResourceEntry.file_md5 entry |} in
  let entry_proto :=
    ConvertResourceEntryToDriveEntryProto (first_part env) entry in
  let added := resource_metadata_AddEntry env start entry_proto in
  let add :=
    EvCall
      (ResourceMetadata_AddEntry entry_proto
         (Bind_AddUploadedFileToCache params)) in
  runs_to env
    (call start st
       (AddUploadedFile env (Some entry) file_content_path callback))
    (if decide (added.1 = DRIVE_FILE_OK)
     then
       {| state := st; agenda := []; pending := []; now := 2 + start;
          trace :=
            [add]
            ++ ((fun observer =>
                   EvNotify observer
                     (OnDirectoryChanged_ (DirName (first_part env) added.2)))
                  <$> observers_ st)
            ++ [EvCall
                  (Cache_Store (ResourceEntry.resource_id entry)
                     (ResourceEntry.file_md5 entry) file_content_path
                     FILE_OPERATION_COPY callback);
                EvCaller
                  (FileOperationResult id
                     (cache_Store (first_part env) (S start)
                        (ResourceEntry.resource_id entry)
                        (ResourceEntry.file_md5 entry) file_content_path
                        FILE_OPERATION_COPY))] |}
     else
       {| state := st; agenda := []; pending := []; now := S start;
          trace := [add; EvCaller (FileOperationResult id added.1)] |}).
Proof.
  intros callback params entry_proto added add.
  subst callback params entry_proto added add.
  destruct (resource_metadata_AddEntry env start
              (ConvertResourceEntryToDriveEntryProto (first_part env) entry))
    as [error file_path] eqn:Hadded.
  cbn [fst snd].
  destruct (decide (error = DRIVE_FILE_OK)) as [->|Herror].
  - do 3 apply catalog_runs_to_step. simplify_config. rewrite app_nil_r.
    eapply catalog_runs_to_after; [apply catalog_notifies|].
    catalog_run_to_end. rewrite <- app_assoc. catalog_finish_run.
  - catalog_run_to_end.
Qed.


(** ** The file system's metadata *)

(** X22.  [GetMetadata] reports the object as it is when it is asked, and
    the largest changestamp as the metadata replies.  When
    [SetPushNotificationEnabled] is called while the request waits for the
    reply, the caller is still told the flag and the polling interval that
    were in force when [GetMetadata] was called. *)
Theorem GetMetadata_reports_the_object_when_asked env st start id loader
    enabled :
  change_list_loader_ st = Some loader ->
  let callback := Caller_GetFilesystemMetadataCallback id in
  let metadata :=
    {| largest_changestamp := 0;
       loaded := change_list_loader_loaded env start;
       refreshing := change_list_loader_refreshing env start;
       push_notification_enabled := push_notification_enabled_ (members st);
       polling_interval_sec := polling_interval_sec_ (members st);
       last_update_check_time := last_update_check_time_ st;
       last_update_check_error := last_update_check_error_ st |} in
  let asked := run env 1 (call start st (GetMetadata env start callback)) in
  runs_to env
    (then_call asked
       (fun _ => on_members (SetPushNotificationEnabled enabled)))
    {| state :=
         set_members (fst (SetPushNotificationEnabled enabled (members st))) st;
       agenda := []; pending := []; now := S start;
       trace :=
         [EvCall
            (ResourceMetadata_GetLargestChangestamp
               (Bind_OnGetLargestChangestamp metadata callback));
          EvCaller
            (GetFilesystemMetadataResult id
               (set_largest_changestamp
                  (resource_metadata_GetLargestChangestamp env start)
                  metadata))] |}.
Proof.
  intros Hloader callback metadata asked. subst callback metadata asked.
  unfold call, GetMetadata. rewrite Hloader. catalog_run_to_end.
Qed.

Lemma GetMetadata_reports_the_object_when_asked_witness :
  let env :=
    sample_collaborators env_with_one_entry (DRIVE_FILE_OK, Some [])
      ([sample_change_list], DRIVE_FILE_OK) true in
  let asked :=
    run env 1
      (call 0 sample_state
         (GetMetadata env 0 (Caller_GetFilesystemMetadataCallback 0))) in
  exists cfg,
    runs_to env
      (then_call asked (fun _ => on_members (SetPushNotificationEnabled true)))
      cfg
    /\ push_notification_enabled_ (members (state cfg)) = true
    /\ polling_interval_sec_ (members (state cfg)) = 300%Z
    /\ caller_results_of (trace cfg)
       = [GetFilesystemMetadataResult 0
            {| largest_changestamp := 77;
               loaded := true;
               refreshing := false;
               push_notification_enabled := false;
               polling_interval_sec := 60;
               last_update_check_time := 0;
               last_update_check_error := DRIVE_FILE_OK |}].
Proof.
  intros env asked. eexists. split.
  - apply (GetMetadata_reports_the_object_when_asked env sample_state 0 0
             {| observed_by_this := true |} true eq_refl).
  - repeat split.
Defined.

(** ** The preference that hides hosted documents *)

Lemma last_of_cons {A} (x : A) (l : list A) (d d' : A) :
  List.last (x :: l) d = List.last (x :: l) d'.
Proof.
  revert x. induction l as [|y l IH]; intros x; [done|].
  change (List.last (y :: l) d = List.last (y :: l) d'). apply IH.
Qed.

(** X23.  The observers are told that the root changed only when the setting
    really changes.  When [SetHideHostedDocuments] is called with each of
    [settings] in turn, the setting ends as the last of them, every observer
    is told once for each change of the setting and not at all for a call
    that repeats the setting in force, and nothing else is done. *)
Theorem SetHideHostedDocuments_tells_the_changes env st settings :
  let hide := hide_hosted_docs_ (members st) in
  let '(st', done) := SetHideHostedDocuments_each env settings st in
  hide_hosted_docs_ (members st') = List.last settings hide
  /\ observers_ st' = observers_ st
  /\ done
     = mjoin
         (replicate (changes hide settings)
            ((fun observer =>
                Notify observer
                  (OnDirectoryChanged_ (GetDriveGrandRootPath env)))
               <$> observers_ st)).
Proof.
  cbn zeta. revert st.
  induction settings as [|setting settings IH]; intros st; [done|].
  cbn [SetHideHostedDocuments_each changes]. unfold seq at 1.
  unfold SetHideHostedDocuments at 1.
  destruct (decide (setting = hide_hosted_docs_ (members st))) as [->|Hnew].
  - cbn [skip]. specialize (IH st).
    destruct (SetHideHostedDocuments_each env settings st) as [st' done].
    destruct IH as (Hlast & Hobservers & ->).
    split; [|done]. rewrite Hlast. by destruct settings.
  - cbn. specialize
      (IH (set_members (set_hide_hosted_docs_ setting (members st)) st)).
    destruct (SetHideHostedDocuments_each env settings _) as [st' done].
    cbn in IH. destruct IH as (Hlast & Hobservers & ->).
    split; [|done]. rewrite Hlast.
    destruct settings as [|setting' settings]; [done|].
    change (List.last (setting' :: settings) setting
            = List.last (setting' :: settings)
                (hide_hosted_docs_ (members st))).
    apply last_of_cons.
Qed.

(** ** [SearchMetadata] *)

(** An [int] is a 32-bit integer in two's complement. *)
Lemma int_range_shiftr (n : Z) :
  (- 2 ^ 31 <= n < 2 ^ 31)%Z <-> (Z.shiftr n 31 = 0 \/ Z.shiftr n 31 = -1)%Z.
Proof.
  rewrite Z.shiftr_div_pow2 by lia.
  pose proof (Z.div_mod n (2 ^ 31) ltac:(lia)) as Hdiv.
  pose proof (Z.mod_pos_bound n (2 ^ 31) ltac:(lia)) as Hmod.
  split.
  - intros Hrange.
    assert (-1 <= n / 2 ^ 31 < 1)%Z as Hq by nia. lia.
  - intros [Hq | Hq]; rewrite Hq in Hdiv; lia.
Qed.

(** X24.  [SearchMetadata] hands the search to [drive::SearchMetadata] with
    the options of the caller, to which the bits of
    [SEARCH_METADATA_EXCLUDE_HOSTED_DOCUMENTS] are added when hosted
    documents are hidden: these bits are then set, every other bit is as the
    caller gave it, and the options are still an [int].  When hosted documents
    are not hidden the options are passed on as they are.  The object is left
    as it was. *)
Theorem SearchMetadata_excludes_hidden_documents env st query options
    at_most_num_matches callback :
  let mask := SEARCH_METADATA_EXCLUDE_HOSTED_DOCUMENTS env in
  exists options',
    SearchMetadata env query options at_most_num_matches callback st
    = (st,
       [Delegate
          (Drive_SearchMetadata query options' at_most_num_matches callback)])
    /\ (hide_hosted_docs_ (members st) = false -> options' = options)
    /\ (hide_hosted_docs_ (members st) = true ->
        Z.land options' mask = mask
        /\ (forall i,
              Z.testbit mask i = false ->
              Z.testbit options' i = Z.testbit options i)
        /\ ((- 2 ^ 31 <= options < 2 ^ 31)%Z ->
            (- 2 ^ 31 <= mask < 2 ^ 31)%Z ->
            (- 2 ^ 31 <= options' < 2 ^ 31)%Z)).
Proof.
  intros mask. subst mask. unfold SearchMetadata.
  destruct (hide_hosted_docs_ (members st)); eexists;
    (split; [reflexivity|]); (split; [done|]); [|done].
  intros _. split; [|split].
  - apply Z.bits_inj'. intros i Hi.
    rewrite Z.land_spec, Z.lor_spec.
    by destruct (Z.testbit options i),
         (Z.testbit (SEARCH_METADATA_EXCLUDE_HOSTED_DOCUMENTS env) i).
  - intros i Hmask. rewrite Z.lor_spec, Hmask. apply orb_false_r.
  - rewrite !int_range_shiftr, Z.shiftr_lor.
    intros [-> | ->] [-> | ->]; cbn; auto.
Qed.


(** ** Checks for updates *)

(** X25.  [CheckForUpdates] asks the loader for the changes of the server
    only when there is a loader, it is loaded and it is not refreshing;
    otherwise it does nothing at all.  [Reload] always asks: once the
    metadata is reset it makes a new loader, whether there was one or not,
    and asks it without looking at its state.  In both cases the reply is
    recorded as the error of the last check for updates, with the time at
    which it came, and nobody is told. *)
Theorem updates_are_checked_when_the_loader_is_idle env st start :
  let due :=
    bool_decide (is_Some (change_list_loader_ st))
    && change_list_loader_loaded env start
    && negb (change_list_loader_refreshing env start) in
  runs_to env (call start st (CheckForUpdates env start))
    (if due
     then
       {| state :=
            set_last_update_check (Time_Now env (S start))
              (change_list_loader_LoadFromServerIfNeeded env start
                 DirectoryFetchInfo_empty)
              st;
          agenda := []; pending := []; now := S start;
          trace := [EvCall update_check] |}
     else
       {| state := st; agenda := []; pending := []; now := start;
          trace := [] |})
  /\ runs_to env (call start st Reload)
       {| state :=
            set_last_update_check (Time_Now env (2 + start))
              (change_list_loader_LoadFromServerIfNeeded env (S start)
                 DirectoryFetchInfo_empty)
              (set_change_list_loader_ (Some {| observed_by_this := true |})
                 st);
          agenda := []; pending := []; now := 2 + start;
          trace :=
            [EvCall (ResourceMetadata_Reset Bind_ReloadAfterReset);
             EvCall update_check] |}.
Proof.
  intros due. subst due. split.
  - unfold call, CheckForUpdates.
    destruct (bool_decide (is_Some (change_list_loader_ st))
              && change_list_loader_loaded env start
              && negb (change_list_loader_refreshing env start));
      catalog_run_to_end.
  - catalog_run_to_end.
Qed.

(** ** The first fetch *)

(** X26.  [StartInitialFeedFetch] starts the load at once when the drive
    service can start operations.  Otherwise it starts nothing and leaves an
    observer with the drive service; when the drive service becomes ready,
    the observer posts the load, which is then started, and the observer is
    gone: a second signal of the drive service starts nothing more. *)
Theorem StartInitialFeedFetch_waits_for_the_drive_service env st start loader :
  change_list_loader_ st = Some loader ->
  readiness_observers st = [] ->
  let load :=
    ChangeListLoader_LoadIfNeeded DirectoryFetchInfo_empty
      Bind_EmptyFileOperationCallback in
  let posted :=
    MessageLoop_PostTask
      (Bind_LoadIfNeeded DirectoryFetchInfo_empty
         Bind_EmptyFileOperationCallback) in
  let fetch := call start st (StartInitialFeedFetch env start) in
  (drive_service_CanStartOperation env start = true ->
   runs_to env fetch
     {| state := st; agenda := []; pending := []; now := S start;
        trace := [EvCall load] |})
  /\ (drive_service_CanStartOperation env start = false ->
      quiescent fetch
      /\ trace fetch = []
      /\ runs_to env (then_call fetch (fun _ => DriveService_ready))
           {| state := st; agenda := []; pending := []; now := 2 + start;
              trace := [EvCall posted; EvCall load] |}
      /\ DriveService_ready st = (st, [])).
Proof.
  intros Hloader Hobservers load posted fetch. subst load posted fetch.
  assert (forall observers,
            set_readiness_observers []
              (set_readiness_observers observers st) = st) as Hsame.
  { intros observers. destruct st. cbn in *. by subst. }
  split.
  - intros Hready. unfold call, StartInitialFeedFetch. rewrite Hready.
    catalog_run_to_end.
  - intros Hbusy. unfold call, StartInitialFeedFetch. rewrite Hbusy.
    cbn. rewrite Hobservers. cbn. split; [done|]. split; [done|]. split.
    + unfold then_call, DriveService_ready. cbn. rewrite Hsame.
      catalog_run_to_end.
    + unfold DriveService_ready. by rewrite Hobservers.
Qed.

Lemma StartInitialFeedFetch_waits_for_the_drive_service_witness :
  let env :=
    sample_collaborators env_with_one_entry (DRIVE_FILE_OK, Some [])
      ([sample_change_list], DRIVE_FILE_OK) false in
  let fetch := call 0 sample_state (StartInitialFeedFetch env 0) in
  quiescent fetch
  /\ readiness_observers (state fetch)
     = [Bind_LoadIfNeeded DirectoryFetchInfo_empty
          Bind_EmptyFileOperationCallback]
  /\ exists cfg,
       runs_to env (then_call fetch (fun _ => DriveService_ready)) cfg
       /\ readiness_observers (state cfg) = []
       /\ calls_of (trace cfg)
          = [MessageLoop_PostTask
               (Bind_LoadIfNeeded DirectoryFetchInfo_empty
                  Bind_EmptyFileOperationCallback);
             ChangeListLoader_LoadIfNeeded DirectoryFetchInfo_empty
               Bind_EmptyFileOperationCallback].
Proof.
  intros env fetch.
  destruct (proj2 (StartInitialFeedFetch_waits_for_the_drive_service env
                     sample_state 0 {| observed_by_this := true |}
                     eq_refl eq_refl)
              eq_refl) as (Hquiescent & _ & Hrun & _).
  split; [exact Hquiescent|]. split; [reflexivity|].
  eexists. split; [exact Hrun|]. split; reflexivity.
Defined.

(** ** Before there is a loader *)

(** X27.  Until [Initialize] or [Reload] has made a change-list loader, the
    methods that go through the loader read a null pointer and the run stops
    there, before any call is started or anyone is told: [LoadIfNeeded],
    [Search], [GetMetadata], and [ReadDirectoryByPath] once the metadata has
    answered.  [CheckForUpdates] tests the pointer and does nothing.  Once
    [Initialize] has run there is a loader, and the setting that hides hosted
    documents is the one of the preference. *)
Theorem methods_need_a_loader env st start :
  change_list_loader_ st = None ->
  let stops (method : Method) :=
    runs_to env (call start st method)
      {| state := st; agenda := []; pending := []; now := start;
         trace := [EvStop NullDereference] |} in
  (forall directory_fetch_info callback,
     stops (LoadIfNeeded directory_fetch_info callback))
  /\ (forall search_query next_feed callback,
        stops (Search search_query next_feed callback))
  /\ (forall callback, stops (GetMetadata env start callback))
  /\ (forall directory_path id,
        ends env
          (call start st
             (ReadDirectoryByPath directory_path
                (Caller_ReadDirectoryWithSettingCallback id)))
          (fun cfg =>
             forall error hide entries,
               ReadDirectoryResult id error hide entries
                 ∈ caller_results_of (trace cfg) ->
               error = DRIVE_FILE_ERROR_NOT_A_DIRECTORY))
  /\ runs_to env (call start st (CheckForUpdates env start))
       {| state := st; agenda := []; pending := []; now := start;
          trace := [] |}
  /\ (let st' := fst (Initialize env start st) in
      change_list_loader_ st' = Some {| observed_by_this := true |}
      /\ hide_hosted_docs_ (members st')
         = pref_service_GetBoolean_kDisableDriveHostedFiles env start).
Proof.
  intros Hloader stops. subst stops. cbn beta.
  split; [|split; [|split; [|split; [|split]]]].
  - intros directory_fetch_info callback.
    unfold call, LoadIfNeeded. rewrite Hloader. catalog_run_to_end.
  - intros search_query next_feed callback.
    unfold call, Search. rewrite Hloader. catalog_run_to_end.
  - intros callback. unfold call, GetMetadata. rewrite Hloader.
    catalog_run_to_end.
  - intros directory_path id. catalog_explore.
    all: intros error hide entries Hin; cbn in Hin.
    all: repeat (apply elem_of_cons in Hin as [Heq | Hin];
                 [by simplify_eq|]).
    all: by apply elem_of_nil in Hin.
  - unfold call, CheckForUpdates. rewrite Hloader. catalog_run_to_end.
  - done.
Qed.

Lemma methods_need_a_loader_witness :
  let env :=
    sample_collaborators env_with_one_entry (DRIVE_FILE_OK, Some [])
      ([sample_change_list], DRIVE_FILE_OK) true in
  runs_to env
    (call 0 State_new
       (Search "a" {| spec := EmptyString |} (Caller_SearchCallback 0)))
    {| state := State_new; agenda := []; pending := []; now := 0;
       trace := [EvStop NullDereference] |}
  /\ hide_hosted_docs_ (members (fst (Initialize env 0 State_new))) = true.
Proof.
  intros env.
  destruct (methods_need_a_loader env State_new 0 eq_refl)
    as (_ & Hsearch & _ & _ & _ & _ & Hhide).
  split; [apply Hsearch | exact Hhide].
Defined.

End CatalogProperties.
